(** * SC_Binary: the binary downloader script, embedded and verified

    A shallow embedding of [script.py] (class [BinaryDownloader]): the
    manifest [paths_json], the three per-tool download loops, the fetcher
    [_download] and the layout creation, over an explicit model of the
    filesystem, the network and the archive decoders. *)

From Stdlib Require Import ZArith Lia Ascii.
From stdpp Require Import gmap strings list fin_maps pretty.

(** ** Strings as the script uses them *)

(** Python [s.endswith(suffix)]. *)
Definition endswith (s suffix : string) : bool :=
  let n := String.length s in
  let k := String.length suffix in
  (k <=? n)%nat && String.eqb (String.substring (n - k) k s) suffix.

(** Python [s[:n]]. *)
Definition str_take (n : nat) (s : string) : string := String.substring 0 n s.

(** Python [s.split(sep)] for a one-character separator: the pieces between
    the separators, empty pieces included. *)
Fixpoint split_on (sep : ascii) (s : string) : list string :=
  match s with
  | EmptyString => [""]
  | String c r =>
      if Ascii.eqb c sep then "" :: split_on sep r
      else match split_on sep r with
           | [] => [String c ""]
           | w :: ws => String c w :: ws
           end
  end.

(** Python [url.split('/')[-1]]. *)
Definition last_segment (url : string) : string :=
  List.last (split_on "/" url) "".

(** Python [sep.join(parts)]. *)
Fixpoint str_join (sep : string) (parts : list string) : string :=
  match parts with
  | [] => ""
  | [x] => x
  | x :: r => x +:+ sep +:+ str_join sep r
  end.

(** The characters of [s] contain no underscore. *)
Fixpoint no_underscore (s : string) : bool :=
  match s with
  | EmptyString => true
  | String c r => negb (Ascii.eqb c "_") && no_underscore r
  end.

(** Python [f"{n}"] for a non-negative counter. *)
Definition str_nat (n : nat) : string := pretty n.

(** ** Configuration *)

Definition FFMPEG_URL : string :=
  "https://github.com/eugeneware/ffmpeg-static/releases/download/b6.1.1".
Definition BENTO4_URL : string := "https://www.bok.net/Bento4/binaries".
Definition MEGATOOLS_URL : string := "https://megatools.megous.com/builds/builds".

Definition BENTO4_VERSION : string := "1-6-0-641".
Definition MEGATOOLS_VERSION : string := "1.11.3.20250401".

(** Python dict literals that the script only reads are association lists in
    insertion order ([.items()] iterates in that order). *)
Fixpoint assoc {V} (k : string) (d : list (string * V)) : option V :=
  match d with
  | [] => None
  | (k', v) :: r => if String.eqb k k' then Some v else assoc k r
  end.

(** [self.platforms] *)
Definition platforms : list (string * list string) :=
  [ ("windows", ["x64"]);
    ("darwin", ["x64"; "arm64"]);
    ("linux", ["x64"; "arm64"]) ].

(** The tool directory names of [_create_directories]. *)
Definition tools : list string := ["ffmpeg"; "bento4"; "megatools"].

(** [ffmpeg_map] of [download_ffmpeg] *)
Definition ffmpeg_map : list (string * list (string * string)) :=
  [ ("windows", [("x64", "win32-x64")]);
    ("darwin", [("x64", "darwin-x64"); ("arm64", "darwin-arm64")]);
    ("linux", [("x64", "linux-x64"); ("arm64", "linux-arm64")]) ].

(** [platform_config] of [download_bento4] *)
Definition platform_config : list (string * list (string * string)) :=
  [ ("windows", [("x64", "x86_64-microsoft-win32")]);
    ("darwin", [("x64", "universal-apple-macosx"); ("arm64", "universal-apple-macosx")]);
    ("linux", [("x64", "x86_64-unknown-linux"); ("arm64", "x86_64-unknown-linux")]) ].

(** [executables] of [download_bento4] *)
Definition executables : list (string * list string) :=
  [ ("windows", ["mp4decrypt.exe"; "mp4encrypt.exe"; "mp4info.exe"; "mp4dump.exe"]);
    ("darwin", ["mp4decrypt"; "mp4encrypt"; "mp4info"; "mp4dump"]);
    ("linux", ["mp4decrypt"; "mp4encrypt"; "mp4info"; "mp4dump"]) ].

(** [config] of [download_megatools]: (platform_str, extension, executable) *)
Definition config : list (string * list (string * (string * string * string))) :=
  [ ("windows", [("x64", ("win64", ".zip", "megatools.exe"))]);
    ("darwin", [("x64", ("linux-x86_64", ".tar.gz", "megatools"));
                ("arm64", ("linux-aarch64", ".tar.gz", "megatools"))]);
    ("linux", [("x64", ("linux-x86_64", ".tar.gz", "megatools"));
               ("arm64", ("linux-aarch64", ".tar.gz", "megatools"))]) ].

(** The URLs the three loops build: [filename] and [url] of lines 90 and
    91, [url] of line 139 and of line 196. *)
Definition ffmpeg_filename (executable platform_str : string) : string :=
  executable +:+ "-" +:+ platform_str.

Definition ffmpeg_url (executable platform_str : string) : string :=
  FFMPEG_URL +:+ "/" +:+ ffmpeg_filename executable platform_str +:+ ".gz".

Definition bento4_url (platform_str : string) : string :=
  BENTO4_URL +:+ "/Bento4-SDK-" +:+ BENTO4_VERSION +:+ "." +:+ platform_str +:+ ".zip".

Definition megatools_url (platform_str extension : string) : string :=
  MEGATOOLS_URL +:+ "/megatools-" +:+ MEGATOOLS_VERSION +:+ "-" +:+ platform_str +:+ extension.

(** ** The manifest [paths_json] and [_add_path]

    The dict is a finite map from keys to lists of paths; the lists keep the
    order of the appends, the order of the keys is not tracked. *)

Definition manifest_key (platform arch tool : string) : string :=
  platform +:+ "_" +:+ arch +:+ "_" +:+ tool.

Definition rel_path (platform arch tool binary : string) : string :=
  platform +:+ "/" +:+ arch +:+ "/" +:+ tool +:+ "/" +:+ binary.

(** [_add_path] on the dict itself: create the list when the key is absent,
    append the relative path unless the list already holds it. *)
Definition add_path (platform arch tool binary : string)
    (paths : gmap string (list string)) : gmap string (list string) :=
  let key := manifest_key platform arch tool in
  let paths1 := match paths !! key with
                | None => <[key := []]> paths
                | Some _ => paths
                end in
  let rel := rel_path platform arch tool binary in
  match paths1 !! key with
  | Some l => if bool_decide (rel ∈ l) then paths1 else <[key := l ++ [rel]]> paths1
  | None => paths1
  end.

(** ** Filesystem, network and console: the world the script runs in *)

(** A path is the list of its components, relative to the working directory
    ([[]] is the working directory itself); an absolute path starts with the
    component ["/"].  The host is POSIX. *)
Abbreviation Path := (list string).

Inductive node :=
| Dir
| File (data : string) (mode : Z).

Abbreviation FS := (gmap (list string) node).

Definition fs_lookup (f : FS) (p : Path) : option node :=
  match p with
  | [] => Some Dir
  | _ => f !! p
  end.

(** [os.path.join]/[pathlib] rendering of a path. *)
Definition path_str (p : Path) : string := str_join "/" p.

Definition basename (p : Path) : string := List.last p "".

(** The non-empty prefixes of a path, shortest first. *)
Fixpoint prefixes_from (acc p : Path) : list Path :=
  match p with
  | [] => []
  | c :: r => (acc ++ [c]) :: prefixes_from (acc ++ [c]) r
  end.

Definition prefixes (p : Path) : list Path := prefixes_from [] p.

(** [base / name] of [pathlib]: empty and ["."] components of [name] are
    dropped, an absolute [name] replaces [base]. *)
Definition name_components (name : string) : list string :=
  List.filter (fun c => negb (String.eqb c "") && negb (String.eqb c "."))
              (split_on "/" name).

Definition is_absolute (name : string) : bool :=
  match name with
  | String c _ => Ascii.eqb c "/"
  | EmptyString => false
  end.

Definition path_join (base : Path) (name : string) : Path :=
  if is_absolute name then "/" :: name_components name
  else base ++ name_components name.

(** The exceptions the script can meet; all are subclasses of [Exception]. *)
Inductive exn :=
| FileExistsError (p : Path)
| FileNotFoundError (p : Path)
| NotADirectoryError (p : Path)
| IsADirectoryError (p : Path)
| ShutilError (p : Path)
| KeyError (k : string)
| RequestException (msg : string)
| HTTPError (msg : string)
| BadArchive (msg : string).

(** [str(e)] *)
Definition str_exn (e : exn) : string :=
  match e with
  | FileExistsError p => "[Errno 17] File exists: '" +:+ path_str p +:+ "'"
  | FileNotFoundError p => "[Errno 2] No such file or directory: '" +:+ path_str p +:+ "'"
  | NotADirectoryError p => "[Errno 20] Not a directory: '" +:+ path_str p +:+ "'"
  | IsADirectoryError p => "[Errno 21] Is a directory: '" +:+ path_str p +:+ "'"
  | ShutilError p => "Destination path '" +:+ path_str p +:+ "' already exists"
  | KeyError k => "'" +:+ k +:+ "'"
  | RequestException msg => msg
  | HTTPError msg => msg
  | BadArchive msg => msg
  end.

(** What [session.get(url, stream=True, timeout=60)] gives back: the status
    code and the reason phrase of the final response (redirects are followed
    by [requests]), the URL it came from, and what [iter_content] yields: the
    chunks, then possibly an error in the middle of the stream. *)
Record response := Response {
  status_code : nat;
  reason : string;
  final_url : string;
  chunks : list string;
  stream_error : option string
}.

(** The status codes for which [raise_for_status()] raises: the client
    errors 400 to 499 and the server errors 500 to 599, and no other. *)
Definition error_status (code : nat) : bool := (400 <=? code)%nat && (code <? 600)%nat.

(** The message of the [HTTPError] of [raise_for_status()], [None] when it
    returns. *)
Definition http_error (r : response) : option string :=
  if error_status (status_code r) then
    Some (str_nat (status_code r)
          +:+ (if (status_code r <? 500)%nat then " Client Error: " else " Server Error: ")
          +:+ reason r +:+ " for url: " +:+ final_url r)
  else None.

Inductive get_result :=
| GetRaises (msg : string)
| GetReturns (r : response).

(** A member of a zip or tar archive: its name, the bytes it unpacks to, and
    the error its unpacking ends with when the member is damaged.  A name
    that ends with [/] is a directory. *)
Record member := Member {
  filename : string;
  payload : string;
  damaged : option string
}.

(** The collaborators of the script: the network (the answer may depend on
    how many requests came before), the three archive decoders, the JSON
    encoder and the working directory. *)
Record world := World {
  http_get : nat -> string -> get_result;
  gunzip : string -> string * option string;
  unzip : string -> option (list member);
  untar : string -> option (list member);
  json_dumps : gmap string (list string) -> string;
  cwd : string
}.

(** System calls and requests, in the order the script issues them. *)
Inductive event :=
| EvGet (url : string)
| EvMkdir (p : Path)
| EvOpenW (p : Path)
| EvRead (p : Path)
| EvUnlink (p : Path)
| EvChmod (p : Path) (mode : Z)
| EvMove (src dst : Path)
| EvRmtree (p : Path).

Definition get_of (e : event) : option string :=
  match e with EvGet u => Some u | _ => None end.

(** The URLs requested in a trace, in order. *)
Definition gets (t : list event) : list string := omap get_of t.

Definition is_get (e : event) : bool :=
  match e with EvGet _ => true | _ => false end.

Definition is_chmod (e : event) : bool :=
  match e with EvChmod _ _ => true | _ => false end.

(** The state of a run: the filesystem, the manifest [self.paths_json], the
    local counter [success] of the running loop, what was printed, the trace
    of events, and the file mode creation mask of the process, which the
    script never changes. *)
Record state := State {
  fs : FS;
  paths_json : gmap string (list string);
  success : nat;
  stdout : list string;
  trace : list event;
  umask : Z
}.

Definition with_fs (f : FS) (s : state) : state :=
  State f (paths_json s) (success s) (stdout s) (trace s) (umask s).
Definition with_paths (m : gmap string (list string)) (s : state) : state :=
  State (fs s) m (success s) (stdout s) (trace s) (umask s).
Definition with_success (n : nat) (s : state) : state :=
  State (fs s) (paths_json s) n (stdout s) (trace s) (umask s).
Definition with_stdout (o : list string) (s : state) : state :=
  State (fs s) (paths_json s) (success s) o (trace s) (umask s).
Definition with_trace (t : list event) (s : state) : state :=
  State (fs s) (paths_json s) (success s) (stdout s) t (umask s).

(** ** The monad of the script: state that survives a raised exception *)

Inductive outcome (A : Type) :=
| Ret (a : A)
| Raise (e : exn).
Arguments Ret {A} a.
Arguments Raise {A} e.

Definition M (A : Type) : Type := state -> outcome A * state.

Definition ret {A} (a : A) : M A := fun s => (Ret a, s).

Definition raise {A} (e : exn) : M A := fun s => (Raise e, s).

Definition bind {A B} (m : M A) (k : A -> M B) : M B :=
  fun s => match m s with
           | (Ret a, s') => k a s'
           | (Raise e, s') => (Raise e, s')
           end.

(** [try: m except Exception as e: handler e] *)
Definition try_except {A} (m : M A) (handler : exn -> M A) : M A :=
  fun s => match m s with
           | (Ret a, s') => (Ret a, s')
           | (Raise e, s') => handler e s'
           end.

Notation "'let*' x ':=' m 'in' k" := (bind m (fun x => k))
  (at level 10, x name, m at level 100, k at level 200).
Notation "m1 >> m2" := (bind m1 (fun _ => m2))
  (at level 100, m2 at level 200, right associativity).

(** [for x in xs: body x] *)
Fixpoint for_each {A} (xs : list A) (body : A -> M unit) : M unit :=
  match xs with
  | [] => ret tt
  | x :: r => body x >> for_each r body
  end.

Definition get_fs : M FS := fun s => (Ret (fs s), s).
Definition set_fs (f : FS) : M unit := fun s => (Ret tt, with_fs f s).
Definition get_paths : M (gmap string (list string)) := fun s => (Ret (paths_json s), s).
Definition set_paths (m : gmap string (list string)) : M unit :=
  fun s => (Ret tt, with_paths m s).
Definition get_success : M nat := fun s => (Ret (success s), s).
Definition set_success (n : nat) : M unit := fun s => (Ret tt, with_success n s).
Definition get_trace : M (list event) := fun s => (Ret (trace s), s).
Definition get_umask : M Z := fun s => (Ret (umask s), s).
Definition log (e : event) : M unit :=
  fun s => (Ret tt, with_trace (trace s ++ [e]) s).

Definition nl : string := String "010"%char "".

(** [print(text, end="")] and [print(line)] *)
Definition print_noeol (text : string) : M unit :=
  fun s => (Ret tt, with_stdout (stdout s ++ [text]) s).
Definition print (line : string) : M unit := print_noeol (line +:+ nl).

(** ** Filesystem primitives *)

(** One step of [mkdir(parents=True, exist_ok=True)] on the way down to
    [target]: an existing directory is kept, a missing component is created,
    and a file in the way is an error.  The error is the one of
    [os.mkdir(target)], which [pathlib] calls first and lets through: it
    names [target], as [FileExistsError] when the file is at [target] itself
    and as [NotADirectoryError] when it is above it. *)
Definition mkdir_component (target q : Path) : M unit :=
  let* f := get_fs in
  match fs_lookup f q with
  | Some Dir => ret tt
  | Some (File _ _) =>
      raise (if bool_decide (q = target) then FileExistsError target
             else NotADirectoryError target)
  | None => set_fs (<[q := Dir]> f)
  end.

(** [p.mkdir(parents=True, exist_ok=True)] *)
Definition mkdir_parents (p : Path) : M unit :=
  log (EvMkdir p) >> for_each (prefixes p) (mkdir_component p).

(** What a missing or non-directory parent makes of creating [p]. *)
Definition parent_error (f : FS) (p : Path) : option exn :=
  match fs_lookup f (removelast p) with
  | Some Dir => None
  | Some (File _ _) => Some (NotADirectoryError p)
  | None => Some (FileNotFoundError p)
  end.

(** [p.mkdir(exist_ok=True)] *)
Definition mkdir_exist_ok (p : Path) : M unit :=
  log (EvMkdir p) >>
  let* f := get_fs in
  match fs_lookup f p with
  | Some Dir => ret tt
  | Some (File _ _) => raise (FileExistsError p)
  | None =>
      match parent_error f p with
      | Some e => raise e
      | None => set_fs (<[p := Dir]> f)
      end
  end.

(** The mode [open] creates a file with: 0666 without the bits of the
    mask. *)
Definition create_mode (mask : Z) : Z := Z.land 438 (Z.lnot mask).

(** [open(p, 'wb')]: the file is created or truncated; an existing file
    keeps its mode, a new one gets 0666 masked by the umask. *)
Definition open_wb (p : Path) : M unit :=
  log (EvOpenW p) >>
  let* f := get_fs in
  let* mask := get_umask in
  match fs_lookup f p with
  | Some Dir => raise (IsADirectoryError p)
  | Some (File _ mode) => set_fs (<[p := File "" mode]> f)
  | None =>
      match parent_error f p with
      | Some e => raise e
      | None => set_fs (<[p := File "" (create_mode mask)]> f)
      end
  end.

(** [f.write(chunk)] on the file opened at [p]. *)
Definition fs_write (p : Path) (chunk : string) : M unit :=
  let* f := get_fs in
  match f !! p with
  | Some (File data mode) => set_fs (<[p := File (data +:+ chunk) mode]> f)
  | _ => ret tt
  end.

(** Open [p] for reading and read it whole. *)
Definition read_file (p : Path) : M string :=
  log (EvRead p) >>
  let* f := get_fs in
  match fs_lookup f p with
  | Some (File data _) => ret data
  | Some Dir => raise (IsADirectoryError p)
  | None => raise (FileNotFoundError p)
  end.

(** [p.unlink()] *)
Definition unlink (p : Path) : M unit :=
  log (EvUnlink p) >>
  let* f := get_fs in
  match fs_lookup f p with
  | Some (File _ _) => set_fs (delete p f)
  | Some Dir => raise (IsADirectoryError p)
  | None => raise (FileNotFoundError p)
  end.

(** [os.chmod(p, mode)]; the mode of a directory is not tracked. *)
Definition chmod (p : Path) (mode : Z) : M unit :=
  log (EvChmod p mode) >>
  let* f := get_fs in
  match fs_lookup f p with
  | Some (File data _) => set_fs (<[p := File data mode]> f)
  | Some Dir => ret tt
  | None => raise (FileNotFoundError p)
  end.

(** [p.exists()] *)
Definition path_exists (p : Path) : M bool :=
  let* f := get_fs in
  ret (match fs_lookup f p with Some _ => true | None => false end).

Definition under (root : Path) (k : Path) : bool := bool_decide (root `prefix_of` k).

(** [shutil.rmtree(p)] *)
Definition rmtree (p : Path) : M unit :=
  log (EvRmtree p) >>
  let* f := get_fs in
  match fs_lookup f p with
  | Some Dir => set_fs (filter (fun kv => under p kv.1 = false) f)
  | Some (File _ _) => raise (NotADirectoryError p)
  | None => raise (FileNotFoundError p)
  end.

(** The tree at [src] re-rooted at [dst], replacing what was at [dst]. *)
Definition reroot (src dst k : Path) : Path := dst ++ drop (length src) k.

Definition fs_rename (src dst : Path) (f : FS) : FS :=
  let moved := filter (fun kv => under src kv.1 = true) f in
  let rest := filter (fun kv => under src kv.1 = false) (delete dst f) in
  list_to_map (List.map (fun kv => (reroot src dst kv.1, kv.2)) (map_to_list moved)) ∪ rest.

(** [shutil.move(str(src), str(dst))]: into [dst] when [dst] is a directory
    (an entry of that name already there is an error), else onto [dst]; a
    file replaces a file, a directory cannot replace a file nor move below
    itself. *)
Definition shutil_move (src dst : Path) : M unit :=
  log (EvMove src dst) >>
  let* f := get_fs in
  let into := match fs_lookup f dst with Some Dir => true | _ => false end in
  let real_dst := if into then dst ++ [basename src] else dst in
  match fs_lookup f src with
  | None => raise (FileNotFoundError src)
  | Some n =>
      if into && bool_decide (src = dst) then ret tt
      else
        match fs_lookup f real_dst, into, n with
        | Some _, true, _ => raise (ShutilError real_dst)
        | Some _, false, Dir => raise (FileExistsError real_dst)
        | _, _, _ =>
            if under src real_dst && negb (bool_decide (src = real_dst))
            then raise (ShutilError real_dst)
            else
              match parent_error f real_dst with
              | Some e => raise e
              | None => set_fs (fs_rename src real_dst f)
              end
        end
  end.

(** The directories [os.walk(top)] visits, each before the directories
    below it; the order among the entries of one directory is the
    enumeration order of the map. *)
Definition subdirs (f : FS) (d : Path) : list Path :=
  omap (fun kv => match kv.2 with
                  | Dir =>
                      if bool_decide (removelast kv.1 = d ∧ kv.1 ≠ [])
                      then Some kv.1 else None
                  | File _ _ => None
                  end)
       (map_to_list f).

Fixpoint walk_dirs (fuel : nat) (f : FS) (top : Path) : list Path :=
  match fuel with
  | 0 => [top]
  | S fuel' => top :: List.concat (List.map (walk_dirs fuel' f) (subdirs f top))
  end.

Definition os_walk (top : Path) : M (list Path) :=
  let* f := get_fs in
  ret (match fs_lookup f top with
       | Some Dir => walk_dirs (size f) f top
       | _ => []
       end).

(** [executable in files] for the [files] that [os.walk] lists at [root]. *)
Definition has_file (f : FS) (root : Path) (name : string) : bool :=
  match f !! (root ++ [name]) with
  | Some (File _ _) => true
  | _ => false
  end.

(** Where an archive reader puts a member below [dest]: empty, ["."] and
    [".."] components of the name are dropped. *)
Definition member_target (dest : Path) (m : member) : Path :=
  dest ++ List.filter (fun c => negb (String.eqb c "..")) (name_components (filename m)).

Definition is_dir_member (m : member) : bool := endswith (filename m) "/".

(** One step of [os.makedirs(p)] on the way down to [p]: an existing
    directory is kept, a missing component is created; below a file no
    directory can be made, and the [os.mkdir] of the component below the file
    is the one that fails. *)
Definition makedirs_component (p q : Path) : M unit :=
  let* f := get_fs in
  match fs_lookup f q with
  | Some Dir => ret tt
  | Some (File _ _) =>
      raise (if bool_decide (q = p) then FileExistsError p
             else NotADirectoryError (take (S (length q)) p))
  | None => set_fs (<[q := Dir]> f)
  end.

(** [os.makedirs(p)] when [p] does not exist. *)
Definition makedirs_missing (p : Path) : M unit :=
  let* f := get_fs in
  match fs_lookup f p with
  | Some _ => ret tt
  | None => for_each (prefixes p) (makedirs_component p)
  end.

(** [archive.extract(member, dest)]: the directories above the target are
    made, a directory member is made, a file member is written; a damaged
    member raises after its readable part was written. *)
Definition extract_member (dest : Path) (m : member) : M unit :=
  let target := member_target dest m in
  makedirs_missing (removelast target) >>
  if is_dir_member m then
    let* f := get_fs in
    match fs_lookup f target with
    | Some Dir => ret tt
    | _ => mkdir_exist_ok target
    end
  else
    open_wb target >>
    fs_write target (payload m) >>
    match damaged m with
    | Some msg => raise (BadArchive msg)
    | None => ret tt
    end.

(** ** The script *)

Section BinaryDownloader.

Variable W : world.

(** [self.base_path] *)
Variable base_path : Path.

(** [self.base_path / platform_name / arch / tool] *)
Definition tool_dir (platform_name arch tool : string) : Path :=
  base_path ++ [platform_name; arch; tool].

Definition _create_directories : M unit :=
  for_each platforms (fun pa =>
    for_each pa.2 (fun arch =>
      mkdir_parents (tool_dir pa.1 arch "ffmpeg") >>
      mkdir_parents (tool_dir pa.1 arch "bento4") >>
      mkdir_parents (tool_dir pa.1 arch "megatools"))).

(** [self.session.get(url, stream=True, timeout=60)] *)
Definition session_get (url : string) : M response :=
  let* t := get_trace in
  log (EvGet url) >>
  match http_get W (length (gets t)) url with
  | GetRaises msg => raise (RequestException msg)
  | GetReturns r => ret r
  end.

(** [response.raise_for_status()] *)
Definition raise_for_status (r : response) : M unit :=
  match http_error r with
  | Some msg => raise (HTTPError msg)
  | None => ret tt
  end.

(** The end of [for chunk in response.iter_content(...)]. *)
Definition iter_end (r : response) : M unit :=
  match stream_error r with
  | Some msg => raise (RequestException msg)
  | None => ret tt
  end.

(** What [_download] does with the response, lines 47 to 53: the status
    check, then the file and the chunks. *)
Definition write_response (response : response) (dest : Path) : M bool :=
  raise_for_status response >>
  open_wb dest >>
  for_each (chunks response) (fs_write dest) >>
  iter_end response >>
  ret true.

(** The [try] block of [_download], lines 46 to 53. *)
Definition download_attempt (url : string) (dest : Path) : M bool :=
  let* response := session_get url in
  write_response response dest.

(** The line [_download] prints for the exception [e], line 55. *)
Definition download_diagnostic (url : string) (e : exn) : string :=
  "  X " +:+ last_segment url +:+ ": " +:+ str_take 50 (str_exn e).

Definition _download (url : string) (dest : Path) : M bool :=
  try_except
    (download_attempt url dest)
    (fun e => print (download_diagnostic url e) >> ret false).

Definition _add_path (platform arch tool binary : string) : M unit :=
  let* paths := get_paths in
  set_paths (add_path platform arch tool binary paths).

(** [d[k]] on a dict literal. *)
Definition dict_index {V} (d : list (string * V)) (k : string) : M V :=
  match assoc k d with
  | Some v => ret v
  | None => raise (KeyError k)
  end.

(** [success += 1] *)
Definition incr_success : M unit :=
  let* n := get_success in set_success (n + 1).

(** [if platform_name != "windows": os.chmod(p, 0o755)] *)
Definition chmod_unless_windows (platform_name : string) (p : Path) : M unit :=
  if String.eqb platform_name "windows" then ret tt else chmod p 493.

(** [with gzip.open(gz_path, 'rb') as f_in: with open(final_path, 'wb') as
    f_out: shutil.copyfileobj(f_in, f_out)] *)
Definition gzip_copy (gz_path final_path : Path) : M unit :=
  let* data := read_file gz_path in
  open_wb final_path >>
  fs_write final_path (gunzip W data).1 >>
  match (gunzip W data).2 with
  | Some msg => raise (BadArchive msg)
  | None => ret tt
  end.

(** The extension of line 94. *)
Definition exe_ext (platform_name : string) : string :=
  if String.eqb platform_name "windows" then ".exe" else "".

(** The [try] block of [download_ffmpeg], lines 99 to 109. *)
Definition ffmpeg_extract (platform_name arch executable : string)
    (gz_path final_path : Path) : M unit :=
  gzip_copy gz_path final_path >>
  unlink gz_path >>
  chmod_unless_windows platform_name final_path >>
  _add_path platform_name arch "ffmpeg" (executable +:+ exe_ext platform_name) >>
  incr_success.

(** The body of [for executable in ['ffmpeg', 'ffprobe']], lines 90 to 111. *)
Definition ffmpeg_executable (platform_name arch platform_str executable : string)
    : M unit :=
  let target_dir := tool_dir platform_name arch "ffmpeg" in
  let filename := ffmpeg_filename executable platform_str in
  let url := ffmpeg_url executable platform_str in
  let gz_path := target_dir ++ [filename +:+ ".gz"] in
  let ext := exe_ext platform_name in
  let final_path := target_dir ++ [executable +:+ ext] in
  let* ok := _download url gz_path in
  if ok then
    try_except
      (ffmpeg_extract platform_name arch executable gz_path final_path)
      (fun e => print ("  X extract " +:+ executable))
  else ret tt.

(** [d.get(arch)] followed by [if not platform_str]. *)
Definition get_platform_str (d : list (string * string)) (arch : string) : option string :=
  match assoc arch d with
  | Some "" => None
  | o => o
  end.

(** The body of the two loops of [download_ffmpeg], lines 79 to 113. *)
Definition ffmpeg_target (platform_name arch : string) : M unit :=
  print_noeol (platform_name +:+ "-" +:+ arch +:+ ": ") >>
  let* d := dict_index ffmpeg_map platform_name in
  match get_platform_str d arch with
  | None => print "skip"
  | Some platform_str =>
      set_success 0 >>
      for_each ["ffmpeg"; "ffprobe"] (ffmpeg_executable platform_name arch platform_str) >>
      let* n := get_success in
      print (str_nat n +:+ "/2")
  end.

Definition download_ffmpeg : M unit :=
  print (nl +:+ "=== FFmpeg ===") >>
  for_each platforms (fun pa => for_each pa.2 (ffmpeg_target pa.1)).

(** [zipfile.ZipFile(p, 'r')]: the members in archive order ([filelist]). *)
Definition zip_open (p : Path) : M (list member) :=
  let* data := read_file p in
  match unzip W data with
  | Some ms => ret ms
  | None => raise (BadArchive "File is not a zip file")
  end.

(** [tarfile.open(p, 'r:gz')] *)
Definition tar_open (p : Path) : M (list member) :=
  let* data := read_file p in
  match untar W data with
  | Some ms => ret ms
  | None => raise (BadArchive "not a gzip file")
  end.

(** The body of [if zip_info.filename.endswith(executable)], lines 154 to
    170. *)
Definition bento4_install (platform_name arch : string) (zip_info : member)
    (executable : string) : M unit :=
  let target_dir := tool_dir platform_name arch "bento4" in
  let temp_path := target_dir ++ ["temp"] in
  mkdir_exist_ok temp_path >>
  extract_member temp_path zip_info >>
  let src := path_join temp_path (filename zip_info) in
  let dst := target_dir ++ [executable] in
  shutil_move src dst >>
  chmod_unless_windows platform_name dst >>
  _add_path platform_name arch "bento4" executable >>
  incr_success >>
  let* there := path_exists temp_path in
  if there then rmtree temp_path else ret tt.

(** The [try] block of [download_bento4], lines 150 to 172. *)
Definition bento4_extract (platform_name arch : string) (zip_path : Path) : M unit :=
  let* zip_ref := zip_open zip_path in
  for_each zip_ref (fun zip_info =>
    let* names := dict_index executables platform_name in
    for_each names (fun executable =>
      if endswith (filename zip_info) executable
      then bento4_install platform_name arch zip_info executable
      else ret tt)) >>
  unlink zip_path.

(** The body of the two loops of [download_bento4], lines 132 to 176. *)
Definition bento4_target (platform_name arch : string) : M unit :=
  print_noeol (platform_name +:+ "-" +:+ arch +:+ ": ") >>
  let* d := dict_index platform_config platform_name in
  match get_platform_str d arch with
  | None => print "skip"
  | Some platform_str =>
      let url := bento4_url platform_str in
      let target_dir := tool_dir platform_name arch "bento4" in
      let zip_path := target_dir ++ ["bento4.zip"] in
      let* ok := _download url zip_path in
      if negb ok then print "0/4"
      else
        set_success 0 >>
        try_except
          (bento4_extract platform_name arch zip_path)
          (fun e => print ("  X extract: " +:+ str_take 40 (str_exn e))) >>
        let* n := get_success in
        print (str_nat n +:+ "/4")
  end.

Definition download_bento4 : M unit :=
  print (nl +:+ "=== Bento4 ===") >>
  for_each platforms (fun pa => for_each pa.2 (bento4_target pa.1)).

(** The [try] block of [download_megatools], lines 207 to 231. *)
Definition megatools_extract (platform_name arch extension executable : string)
    (archive_path : Path) : M unit :=
  let target_dir := tool_dir platform_name arch "megatools" in
  let temp_dir := target_dir ++ ["temp"] in
  mkdir_exist_ok temp_dir >>
  (let* archive := (if String.eqb extension ".zip"
                    then zip_open archive_path else tar_open archive_path) in
   for_each archive (extract_member temp_dir)) >>
  let* roots := os_walk temp_dir in
  let* f := get_fs in
  match List.find (fun root => has_file f root executable) roots with
  | Some root =>
      let src := root ++ [executable] in
      let dst := target_dir ++ [executable] in
      shutil_move src dst >>
      chmod_unless_windows platform_name dst >>
      _add_path platform_name arch "megatools" executable >>
      set_success 1
  | None => ret tt
  end >>
  rmtree temp_dir >>
  unlink archive_path.

(** The body of the two loops of [download_megatools], lines 189 to 235. *)
Definition megatools_target (platform_name arch : string) : M unit :=
  print_noeol (platform_name +:+ "-" +:+ arch +:+ ": ") >>
  let* d := dict_index config platform_name in
  match assoc arch d with
  | None => print "skip"
  | Some (platform_str, extension, executable) =>
      let url := megatools_url platform_str extension in
      let target_dir := tool_dir platform_name arch "megatools" in
      let archive_path := target_dir ++ ["megatools" +:+ extension] in
      let* ok := _download url archive_path in
      if negb ok then print "0/1"
      else
        set_success 0 >>
        try_except
          (megatools_extract platform_name arch extension executable archive_path)
          (fun e => print ("  X extract: " +:+ str_take 40 (str_exn e))) >>
        let* n := get_success in
        print (str_nat n +:+ "/1")
  end.

Definition download_megatools : M unit :=
  print (nl +:+ "=== Megatools ===") >>
  for_each platforms (fun pa => for_each pa.2 (megatools_target pa.1)).

(** [p.absolute()] as text. *)
Definition absolute (p : Path) : string := path_str (cwd W :: p).

Definition save_paths_json : M unit :=
  let json_path := ["binary_paths.json"] in
  open_wb json_path >>
  (let* paths := get_paths in fs_write json_path (json_dumps W paths)) >>
  print (nl +:+ "Paths: " +:+ absolute json_path).

Definition run : M unit :=
  print "Binary Downloader" >>
  print ("Base: " +:+ absolute base_path) >>
  download_ffmpeg >>
  download_bento4 >>
  download_megatools >>
  save_paths_json >>
  print (nl +:+ "Done!").

(** [BinaryDownloader.__init__]: the empty manifest, then the layout. *)
Definition __init__ : M unit :=
  set_paths ∅ >>
  _create_directories.

End BinaryDownloader.

(** [downloader = BinaryDownloader(); downloader.run()] with the default
    base path [./binaries]. *)
Definition main (W : world) : M unit :=
  __init__ ["binaries"] >> run W ["binaries"].

(** A state to start from: nothing printed, nothing requested, and the
    usual mask 022. *)
Definition initial (f : FS) : state := State f ∅ 0 [] [] 18.

(** ** Vocabulary of the statements *)

(** A call of [_add_path]: (platform, arch, tool, binary). *)
Definition record (paths : gmap string (list string))
    (call : string * string * string * string) : gmap string (list string) :=
  add_path call.1.1.1 call.1.1.2 call.1.2 call.2 paths.

(** The manifest after a sequence of [_add_path] calls, oldest first. *)
Definition record_all (calls : list (string * string * string * string))
    (paths : gmap string (list string)) : gmap string (list string) :=
  fold_left record calls paths.

(** The list [_add_path] leaves at its key. *)
Definition append_new (x : string) (l : list string) : list string :=
  if bool_decide (x ∈ l) then l else l ++ [x].

(** How often [x] occurs in [l]. *)
Definition occurrences (x : string) (l : list string) : nat :=
  length (List.filter (String.eqb x) l).

(** Every path under a key that reads [{p}_{a}_{t}] is [{p}/{a}/{t}/...]. *)
Definition key_path_consistent (paths : gmap string (list string)) : Prop :=
  forall p a t l x,
    paths !! manifest_key p a t = Some l -> x ∈ l -> exists b, x = rel_path p a t b.

(** The components of a call that make the key hold no underscore. *)
Definition plain_call (call : string * string * string * string) : bool :=
  no_underscore call.1.1.1 && no_underscore call.1.1.2 && no_underscore call.1.2.

Fixpoint count_underscore (s : string) : nat :=
  match s with
  | EmptyString => 0
  | String c r => (if Ascii.eqb c "_" then 1 else 0) + count_underscore r
  end.

(** [R] holds between the state before and the state after [m], whether
    [m] returns or raises. *)
Definition relates (R : state -> state -> Prop) {A} (m : M A) : Prop :=
  forall s, R s (snd (m s)).

(** [m] always returns, and requests exactly the URLs [l], in order. *)
Definition emits (l : list string) {A} (m : M A) : Prop :=
  forall s, exists a s', m s = (Ret a, s') /\ gets (trace s') = gets (trace s) ++ l.

(** No request is made. *)
Definition quiet (s s' : state) : Prop := gets (trace s') = gets (trace s).

(** Every recorded path is still recorded, under its key. *)
Definition keeps_paths (s s' : state) : Prop :=
  forall k l x, paths_json s !! k = Some l -> x ∈ l ->
                exists l', paths_json s' !! k = Some l' /\ x ∈ l'.

(** No mode change is attempted. *)
Definition no_chmod (s s' : state) : Prop :=
  List.filter is_chmod (trace s') = List.filter is_chmod (trace s).

(** The events before are a prefix of the events after. *)
Definition extends_trace (s s' : state) : Prop := trace s `prefix_of` trace s'.

(** The targets of the matrix, in the order the loops visit them. *)
Definition targets : list (string * string) :=
  flat_map (fun pa => List.map (pair pa.1) pa.2) platforms.

(** The names a tool installs for a target, read off the script's tables. *)
Definition cell_binaries (platform arch tool : string) : list string :=
  if String.eqb tool "ffmpeg" then
    ["ffmpeg" +:+ exe_ext platform; "ffprobe" +:+ exe_ext platform]
  else if String.eqb tool "bento4" then
    default [] (assoc platform executables)
  else if String.eqb tool "megatools" then
    match assoc platform config with
    | Some d => match assoc arch d with
                | Some (_, _, executable) => [executable]
                | None => []
                end
    | None => []
    end
  else [].

(** What [_add_path] is called with during a run. *)
Definition cell_call (platform arch tool binary : string) : Prop :=
  (platform, arch) ∈ targets /\ tool ∈ tools /\ binary ∈ cell_binaries platform arch tool.

(** The shape of the manifest: each key is [{platform}_{arch}_{tool}] for a
    target of the matrix and a tool, each path under it is
    [{platform}/{arch}/{tool}/{binary}] for a binary of that tool. *)
Definition manifest_shape (paths : gmap string (list string)) : Prop :=
  forall k l, paths !! k = Some l ->
    exists p a t, (p, a) ∈ targets /\ t ∈ tools /\ k = manifest_key p a t
      /\ forall x, x ∈ l -> exists b, b ∈ cell_binaries p a t /\ x = rel_path p a t b.

Definition keeps_shape (s s' : state) : Prop :=
  manifest_shape (paths_json s) -> manifest_shape (paths_json s').

(** The URLs each loop requests for a target. *)
Definition ffmpeg_urls (platform arch : string) : list string :=
  match assoc platform ffmpeg_map with
  | Some d => match get_platform_str d arch with
              | Some platform_str =>
                  [ffmpeg_url "ffmpeg" platform_str; ffmpeg_url "ffprobe" platform_str]
              | None => []
              end
  | None => []
  end.

Definition bento4_urls (platform arch : string) : list string :=
  match assoc platform platform_config with
  | Some d => match get_platform_str d arch with
              | Some platform_str => [bento4_url platform_str]
              | None => []
              end
  | None => []
  end.

Definition megatools_urls (platform arch : string) : list string :=
  match assoc platform config with
  | Some d => match assoc arch d with
              | Some (platform_str, extension, _) => [megatools_url platform_str extension]
              | None => []
              end
  | None => []
  end.

(** Everything a run requests, in order. *)
Definition run_urls : list string :=
  flat_map (fun pa => ffmpeg_urls pa.1 pa.2) targets
  ++ flat_map (fun pa => bento4_urls pa.1 pa.2) targets
  ++ flat_map (fun pa => megatools_urls pa.1 pa.2) targets.

(** What opening [p] for writing raises in the filesystem [f], if anything. *)
Definition open_error (f : FS) (p : Path) : option exn :=
  match fs_lookup f p with
  | Some Dir => Some (IsADirectoryError p)
  | Some (File _ _) => None
  | None => parent_error f p
  end.

(** What stops a fetch of [url] into [dest] from the state [s], if anything:
    the request raising (a network error, a timeout), an error status, the
    destination not opening, the stream breaking off. *)
Definition fetch_failure (W : world) (url : string) (dest : Path) (s : state)
    : option exn :=
  match http_get W (length (gets (trace s))) url with
  | GetRaises msg => Some (RequestException msg)
  | GetReturns r =>
      match http_error r with
      | Some msg => Some (HTTPError msg)
      | None =>
          match open_error (fs s) dest with
          | Some e => Some e
          | None => option_map RequestException (stream_error r)
          end
      end
  end.

(** The directories [_create_directories] makes, in the order it makes
    them. *)
Definition layout_dirs (base : Path) : list Path :=
  flat_map (fun pa => flat_map (fun arch => List.map (tool_dir base pa.1 arch) tools) pa.2)
           platforms.

(** [f'] is [f] with some missing paths among [qs] made directories, and
    nothing else changed. *)
Definition grown (qs : list Path) (f f' : FS) : Prop :=
  forall k, f' !! k = f !! k \/ (f !! k = None /\ f' !! k = Some Dir /\ k ∈ qs).

(** ** Worlds to run the script in *)

(** A sound archive member whose content names it. *)
Definition sound (name : string) : member := Member name ("<" +:+ name +:+ ">") None.

(** The members of a Bento4 SDK archive, for the executables [names]. *)
Definition sdk_members (names : list string) : list member :=
  sound "sdk/" :: sound "sdk/bin/" :: List.map (fun n => sound ("sdk/bin/" +:+ n)) names.

(** A network on which every request succeeds and the body of a resource is
    its URL, in two chunks; every archive is sound: the SDK archives hold the
    four tools of their platform, the megatools archives the one tool. *)
Definition serve_url (n : nat) (url : string) : get_result :=
  GetReturns (Response 200 "OK" url ["GET "; url] None).

Definition unzip_by_name (data : string) : option (list member) :=
  if endswith data "win32.zip" then
    Some (sdk_members ["mp4decrypt.exe"; "mp4encrypt.exe"; "mp4info.exe"; "mp4dump.exe"])
  else if endswith data "win64.zip" then
    Some [sound "megatools-win64/"; sound "megatools-win64/megatools.exe"]
  else
    Some (sdk_members ["mp4decrypt"; "mp4encrypt"; "mp4info"; "mp4dump"]).

Definition untar_by_name (data : string) : option (list member) :=
  Some [sound "megatools/"; sound "megatools/README"; sound "megatools/megatools"].

Definition happy_world : world :=
  World serve_url (fun data => ("ELF " +:+ data, None)) unzip_by_name untar_by_name
        (fun _ => "{}") "/work".

(** The same, but the SDK archives hold a second entry whose path ends with
    [mp4info], after the first. *)
Definition unzip_with_duplicate (data : string) : option (list member) :=
  Some (sdk_members ["mp4decrypt"; "mp4encrypt"; "mp4info"; "mp4dump"]
        ++ [sound "sdk/utils/mp4info"]).

Definition duplicate_world : world :=
  World serve_url (fun data => ("ELF " +:+ data, None)) unzip_with_duplicate untar_by_name
        (fun _ => "{}") "/work".

(** The SDK archives hold three of the four tools, once each. *)
Definition unzip_three (data : string) : option (list member) :=
  Some (sdk_members ["mp4decrypt"; "mp4info"; "mp4dump"]).

Definition three_world : world :=
  World serve_url (fun data => ("ELF " +:+ data, None)) unzip_three untar_by_name
        (fun _ => "{}") "/work".

(** A failing network and damaged archives: the first request (ffmpeg for
    windows) raises, the third answers with an error status, the fifth breaks
    in the middle of the stream, the SDK archives are no zip files and the
    gzip stream of every [ffprobe] is damaged. *)
Definition serve_flaky (n : nat) (url : string) : get_result :=
  match n with
  | 0 => GetRaises "HTTPSConnectionPool(host='github.com', port=443): Max retries exceeded"
  | 2 => GetReturns (Response 404 "Not Found" url ["<html>"] None)
  | 4 => GetReturns (Response 200 "OK" url ["GET "] (Some "Connection broken: IncompleteRead"))
  | _ => GetReturns (Response 200 "OK" url ["GET "; url] None)
  end.

Definition gunzip_flaky (data : string) : string * option string :=
  if endswith data "ffprobe-linux-x64.gz" then ("ELF", Some "CRC check failed")
  else ("ELF " +:+ data, None).

Definition flaky_world : world :=
  World serve_flaky gunzip_flaky (fun _ => None) untar_by_name (fun _ => "{}") "/work".

(** A network that answers every request with [304 Not Modified] and no
    body; nothing unpacks. *)
Definition serve_not_modified (n : nat) (url : string) : get_result :=
  GetReturns (Response 304 "Not Modified" url [] None).

Definition not_modified_world : world :=
  World serve_not_modified (fun _ => ("", Some "Not a gzipped file")) (fun _ => None)
        (fun _ => None) (fun _ => "{}") "/work".

(** The state in which [run] starts when the layout was made in an empty
    working directory. *)
Definition after_layout : state := snd (__init__ ["binaries"] (initial ∅)).

(** ** Vocabulary of the further properties *)

(** What the chunks of a response add up to. *)
Definition written (cs : list string) : string := foldr String.append "" cs.

(** The mode a file has after [open(p, 'wb')] in the state [s]: the mode
    it had, and 0666 masked by the umask when it is new. *)
Definition open_mode (s : state) (p : Path) : Z :=
  match fs_lookup (fs s) p with
  | Some (File _ mode) => mode
  | _ => create_mode (umask s)
  end.

(** The state in which the [try] block of [_download] ends, lines 46 to 53:
    the request is logged; when the status passed, the destination was
    opened; when it opened, it holds the chunks that arrived. *)
Definition after_attempt (W : world) (url : string) (dest : Path) (s : state) : state :=
  let s1 := with_trace (trace s ++ [EvGet url]) s in
  match http_get W (length (gets (trace s))) url with
  | GetRaises _ => s1
  | GetReturns r =>
      match http_error r with
      | Some _ => s1
      | None =>
          let s2 := with_trace (trace s1 ++ [EvOpenW dest]) s1 in
          match open_error (fs s) dest with
          | Some _ => s2
          | None =>
              with_fs (<[dest := File (written (chunks r)) (open_mode s dest)]> (fs s)) s2
          end
      end
  end.

(** The console after the label of a target was printed, lines 79, 132 and
    189. *)
Definition labelled (p a : string) (s : state) : state :=
  with_stdout (stdout s ++ [p +:+ "-" +:+ a +:+ ": "]) s.

(** The happy network, but every zip archive holds a text file only. *)
Definition readme_world : world :=
  World serve_url (fun data => ("ELF " +:+ data, None))
        (fun _ => Some [sound "docs/"; sound "docs/README.txt"]) untar_by_name
        (fun _ => "{}") "/work".

(** The manifest and the counter are as they were. *)
Definition same_books (s s' : state) : Prop :=
  paths_json s' = paths_json s /\ success s' = success s.

(** [_add_path] when [b] holds, nothing otherwise. *)
Definition add_if (b : bool) (platform arch tool binary : string)
    (paths : gmap string (list string)) : gmap string (list string) :=
  if b then add_path platform arch tool binary paths else paths.

(** The state of [after_layout] with the megatools archive of linux/x64
    fetched from the happy network. *)
Definition megatools_fetched : state :=
  snd (_download happy_world (megatools_url "linux-x86_64" ".tar.gz")
         ["binaries"; "linux"; "x64"; "megatools"; "megatools.tar.gz"] after_layout).

(** A file lies at [q]. *)
Definition is_file (f : FS) (q : Path) : bool :=
  match f !! q with
  | Some (File _ _) => true
  | _ => false
  end.

(** What [d.mkdir(parents=True, exist_ok=True)] raises for a file at [q] on
    the way to [d]; the exception names [d]. *)
Definition mkdir_error (d q : Path) : exn :=
  if bool_decide (q = d) then FileExistsError d else NotADirectoryError d.

(** No list of the manifest holds a path twice. *)
Definition duplicate_free (paths : gmap string (list string)) : Prop :=
  forall k l, paths !! k = Some l -> NoDup l.

Definition keeps_duplicate_free (s s' : state) : Prop :=
  duplicate_free (paths_json s) -> duplicate_free (paths_json s').

(** How many executables a tool has for one target, by the tables of the
    three loops. *)
Definition capacity (tool : string) : nat :=
  if String.eqb tool "ffmpeg" then 2
  else if String.eqb tool "megatools" then 1
  else 4.


(** The string holds a [/]. *)
Fixpoint has_slash (s : string) : bool :=
  match s with
  | EmptyString => false
  | String c r => Ascii.eqb c "/" || has_slash r
  end.

(** The names an entry of the archive matches, in the order the inner loop
    of lines 152 and 153 tests them. *)
Definition entry_matches (names : list string) (zip_info : member) : list string :=
  List.filter (endswith (filename zip_info)) names.

(** The installations the two loops of lines 151 to 153 come to for an
    archive, in order: entry by entry, name by name. *)
Definition archive_matches (names : list string) (ms : list member) : list string :=
  flat_map (entry_matches names) ms.

(** The calls of [_add_path] for executables of Bento4. *)
Definition bento4_calls (p a : string) (es : list string)
    : list (string * string * string * string) :=
  List.map (fun e => (p, a, "bento4", e)) es.

(** The manifest, the counter and the console are as they were. *)
Definition unobserved (s s' : state) : Prop :=
  same_books s s' /\ stdout s' = stdout s.

(** Of the installations [candidates] that a computation was to make from
    the state [s], the first ones, [done], were made, each recorded and
    counted, and nothing was printed; all of them when it returned. *)
Definition installed (p a : string) (candidates : list string)
    (r : outcome unit * state) (s : state) : Prop :=
  exists done, done `prefix_of` candidates
    /\ success (snd r) = success s + length done
    /\ paths_json (snd r) = record_all (bento4_calls p a done) (paths_json s)
    /\ stdout (snd r) = stdout s
    /\ (fst r = Ret tt -> done = candidates).

(** The binary is in the manifest, under the key of its cell. *)
Definition recorded (paths : gmap string (list string)) (p a t b : string) : Prop :=
  exists l, paths !! manifest_key p a t = Some l /\ rel_path p a t b ∈ l.

(** An executable of ffmpeg is fetched and unpacked from the state [s]:
    [_download] returns True (line 97) and the gzip copy of lines 100 to 102
    returns. *)
Definition ffmpeg_unpacks (W : world) (base : Path) (p a platform_str executable : string)
    (s : state) : bool :=
  let dir := tool_dir base p a "ffmpeg" in
  let gz_path := dir ++ [ffmpeg_filename executable platform_str +:+ ".gz"] in
  let final_path := dir ++ [executable +:+ exe_ext p] in
  match _download W (ffmpeg_url executable platform_str) gz_path s with
  | (Ret true, s1) =>
      match fst (gzip_copy W gz_path final_path s1) with
      | Ret _ => true
      | Raise _ => false
      end
  | _ => false
  end.

(** The archive of Bento4 is fetched from the state [s] and the [try] block
    of lines 150 to 172 completes: [_download] returns True (line 144) and
    [bento4_extract] returns. *)
Definition bento4_unpacks (W : world) (base : Path) (p a platform_str : string)
    (s : state) : bool :=
  let zip_path := tool_dir base p a "bento4" ++ ["bento4.zip"] in
  match _download W (bento4_url platform_str) zip_path s with
  | (Ret true, s1) =>
      match fst (bento4_extract W base p a zip_path (with_success 0 s1)) with
      | Ret _ => true
      | Raise _ => false
      end
  | _ => false
  end.

(** The [try] block of [download_megatools] up to the search, lines 207 to
    218: the scratch directory, the unpacking of the whole archive and the
    walk.  It yields the directories walked and the filesystem they are
    looked up in. *)
Definition megatools_unpack (W : world) (base : Path) (p a extension : string)
    (archive_path : Path) : M (list Path * FS) :=
  let temp_dir := tool_dir base p a "megatools" ++ ["temp"] in
  mkdir_exist_ok temp_dir >>
  (let* archive := (if String.eqb extension ".zip"
                    then zip_open W archive_path else tar_open W archive_path) in
   for_each archive (extract_member temp_dir)) >>
  let* roots := os_walk temp_dir in
  let* f := get_fs in
  ret (roots, f).

(** The executable of megatools is fetched and installed from the state
    [s]: [_download] returns True (line 203), the archive unpacks, the
    executable is found in it (lines 219 and 220), and the move and the mode
    change of lines 221 to 224 return. *)
Definition megatools_installs (W : world) (base : Path)
    (p a platform_str extension executable : string) (s : state) : bool :=
  let target_dir := tool_dir base p a "megatools" in
  let archive_path := target_dir ++ ["megatools" +:+ extension] in
  match _download W (megatools_url platform_str extension) archive_path s with
  | (Ret true, s1) =>
      match megatools_unpack W base p a extension archive_path (with_success 0 s1) with
      | (Ret (roots, f), s2) =>
          match List.find (fun root => has_file f root executable) roots with
          | Some root =>
              match fst ((shutil_move (root ++ [executable]) (target_dir ++ [executable]) >>
                          chmod_unless_windows p (target_dir ++ [executable])) s2) with
              | Ret _ => true
              | Raise _ => false
              end
          | None => false
          end
      | (Raise _, _) => false
      end
  | _ => false
  end.

(** [run] up to the target number [n] of the loop of ffmpeg, lines 245 to
    247 and the first [n] rounds of the loop of line 78. *)
Definition run_to_ffmpeg (W : world) (base : Path) (n : nat) : M unit :=
  print "Binary Downloader" >>
  print ("Base: " +:+ absolute W base) >>
  print (nl +:+ "=== FFmpeg ===") >>
  for_each (take n targets) (fun pa => ffmpeg_target W base pa.1 pa.2).

(** [run] up to the target number [n] of the loop of Bento4. *)
Definition run_to_bento4 (W : world) (base : Path) (n : nat) : M unit :=
  print "Binary Downloader" >>
  print ("Base: " +:+ absolute W base) >>
  download_ffmpeg W base >>
  print (nl +:+ "=== Bento4 ===") >>
  for_each (take n targets) (fun pa => bento4_target W base pa.1 pa.2).

(** [run] up to the target number [n] of the loop of megatools. *)
Definition run_to_megatools (W : world) (base : Path) (n : nat) : M unit :=
  print "Binary Downloader" >>
  print ("Base: " +:+ absolute W base) >>
  download_ffmpeg W base >>
  download_bento4 W base >>
  print (nl +:+ "=== Megatools ===") >>
  for_each (take n targets) (fun pa => megatools_target W base pa.1 pa.2).

(** * Theorems *)

(** ** Strings *)

Lemma append_nil (b : string) : "" +:+ b = b.
Proof. reflexivity. Qed.

Lemma append_cons (c : ascii) (a b : string) : String c a +:+ b = String c (a +:+ b).
Proof. reflexivity. Qed.

Lemma append_inv_head (a x y : string) : a +:+ x = a +:+ y -> x = y.
Proof.
  induction a as [|c a IH]; rewrite ?append_nil, ?append_cons; intros H;
    [exact H | injection H; auto].
Qed.

Lemma count_underscore_app (a b : string) :
  count_underscore (a +:+ b) = count_underscore a + count_underscore b.
Proof.
  induction a as [|c a IH]; rewrite ?append_nil, ?append_cons; simpl;
    [reflexivity | rewrite IH; lia].
Qed.

Lemma no_underscore_count (s : string) :
  no_underscore s = true <-> count_underscore s = 0.
Proof.
  induction s as [|c s IH]; simpl; [tauto |].
  destruct (Ascii.eqb c "_"); simpl; [split; [discriminate | lia] | exact IH].
Qed.

(** Two texts cut at their first underscore agree piece by piece. *)
Lemma first_underscore_unique (p q r r' : string) :
  no_underscore p = true -> no_underscore q = true ->
  p +:+ "_" +:+ r = q +:+ "_" +:+ r' -> p = q /\ r = r'.
Proof.
  revert q. induction p as [|c p IH]; intros [|d q];
    rewrite ?append_nil, ?append_cons; simpl; intros Hp Hq H.
  - injection H; auto.
  - injection H as Hc _. subst d. simpl in Hq. discriminate.
  - injection H as Hc _. subst c. simpl in Hp. discriminate.
  - injection H as Hc H. subst d.
    apply andb_prop in Hp as [_ Hp]. apply andb_prop in Hq as [_ Hq].
    destruct (IH q Hp Hq H) as [-> ->]. auto.
Qed.

Lemma manifest_key_count (p a t : string) :
  count_underscore (manifest_key p a t)
  = 2 + count_underscore p + count_underscore a + count_underscore t.
Proof.
  unfold manifest_key. rewrite !count_underscore_app. simpl. lia.
Qed.

(** A key built from underscore-free components reads back in one way only,
    whatever components one tries. *)
Lemma manifest_key_inj (p a t p' a' t' : string) :
  no_underscore p' = true -> no_underscore a' = true -> no_underscore t' = true ->
  manifest_key p a t = manifest_key p' a' t' -> p = p' /\ a = a' /\ t = t'.
Proof.
  intros Hp Ha Ht H.
  assert (Hc := f_equal count_underscore H). rewrite !manifest_key_count in Hc.
  apply no_underscore_count in Hp as Hp0, Ha as Ha0, Ht as Ht0.
  assert (no_underscore p = true) as Hq by (apply no_underscore_count; lia).
  assert (no_underscore a = true) as Hb by (apply no_underscore_count; lia).
  unfold manifest_key in H.
  destruct (first_underscore_unique _ _ _ _ Hq Hp H) as [-> H1].
  destruct (first_underscore_unique _ _ _ _ Hb Ha H1) as [-> ->]. auto.
Qed.

(** ** The manifest *)

Lemma add_path_eq (p a t b : string) (paths : gmap string (list string)) :
  add_path p a t b paths
  = <[manifest_key p a t := append_new (rel_path p a t b)
                              (default [] (paths !! manifest_key p a t))]> paths.
Proof.
  unfold add_path, append_new.
  destruct (paths !! manifest_key p a t) as [l|] eqn:E; simpl.
  - rewrite E. case_bool_decide; [symmetry; by apply insert_id | done].
  - rewrite lookup_insert_eq. rewrite bool_decide_eq_false_2 by apply not_elem_of_nil.
    by rewrite insert_insert_eq.
Qed.

Lemma add_path_lookup (p a t b : string) (paths : gmap string (list string)) :
  add_path p a t b paths !! manifest_key p a t
  = Some (append_new (rel_path p a t b) (default [] (paths !! manifest_key p a t))).
Proof. rewrite add_path_eq. apply lookup_insert_eq. Qed.

Lemma add_path_lookup_ne (p a t b k : string) (paths : gmap string (list string)) :
  k ≠ manifest_key p a t -> add_path p a t b paths !! k = paths !! k.
Proof. intros H. rewrite add_path_eq. by apply lookup_insert_ne. Qed.

Lemma append_new_elem (x : string) (l : list string) : x ∈ append_new x l.
Proof.
  unfold append_new. case_bool_decide as H; [exact H |].
  apply elem_of_app. right. apply list_elem_of_here.
Qed.

Lemma append_new_idem (x : string) (l : list string) :
  append_new x (append_new x l) = append_new x l.
Proof.
  unfold append_new at 1. rewrite bool_decide_eq_true_2; [done | apply append_new_elem].
Qed.

Lemma occurrences_app (x : string) (l k : list string) :
  occurrences x (l ++ k) = occurrences x l + occurrences x k.
Proof. unfold occurrences. by rewrite List.filter_app, length_app. Qed.

Lemma occurrences_absent (x : string) (l : list string) : x ∉ l -> occurrences x l = 0.
Proof.
  unfold occurrences. induction l as [|y l IH]; simpl; [done |].
  intros H. apply not_elem_of_cons in H as [Hxy H].
  destruct (String.eqb_spec x y) as [->|]; [done | by apply IH].
Qed.

Lemma occurrences_present (x : string) (l : list string) : x ∈ l -> 0 < occurrences x l.
Proof.
  unfold occurrences. induction l as [|y l IH]; simpl; [set_solver |].
  intros H. apply elem_of_cons in H as [Hxy|H].
  - subst y. rewrite String.eqb_refl. simpl. lia.
  - destruct (String.eqb x y); simpl; [lia | by apply IH].
Qed.

(** No call ever makes a path occur twice under a key. *)
Lemma append_new_occurrences (x y : string) (l : list string) :
  occurrences y l <= 1 -> occurrences y (append_new x l) <= 1.
Proof.
  intros Hy. unfold append_new. case_bool_decide as Hx; [done |].
  rewrite occurrences_app. unfold occurrences at 2. simpl.
  destruct (String.eqb_spec y x) as [->|]; simpl; [| lia].
  rewrite (occurrences_absent x l Hx). lia.
Qed.

Lemma record_all_occurrences (calls : list (string * string * string * string))
    (paths : gmap string (list string)) :
  (forall k l y, paths !! k = Some l -> occurrences y l <= 1) ->
  forall k l y, record_all calls paths !! k = Some l -> occurrences y l <= 1.
Proof.
  revert paths. induction calls as [|[[[p a] t] b] calls IH]; intros paths H; [exact H |].
  simpl. apply IH. intros k l y. unfold record. simpl.
  destruct (decide (k = manifest_key p a t)) as [->|Hk].
  - rewrite add_path_lookup. intros [= <-]. apply append_new_occurrences.
    destruct (paths !! manifest_key p a t) as [l0|] eqn:E; simpl;
      [by eapply H | unfold occurrences; simpl; lia].
  - rewrite add_path_lookup_ne by done. apply H.
Qed.

Lemma add_path_twice (p a t b : string) (paths : gmap string (list string)) :
  add_path p a t b (add_path p a t b paths) = add_path p a t b paths.
Proof.
  rewrite (add_path_eq p a t b (add_path _ _ _ _ _)), add_path_lookup. simpl.
  rewrite append_new_idem. apply insert_id, add_path_lookup.
Qed.

(** C2: recording the same (platform, arch, tool, binary) a second time
    changes nothing, on the dict and as a call of the method from any state;
    after any history of calls the list at the key
    [{platform}_{arch}_{tool}] holds the path exactly once, and from the empty
    manifest that list is the one path. *)
Theorem add_path_idempotent
    (calls : list (string * string * string * string)) (p a t b : string) (s : state) :
  let once := add_path p a t b (record_all calls ∅) in
  let twice := add_path p a t b once in
  twice = once
  /\ (_add_path p a t b >> _add_path p a t b) s = _add_path p a t b s
  /\ (exists l, twice !! manifest_key p a t = Some l
                /\ occurrences (rel_path p a t b) l = 1)
  /\ add_path p a t b (add_path p a t b ∅) !! manifest_key p a t
     = Some [rel_path p a t b].
Proof.
  simpl. split; [| split; [| split]].
  - apply add_path_twice.
  - unfold _add_path, bind, get_paths, set_paths, with_paths. simpl.
    by rewrite add_path_twice.
  - rewrite add_path_lookup. eexists; split; [reflexivity |].
    set (l := default [] _).
    assert (occurrences (rel_path p a t b) l <= 1) as Hle.
    { subst l. rewrite add_path_lookup. simpl. apply append_new_occurrences.
      destruct (record_all calls ∅ !! manifest_key p a t) as [l0|] eqn:E; simpl;
        [| unfold occurrences; simpl; lia].
      eapply (record_all_occurrences calls ∅); [| exact E].
      intros k l1 y Hk. by rewrite lookup_empty in Hk. }
    apply append_new_occurrences with (x := rel_path p a t b) in Hle.
    pose proof (occurrences_present _ _ (append_new_elem (rel_path p a t b) l)). lia.
  - rewrite !add_path_lookup. simpl. rewrite lookup_empty. simpl.
    unfold append_new at 2. rewrite bool_decide_eq_false_2 by apply not_elem_of_nil. simpl.
    unfold append_new. rewrite bool_decide_eq_true_2 by apply list_elem_of_here. done.
Qed.

(** Every path in the manifest was put there by a call, under the key of
    that call. *)
Lemma record_all_origin (calls : list (string * string * string * string))
    (paths : gmap string (list string)) (k x : string) (l : list string) :
  record_all calls paths !! k = Some l -> x ∈ l ->
  (exists l0, paths !! k = Some l0 /\ x ∈ l0)
  \/ (exists p a t b, (p, a, t, b) ∈ calls
                      /\ k = manifest_key p a t /\ x = rel_path p a t b).
Proof.
  revert paths. induction calls as [|[[[p a] t] b] calls IH]; intros paths Hl Hx; simpl in Hl.
  - left. eauto.
  - destruct (IH _ Hl Hx) as [(l0 & Hl0 & Hx0)|(p' & a' & t' & b' & Hin & Hk & Hr)].
    + unfold record in Hl0. simpl in Hl0.
      destruct (decide (k = manifest_key p a t)) as [->|Hk].
      * rewrite add_path_lookup in Hl0. injection Hl0 as <-. unfold append_new in Hx0.
        destruct (paths !! manifest_key p a t) as [l1|] eqn:E; simpl in Hx0.
        -- case_bool_decide; [left; eauto |].
           apply elem_of_app in Hx0 as [Hx0|Hx0%list_elem_of_singleton]; [left; eauto |].
           right. exists p, a, t, b. split; [apply list_elem_of_here | done].
        -- apply list_elem_of_singleton in Hx0.
           right. exists p, a, t, b. split; [apply list_elem_of_here | done].
      * rewrite add_path_lookup_ne in Hl0 by done. left. eauto.
    + right. exists p', a', t', b'. split; [by apply list_elem_of_further | done].
Qed.

(** C8, as stated, fails: components that hold an underscore make a key that
    reads back as other components.  The calls for [a_b]+[c]+[t] and for
    [a]+[b_c]+[t] meet in the key [a_b_c_t]; its list holds a path of each, so
    the invariant fails, and no way of reading the key fits both paths. *)
Lemma key_path_mismatch :
  record_all [("a_b", "c", "t", "x"); ("a", "b_c", "t", "y")] ∅ !! "a_b_c_t"
  = Some ["a_b/c/t/x"; "a/b_c/t/y"]
  /\ ~ key_path_consistent
        (record_all [("a_b", "c", "t", "x"); ("a", "b_c", "t", "y")] ∅)
  /\ ~ (exists p a t, forall x, x ∈ ["a_b/c/t/x"; "a/b_c/t/y"] ->
                                exists b, x = rel_path p a t b).
Proof.
  split; [vm_compute; reflexivity |]. split.
  - intros H.
    destruct (H "a" "b_c" "t" ["a_b/c/t/x"; "a/b_c/t/y"] "a_b/c/t/x") as [b Hb].
    + vm_compute. reflexivity.
    + apply list_elem_of_here.
    + unfold rel_path in Hb. rewrite !append_cons in Hb. discriminate Hb.
  - intros (p & a & t & H).
    destruct (H "a_b/c/t/x" (list_elem_of_here _ _)) as [b1 H1].
    destruct (H "a/b_c/t/y" (list_elem_of_further _ _ _ (list_elem_of_here _ _)))
      as [b2 H2].
    unfold rel_path in H1, H2.
    destruct p as [|c1 [|c2 p]]; rewrite ?append_nil, ?append_cons in H1, H2;
      try discriminate H1.
    injection H1 as _ E1. injection H2 as _ E2. congruence.
Qed.

(** C8, amended: after any sequence of calls, every path in the manifest was
    built by one of the calls, from the same platform, architecture and tool
    as the key it is stored under; and when those three hold no underscore in
    any call (as in all the calls the script makes), a key reads back in one
    way only, so that every path under a key that reads [{p}_{a}_{t}] is
    [{p}/{a}/{t}/{binary}] for those same components. *)
Theorem plain_calls_consistent (calls : list (string * string * string * string)) :
  (forall k l x, record_all calls ∅ !! k = Some l -> x ∈ l ->
     exists p a t b, (p, a, t, b) ∈ calls
                     /\ k = manifest_key p a t /\ x = rel_path p a t b)
  /\ (forallb plain_call calls = true -> key_path_consistent (record_all calls ∅)).
Proof.
  assert (forall k l x, record_all calls ∅ !! k = Some l -> x ∈ l ->
            exists p a t b, (p, a, t, b) ∈ calls
                            /\ k = manifest_key p a t /\ x = rel_path p a t b) as Horigin.
  { intros k l x Hl Hx.
    destruct (record_all_origin calls ∅ k x l Hl Hx) as [(l0 & Hl0 & _)|H]; [| exact H].
    by rewrite lookup_empty in Hl0. }
  split; [exact Horigin |].
  intros Hc p a t l x Hl Hx.
  destruct (Horigin _ _ _ Hl Hx) as (p' & a' & t' & b & Hin & Hk & ->).
  apply list_elem_of_In in Hin.
  pose proof (proj1 (forallb_forall plain_call calls) Hc _ Hin) as Hpl.
  unfold plain_call in Hpl. simpl in Hpl.
  apply andb_prop in Hpl as [Hpl Ht]. apply andb_prop in Hpl as [Hp Ha].
  destruct (manifest_key_inj p a t p' a' t' Hp Ha Ht Hk) as (-> & -> & ->).
  by exists b.
Qed.

Lemma plain_calls_consistent_witness :
  forallb plain_call [("windows", "x64", "ffmpeg", "ffmpeg.exe");
                      ("windows", "x64", "ffmpeg", "ffprobe.exe")] = true
  /\ key_path_consistent
       (record_all [("windows", "x64", "ffmpeg", "ffmpeg.exe");
                    ("windows", "x64", "ffmpeg", "ffprobe.exe")] ∅).
Proof.
  split; [reflexivity |].
  apply (proj2 (plain_calls_consistent [("windows", "x64", "ffmpeg", "ffmpeg.exe");
                                        ("windows", "x64", "ffmpeg", "ffprobe.exe")])).
  reflexivity.
Defined.

(** ** Effects of the script, piece by piece *)

Lemma cell_binaries_ffmpeg (p a : string) :
  cell_binaries p a "ffmpeg" = ["ffmpeg" +:+ exe_ext p; "ffprobe" +:+ exe_ext p].
Proof. reflexivity. Qed.

Lemma cell_binaries_bento4 (p a : string) :
  cell_binaries p a "bento4" = default [] (assoc p executables).
Proof. reflexivity. Qed.

Lemma cell_binaries_megatools (p a : string) :
  cell_binaries p a "megatools"
  = match assoc p config with
    | Some d => match assoc a d with
                | Some (_, _, executable) => [executable]
                | None => []
                end
    | None => []
    end.
Proof. reflexivity. Qed.

(** Membership in a list that is written out. *)
Ltac in_list := repeat first [apply list_elem_of_here | apply list_elem_of_further].

Section Relates.

Variable R : state -> state -> Prop.
Hypothesis R_refl : forall s, R s s.
Hypothesis R_trans : forall s1 s2 s3, R s1 s2 -> R s2 s3 -> R s1 s3.

Lemma relates_ret {A} (a : A) : relates R (ret a).
Proof. intros s. apply R_refl. Qed.

Lemma relates_raise {A} (e : exn) : relates R (@raise A e).
Proof. intros s. apply R_refl. Qed.

Lemma relates_bind {A B} (m : M A) (k : A -> M B) :
  relates R m -> (forall a, relates R (k a)) -> relates R (bind m k).
Proof.
  intros Hm Hk s. unfold bind. specialize (Hm s).
  destruct (m s) as [[a|e] s1]; simpl in *; [| exact Hm].
  eapply R_trans; [exact Hm | apply Hk].
Qed.

Lemma relates_try {A} (m : M A) (h : exn -> M A) :
  relates R m -> (forall e, relates R (h e)) -> relates R (try_except m h).
Proof.
  intros Hm Hh s. unfold try_except. specialize (Hm s).
  destruct (m s) as [[a|e] s1]; simpl in *; [exact Hm |].
  eapply R_trans; [exact Hm | apply Hh].
Qed.

Lemma relates_for_each {A} (xs : list A) (body : A -> M unit) :
  (forall x, x ∈ xs -> relates R (body x)) -> relates R (for_each xs body).
Proof.
  induction xs as [|x xs IH]; intros H; simpl; [apply relates_ret |].
  apply relates_bind; [apply H, elem_of_cons; auto |].
  intros _. apply IH. intros y Hy. apply H, elem_of_cons. auto.
Qed.

Lemma relates_get_fs : relates R get_fs.
Proof. intros s. apply R_refl. Qed.

Lemma relates_get_paths : relates R get_paths.
Proof. intros s. apply R_refl. Qed.

Lemma relates_get_success : relates R get_success.
Proof. intros s. apply R_refl. Qed.

Lemma relates_get_trace : relates R get_trace.
Proof. intros s. apply R_refl. Qed.

Lemma relates_get_umask : relates R get_umask.
Proof. intros s. apply R_refl. Qed.

(** What [R] must not see: the filesystem, the console, the counter, and
    the events that are [hidden] from it. *)
Variable hidden : event -> bool.
Hypothesis R_fs : forall s f, R s (with_fs f s).
Hypothesis R_stdout : forall s o, R s (with_stdout o s).
Hypothesis R_success : forall s n, R s (with_success n s).
Hypothesis R_log : forall s e, hidden e = true -> R s (with_trace (trace s ++ [e]) s).
Hypothesis hidden_mkdir : forall p, hidden (EvMkdir p) = true.
Hypothesis hidden_open : forall p, hidden (EvOpenW p) = true.
Hypothesis hidden_read : forall p, hidden (EvRead p) = true.
Hypothesis hidden_unlink : forall p, hidden (EvUnlink p) = true.
Hypothesis hidden_chmod : forall p mode, hidden (EvChmod p mode) = true.
Hypothesis hidden_move : forall src dst, hidden (EvMove src dst) = true.
Hypothesis hidden_rmtree : forall p, hidden (EvRmtree p) = true.

Lemma relates_set_fs (f : FS) : relates R (set_fs f).
Proof. intros s. apply R_fs. Qed.

Lemma relates_set_success (n : nat) : relates R (set_success n).
Proof. intros s. apply R_success. Qed.

Lemma relates_print_noeol (text : string) : relates R (print_noeol text).
Proof. intros s. apply R_stdout. Qed.

Lemma relates_print (line : string) : relates R (print line).
Proof. apply relates_print_noeol. Qed.

Lemma relates_log (e : event) : hidden e = true -> relates R (log e).
Proof. intros H s. by apply R_log. Qed.

Create HintDb effects discriminated.

#[local] Hint Resolve relates_get_fs relates_get_paths relates_get_success
  relates_get_trace relates_get_umask relates_set_fs relates_set_success relates_print_noeol
  relates_print : effects.
#[local] Hint Extern 1 (relates _ (log _)) =>
  (apply relates_log;
   first [ apply hidden_mkdir | apply hidden_open | apply hidden_read | apply hidden_unlink
         | apply hidden_chmod | apply hidden_move | apply hidden_rmtree ]) : effects.

Ltac relates_go :=
  repeat first
    [ apply relates_ret
    | apply relates_raise
    | solve [auto with effects]
    | apply relates_bind; [ | intros ? ]
    | apply relates_try; [ | intros ? ]
    | apply relates_for_each; intros ? ?
    | match goal with
      | |- relates _ (match ?x with _ => _ end) => destruct x
      end ].

Lemma relates_mkdir_component (target q : Path) : relates R (mkdir_component target q).
Proof. unfold mkdir_component. relates_go. Qed.
#[local] Hint Resolve relates_mkdir_component : effects.

Lemma relates_mkdir_parents (p : Path) : relates R (mkdir_parents p).
Proof. unfold mkdir_parents. relates_go. Qed.
#[local] Hint Resolve relates_mkdir_parents : effects.

Lemma relates_mkdir_exist_ok (p : Path) : relates R (mkdir_exist_ok p).
Proof. unfold mkdir_exist_ok. relates_go. Qed.
#[local] Hint Resolve relates_mkdir_exist_ok : effects.

Lemma relates_open_wb (p : Path) : relates R (open_wb p).
Proof. unfold open_wb. relates_go. Qed.
#[local] Hint Resolve relates_open_wb : effects.

Lemma relates_fs_write (p : Path) (chunk : string) : relates R (fs_write p chunk).
Proof. unfold fs_write. relates_go. Qed.
#[local] Hint Resolve relates_fs_write : effects.

Lemma relates_read_file (p : Path) : relates R (read_file p).
Proof. unfold read_file. relates_go. Qed.
#[local] Hint Resolve relates_read_file : effects.

Lemma relates_unlink (p : Path) : relates R (unlink p).
Proof. unfold unlink. relates_go. Qed.
#[local] Hint Resolve relates_unlink : effects.

Lemma relates_chmod (p : Path) (mode : Z) : relates R (chmod p mode).
Proof. unfold chmod. relates_go. Qed.
#[local] Hint Resolve relates_chmod : effects.

Lemma relates_path_exists (p : Path) : relates R (path_exists p).
Proof. unfold path_exists. relates_go. Qed.
#[local] Hint Resolve relates_path_exists : effects.

Lemma relates_rmtree (p : Path) : relates R (rmtree p).
Proof. unfold rmtree. relates_go. Qed.
#[local] Hint Resolve relates_rmtree : effects.

Lemma relates_shutil_move (src dst : Path) : relates R (shutil_move src dst).
Proof. unfold shutil_move. relates_go. Qed.
#[local] Hint Resolve relates_shutil_move : effects.

Lemma relates_os_walk (top : Path) : relates R (os_walk top).
Proof. unfold os_walk. relates_go. Qed.
#[local] Hint Resolve relates_os_walk : effects.

Lemma relates_makedirs_component (p q : Path) : relates R (makedirs_component p q).
Proof. unfold makedirs_component. relates_go. Qed.
#[local] Hint Resolve relates_makedirs_component : effects.

Lemma relates_makedirs_missing (p : Path) : relates R (makedirs_missing p).
Proof. unfold makedirs_missing. relates_go. Qed.
#[local] Hint Resolve relates_makedirs_missing : effects.

Lemma relates_extract_member (dest : Path) (m : member) : relates R (extract_member dest m).
Proof. unfold extract_member. relates_go. Qed.
#[local] Hint Resolve relates_extract_member : effects.

Lemma relates_dict_index {V} (d : list (string * V)) (k : string) : relates R (dict_index d k).
Proof. unfold dict_index. relates_go. Qed.
#[local] Hint Resolve relates_dict_index : effects.

Lemma relates_incr_success : relates R incr_success.
Proof. unfold incr_success. relates_go. Qed.
#[local] Hint Resolve relates_incr_success : effects.

Lemma relates_chmod_unless_windows (platform_name : string) (p : Path) :
  relates R (chmod_unless_windows platform_name p).
Proof. unfold chmod_unless_windows. relates_go. Qed.
#[local] Hint Resolve relates_chmod_unless_windows : effects.

Lemma relates_create_directories (base : Path) : relates R (_create_directories base).
Proof. unfold _create_directories. relates_go. Qed.

Variable W : world.
Variable base : Path.

Lemma relates_gzip_copy (gz_path final_path : Path) :
  relates R (gzip_copy W gz_path final_path).
Proof. unfold gzip_copy. relates_go. Qed.
#[local] Hint Resolve relates_gzip_copy : effects.

Lemma relates_zip_open (p : Path) : relates R (zip_open W p).
Proof. unfold zip_open. relates_go. Qed.
#[local] Hint Resolve relates_zip_open : effects.

Lemma relates_tar_open (p : Path) : relates R (tar_open W p).
Proof. unfold tar_open. relates_go. Qed.
#[local] Hint Resolve relates_tar_open : effects.

Lemma relates_dict_bind {V B} (d : list (string * V)) (k : string) (f : V -> M B) :
  (forall v, assoc k d = Some v -> relates R (f v)) ->
  relates R (bind (dict_index d k) f).
Proof.
  intros H s. unfold bind, dict_index.
  destruct (assoc k d) as [v|] eqn:E; simpl; [by apply H | apply R_refl].
Qed.

(** What [R] makes of the two calls that are not in its frame. *)
Hypothesis R_add : forall p a t b, cell_call p a t b -> relates R (_add_path p a t b).
Hypothesis R_get : forall url, relates R (session_get W url).

Lemma relates_download (url : string) (dest : Path) : relates R (_download W url dest).
Proof.
  unfold _download, download_attempt, write_response, raise_for_status, iter_end.
  apply relates_try; [apply relates_bind; [apply R_get |] |]; intros ?; relates_go.
Qed.
#[local] Hint Resolve relates_download : effects.

Lemma relates_ffmpeg_extract (p a executable : string) (gz_path final_path : Path) :
  cell_call p a "ffmpeg" (executable +:+ exe_ext p) ->
  relates R (ffmpeg_extract W p a executable gz_path final_path).
Proof.
  intros Hc. unfold ffmpeg_extract.
  repeat (apply relates_bind; [auto with effects | intros _]). auto with effects.
Qed.

Lemma relates_ffmpeg_target (p a : string) :
  (p, a) ∈ targets -> relates R (ffmpeg_target W base p a).
Proof.
  intros Ht. unfold ffmpeg_target.
  apply relates_bind; [auto with effects | intros _].
  apply relates_bind; [auto with effects | intros d].
  destruct (get_platform_str d a) as [platform_str|]; [| auto with effects].
  apply relates_bind; [auto with effects | intros _].
  apply relates_bind; [| intros _; relates_go].
  apply relates_for_each. intros executable He. unfold ffmpeg_executable.
  apply relates_bind; [auto with effects | intros [|]]; [| apply relates_ret].
  apply relates_try; [| intros ?; auto with effects].
  apply relates_ffmpeg_extract. repeat split; [exact Ht | in_list |].
  rewrite cell_binaries_ffmpeg.
  apply elem_of_cons in He as [->|He]; [in_list |].
  apply list_elem_of_singleton in He as ->. in_list.
Qed.

Lemma in_targets (pa : string * list string) (a : string) :
  pa ∈ platforms -> a ∈ pa.2 -> (pa.1, a) ∈ targets.
Proof.
  intros Hp Ha. unfold targets. apply list_elem_of_In, in_flat_map.
  exists pa. split; [by apply list_elem_of_In |].
  apply in_map. by apply list_elem_of_In.
Qed.

Lemma relates_download_ffmpeg : relates R (download_ffmpeg W base).
Proof.
  unfold download_ffmpeg. apply relates_bind; [auto with effects | intros _].
  apply relates_for_each. intros pa Hpa. apply relates_for_each. intros a Ha.
  apply relates_ffmpeg_target. by apply in_targets.
Qed.

Lemma relates_bento4_install (p a : string) (zip_info : member) (executable : string) :
  cell_call p a "bento4" executable ->
  relates R (bento4_install base p a zip_info executable).
Proof.
  intros Hc. unfold bento4_install.
  repeat (apply relates_bind; [auto with effects | intros ?]). relates_go.
Qed.

Lemma relates_bento4_extract (p a : string) (zip_path : Path) :
  (p, a) ∈ targets -> relates R (bento4_extract W base p a zip_path).
Proof.
  intros Ht. unfold bento4_extract.
  apply relates_bind; [auto with effects | intros zip_ref].
  apply relates_bind; [| intros _; auto with effects].
  apply relates_for_each. intros zip_info _.
  apply relates_dict_bind. intros names Hn.
  apply relates_for_each. intros executable He.
  destruct (endswith _ _); [| apply relates_ret].
  apply relates_bento4_install. repeat split; [exact Ht | in_list |].
  rewrite cell_binaries_bento4, Hn. exact He.
Qed.

Lemma relates_bento4_target (p a : string) :
  (p, a) ∈ targets -> relates R (bento4_target W base p a).
Proof.
  intros Ht. unfold bento4_target.
  apply relates_bind; [auto with effects | intros _].
  apply relates_bind; [auto with effects | intros d].
  destruct (get_platform_str d a) as [platform_str|]; [| auto with effects].
  apply relates_bind; [auto with effects | intros [|]]; simpl; [| auto with effects].
  apply relates_bind; [auto with effects | intros _].
  apply relates_bind; [| intros _; relates_go].
  apply relates_try; [| intros ?; auto with effects].
  by apply relates_bento4_extract.
Qed.

Lemma relates_download_bento4 : relates R (download_bento4 W base).
Proof.
  unfold download_bento4. apply relates_bind; [auto with effects | intros _].
  apply relates_for_each. intros pa Hpa. apply relates_for_each. intros a Ha.
  apply relates_bento4_target. by apply in_targets.
Qed.

Lemma relates_megatools_extract (p a extension executable : string) (archive_path : Path) :
  cell_call p a "megatools" executable ->
  relates R (megatools_extract W base p a extension executable archive_path).
Proof.
  intros Hc. unfold megatools_extract.
  apply relates_bind; [auto with effects | intros _].
  apply relates_bind; [relates_go | intros _].
  apply relates_bind; [auto with effects | intros roots].
  apply relates_bind; [auto with effects | intros f].
  apply relates_bind; [| intros _; relates_go].
  destruct (List.find _ roots) as [root|]; [| apply relates_ret].
  repeat (apply relates_bind; [auto with effects | intros ?]). relates_go.
Qed.

Lemma relates_megatools_target (p a : string) :
  (p, a) ∈ targets -> relates R (megatools_target W base p a).
Proof.
  intros Ht. unfold megatools_target.
  apply relates_bind; [auto with effects | intros _].
  apply relates_dict_bind. intros d Hd.
  destruct (assoc a d) as [[[platform_str extension] executable]|] eqn:Ha;
    [| auto with effects].
  apply relates_bind; [auto with effects | intros [|]]; simpl; [| auto with effects].
  apply relates_bind; [auto with effects | intros _].
  apply relates_bind; [| intros _; relates_go].
  apply relates_try; [| intros ?; auto with effects].
  apply relates_megatools_extract. repeat split; [exact Ht | in_list |].
  rewrite cell_binaries_megatools, Hd, Ha. in_list.
Qed.

Lemma relates_download_megatools : relates R (download_megatools W base).
Proof.
  unfold download_megatools. apply relates_bind; [auto with effects | intros _].
  apply relates_for_each. intros pa Hpa. apply relates_for_each. intros a Ha.
  apply relates_megatools_target. by apply in_targets.
Qed.

Lemma relates_save_paths_json : relates R (save_paths_json W).
Proof. unfold save_paths_json. relates_go. Qed.

Lemma relates_run : relates R (run W base).
Proof.
  unfold run.
  apply relates_bind; [auto with effects | intros _].
  apply relates_bind; [auto with effects | intros _].
  apply relates_bind; [apply relates_download_ffmpeg | intros _].
  apply relates_bind; [apply relates_download_bento4 | intros _].
  apply relates_bind; [apply relates_download_megatools | intros _].
  apply relates_bind; [apply relates_save_paths_json | intros _].
  auto with effects.
Qed.

End Relates.

(** ** Requests: which pieces are quiet and what the others ask for *)

Lemma gets_app (t1 t2 : list event) : gets (t1 ++ t2) = gets t1 ++ gets t2.
Proof. unfold gets. apply omap_app. Qed.

Lemma gets_log (t : list event) (e : event) : is_get e = false -> gets (t ++ [e]) = gets t.
Proof.
  intros H. rewrite gets_app. destruct e; try discriminate H; simpl; apply app_nil_r.
Qed.

Lemma quiet_refl (s : state) : quiet s s.
Proof. reflexivity. Qed.

Lemma quiet_trans (s1 s2 s3 : state) : quiet s1 s2 -> quiet s2 s3 -> quiet s1 s3.
Proof. unfold quiet. congruence. Qed.

Lemma quiet_log (s : state) (e : event) :
  negb (is_get e) = true -> quiet s (with_trace (trace s ++ [e]) s).
Proof.
  intros H. unfold quiet. simpl. apply gets_log. by destruct (is_get e).
Qed.

Lemma quiet_add_path (p a t b : string) : relates quiet (_add_path p a t b).
Proof. intros s. reflexivity. Qed.

Lemma quiet_fs (s : state) (f : FS) : quiet s (with_fs f s).
Proof. reflexivity. Qed.

Lemma quiet_stdout (s : state) (o : list string) : quiet s (with_stdout o s).
Proof. reflexivity. Qed.

Lemma quiet_success (s : state) (n : nat) : quiet s (with_success n s).
Proof. reflexivity. Qed.

Lemma quiet_add_path_cell (p a t b : string) :
  cell_call p a t b -> relates quiet (_add_path p a t b).
Proof. intros _. apply quiet_add_path. Qed.


Ltac quiet_frame :=
  first [ exact quiet_refl | exact quiet_trans | exact quiet_log | exact quiet_fs
        | exact quiet_stdout | exact quiet_success | exact quiet_add_path_cell
        | assumption | intros; reflexivity ].

Tactic Notation "quietly" uconstr(lemma) :=
  first [ apply lemma with (hidden := fun e => negb (is_get e)) | apply lemma ];
  quiet_frame.

Section Quiet.

Variable W : world.
Variable base : Path.

Lemma quiet_ffmpeg_extract (p a executable : string) (gz_path final_path : Path) :
  cell_call p a "ffmpeg" (executable +:+ exe_ext p) ->
  relates quiet (ffmpeg_extract W p a executable gz_path final_path).
Proof. intros H. quietly relates_ffmpeg_extract. Qed.

Lemma quiet_bento4_extract (p a : string) (zip_path : Path) :
  (p, a) ∈ targets -> relates quiet (bento4_extract W base p a zip_path).
Proof. intros H. quietly relates_bento4_extract. Qed.

Lemma quiet_megatools_extract (p a extension executable : string) (archive_path : Path) :
  cell_call p a "megatools" executable ->
  relates quiet (megatools_extract W base p a extension executable archive_path).
Proof. intros H. quietly relates_megatools_extract. Qed.

Lemma quiet_save_paths_json : relates quiet (save_paths_json W).
Proof. quietly relates_save_paths_json. Qed.

Lemma quiet_create_directories : relates quiet (_create_directories base).
Proof. quietly relates_create_directories. Qed.

End Quiet.


Section Emits.

Variable W : world.
Variable base : Path.

Lemma emits_ret {A} (a : A) : emits [] (ret a).
Proof. intros s. exists a, s. by rewrite app_nil_r. Qed.

Lemma emits_bind {A B} (l1 l2 : list string) (m : M A) (k : A -> M B) :
  emits l1 m -> (forall a, emits l2 (k a)) -> emits (l1 ++ l2) (bind m k).
Proof.
  intros Hm Hk s. destruct (Hm s) as (a & s1 & E1 & G1).
  destruct (Hk a s1) as (b & s2 & E2 & G2).
  exists b, s2. unfold bind. rewrite E1, E2. split; [done |].
  by rewrite G2, G1, app_assoc.
Qed.

Lemma emits_eq {A} (l l' : list string) (m : M A) : emits l m -> l = l' -> emits l' m.
Proof. by intros H <-. Qed.

(** A quiet piece in front changes nothing, as long as it returns. *)
Lemma emits_seq {A B} (l : list string) (m : M A) (k : A -> M B) :
  emits [] m -> (forall a, emits l (k a)) -> emits l (bind m k).
Proof. intros Hm Hk. apply (emits_bind [] l); assumption. Qed.

Lemma emits_try {A} (m : M A) (h : exn -> M A) :
  relates quiet m -> (forall e, emits [] (h e)) -> emits [] (try_except m h).
Proof.
  intros Hm Hh s. unfold try_except. specialize (Hm s).
  destruct (m s) as [[a|e] s1]; simpl in Hm.
  - exists a, s1. split; [done |]. by rewrite app_nil_r.
  - destruct (Hh e s1) as (b & s2 & E & G). exists b, s2. split; [done |].
    rewrite G, app_nil_r. by rewrite app_nil_r.
Qed.

Lemma emits_for_each {A} (urls : A -> list string) (xs : list A) (body : A -> M unit) :
  (forall x, x ∈ xs -> emits (urls x) (body x)) ->
  emits (flat_map urls xs) (for_each xs body).
Proof.
  induction xs as [|x xs IH]; intros H; simpl; [apply emits_ret |].
  apply emits_bind; [apply H, list_elem_of_here |].
  intros _. apply IH. intros y Hy. by apply H, list_elem_of_further.
Qed.

Lemma emits_print_noeol (text : string) : emits [] (print_noeol text).
Proof. intros s. eexists _, _. split; [reflexivity |]. by rewrite app_nil_r. Qed.

Lemma emits_print (line : string) : emits [] (print line).
Proof. apply emits_print_noeol. Qed.

Lemma emits_set_success (n : nat) : emits [] (set_success n).
Proof. intros s. eexists _, _. split; [reflexivity |]. by rewrite app_nil_r. Qed.

Lemma emits_get_success : emits [] get_success.
Proof. intros s. eexists _, _. split; [reflexivity |]. by rewrite app_nil_r. Qed.

Lemma emits_dict_bind {V B} (l : list string) (d : list (string * V)) (k : string)
    (v : V) (f : V -> M B) :
  assoc k d = Some v -> emits l (f v) -> emits l (bind (dict_index d k) f).
Proof.
  intros E H s. unfold bind, dict_index. rewrite E. simpl. apply H.
Qed.

Lemma session_get_state (url : string) (s : state) :
  snd (session_get W url s) = with_trace (trace s ++ [EvGet url]) s.
Proof.
  unfold session_get, bind, get_trace, log. simpl.
  destruct (http_get W _ url); reflexivity.
Qed.

Lemma quiet_write_response (r : response) (dest : Path) :
  relates quiet (write_response r dest).
Proof.
  unfold write_response, raise_for_status, iter_end.
  apply relates_bind; [quiet_frame.. | destruct (http_error r); intros ?; reflexivity |].
  intros _. apply relates_bind; [quiet_frame.. | quietly relates_open_wb |].
  intros _. apply relates_bind; [quiet_frame.. | |].
  { apply relates_for_each; [quiet_frame.. |]. intros. quietly relates_fs_write. }
  intros _. apply relates_bind; [quiet_frame.. | |]; [| intros _; intros ?; reflexivity].
  destruct (stream_error r); intros ?; reflexivity.
Qed.

(** The [try] block of [_download] asks for [url] and for nothing else,
    however it ends. *)
Lemma download_attempt_gets (url : string) (dest : Path) (s : state) :
  gets (trace (snd (download_attempt W url dest s))) = gets (trace s) ++ [url].
Proof.
  unfold download_attempt, bind.
  pose proof (session_get_state url s) as E.
  destruct (session_get W url s) as [[r|e] s1]; simpl in E; subst s1.
  - rewrite (quiet_write_response r dest _). apply gets_app.
  - apply gets_app.
Qed.

Lemma emits_download (url : string) (dest : Path) : emits [url] (_download W url dest).
Proof.
  intros s. unfold _download, try_except.
  pose proof (download_attempt_gets url dest s) as G.
  destruct (download_attempt W url dest s) as [[b|e] s1]; simpl in G.
  - by exists b, s1.
  - eexists _, _. split; [reflexivity |]. exact G.
Qed.

End Emits.

(** ** What each loop requests *)

Lemma target_cases (p a : string) :
  (p, a) ∈ targets ->
  (p, a) = ("windows", "x64") \/ (p, a) = ("darwin", "x64") \/ (p, a) = ("darwin", "arm64")
  \/ (p, a) = ("linux", "x64") \/ (p, a) = ("linux", "arm64").
Proof.
  unfold targets. simpl. intros H.
  repeat (apply elem_of_cons in H as [H|H]; [auto 6 |]).
  by apply elem_of_nil in H.
Qed.

Lemma flat_map_targets {A} (f : string -> string -> list A) :
  flat_map (fun pa => flat_map (f pa.1) pa.2) platforms
  = flat_map (fun pa => f pa.1 pa.2) targets.
Proof. unfold targets, platforms. simpl. by rewrite !app_nil_r, <- !app_assoc. Qed.

Section Requests.

Variable W : world.
Variable base : Path.

Ltac emits_quiet :=
  repeat first
    [ apply emits_ret | apply emits_print | apply emits_print_noeol
    | apply emits_set_success | apply emits_get_success
    | apply emits_seq; [ | intros ? ] ].

Lemma emits_ffmpeg_executable (p a platform_str executable : string) :
  cell_call p a "ffmpeg" (executable +:+ exe_ext p) ->
  emits [ffmpeg_url executable platform_str]
        (ffmpeg_executable W base p a platform_str executable).
Proof.
  intros Hc. unfold ffmpeg_executable.
  apply (emits_bind [_] []); [apply emits_download | intros [|]]; [| apply emits_ret].
  apply emits_try; [by apply quiet_ffmpeg_extract | intros e; apply emits_print].
Qed.

Lemma emits_ffmpeg_target (p a : string) :
  (p, a) ∈ targets -> emits (ffmpeg_urls p a) (ffmpeg_target W base p a).
Proof.
  intros Ht. unfold ffmpeg_target, ffmpeg_urls.
  assert (exists d, assoc p ffmpeg_map = Some d) as [d Hd].
  { destruct (target_cases p a Ht) as [H|[H|[H|[H|H]]]]; injection H as -> ->;
      eexists; reflexivity. }
  rewrite Hd. apply emits_seq; [apply emits_print_noeol | intros _].
  apply (emits_dict_bind _ _ _ d); [exact Hd |].
  destruct (get_platform_str d a) as [platform_str|]; [| apply emits_print].
  apply emits_seq; [apply emits_set_success | intros _].
  eapply emits_eq; [| reflexivity].
  apply (emits_bind [ffmpeg_url "ffmpeg" platform_str; ffmpeg_url "ffprobe" platform_str] []);
    [| intros _; emits_quiet].
  apply (emits_for_each (fun e => [ffmpeg_url e platform_str])).
  intros executable He. apply emits_ffmpeg_executable.
  repeat split; [exact Ht | in_list |]. rewrite cell_binaries_ffmpeg.
  apply elem_of_cons in He as [->|He]; [in_list |].
  apply list_elem_of_singleton in He as ->. in_list.
Qed.

Lemma emits_download_ffmpeg :
  emits (flat_map (fun pa => ffmpeg_urls pa.1 pa.2) targets) (download_ffmpeg W base).
Proof.
  unfold download_ffmpeg. apply emits_seq; [apply emits_print | intros _].
  rewrite <- flat_map_targets. apply emits_for_each. intros pa Hpa.
  apply emits_for_each. intros a Ha. apply emits_ffmpeg_target. by apply in_targets.
Qed.

Lemma emits_bento4_target (p a : string) :
  (p, a) ∈ targets -> emits (bento4_urls p a) (bento4_target W base p a).
Proof.
  intros Ht. unfold bento4_target, bento4_urls.
  assert (exists d, assoc p platform_config = Some d) as [d Hd].
  { destruct (target_cases p a Ht) as [H|[H|[H|[H|H]]]]; injection H as -> ->;
      eexists; reflexivity. }
  rewrite Hd. apply emits_seq; [apply emits_print_noeol | intros _].
  apply (emits_dict_bind _ _ _ d); [exact Hd |].
  destruct (get_platform_str d a) as [platform_str|]; [| apply emits_print].
  apply (emits_bind [_] []); [apply emits_download | intros [|]]; simpl;
    [| apply emits_print].
  apply emits_seq; [apply emits_set_success | intros _].
  apply emits_seq; [| intros _; emits_quiet].
  apply emits_try; [by apply quiet_bento4_extract | intros e; apply emits_print].
Qed.

Lemma emits_download_bento4 :
  emits (flat_map (fun pa => bento4_urls pa.1 pa.2) targets) (download_bento4 W base).
Proof.
  unfold download_bento4. apply emits_seq; [apply emits_print | intros _].
  rewrite <- flat_map_targets. apply emits_for_each. intros pa Hpa.
  apply emits_for_each. intros a Ha. apply emits_bento4_target. by apply in_targets.
Qed.

Lemma emits_megatools_target (p a : string) :
  (p, a) ∈ targets -> emits (megatools_urls p a) (megatools_target W base p a).
Proof.
  intros Ht. unfold megatools_target, megatools_urls.
  assert (exists d, assoc p config = Some d) as [d Hd].
  { destruct (target_cases p a Ht) as [H|[H|[H|[H|H]]]]; injection H as -> ->;
      eexists; reflexivity. }
  rewrite Hd. apply emits_seq; [apply emits_print_noeol | intros _].
  apply (emits_dict_bind _ _ _ d); [exact Hd |].
  destruct (assoc a d) as [[[platform_str extension] executable]|] eqn:Ha;
    [| apply emits_print].
  apply (emits_bind [_] []); [apply emits_download | intros [|]]; simpl;
    [| apply emits_print].
  apply emits_seq; [apply emits_set_success | intros _].
  apply emits_seq; [| intros _; emits_quiet].
  apply emits_try; [| intros e; apply emits_print].
  apply quiet_megatools_extract. repeat split; [exact Ht | in_list |].
  rewrite cell_binaries_megatools, Hd, Ha. in_list.
Qed.

Lemma emits_download_megatools :
  emits (flat_map (fun pa => megatools_urls pa.1 pa.2) targets) (download_megatools W base).
Proof.
  unfold download_megatools. apply emits_seq; [apply emits_print | intros _].
  rewrite <- flat_map_targets. apply emits_for_each. intros pa Hpa.
  apply emits_for_each. intros a Ha. apply emits_megatools_target. by apply in_targets.
Qed.

Lemma bind_returns {A B} (m : M A) (k : A -> M B) (s s1 : state) (a : A) :
  m s = (Ret a, s1) -> bind m k s = k a s1.
Proof. intros E. unfold bind. by rewrite E. Qed.

(** The three loops always run to their end, one after the other, and the
    run arrives at [save_paths_json] having asked for every URL. *)
Lemma run_reaches_save (s : state) :
  exists s1, run W base s = (save_paths_json W >> print (nl +:+ "Done!")) s1
             /\ gets (trace s1) = gets (trace s) ++ run_urls.
Proof.
  unfold run, run_urls.
  destruct (emits_print "Binary Downloader" s) as ([] & s01 & E01 & G01).
  destruct (emits_print ("Base: " +:+ absolute W base) s01) as ([] & s02 & E02 & G02).
  destruct (emits_download_ffmpeg s02) as ([] & s1 & E1 & G1).
  destruct (emits_download_bento4 s1) as ([] & s2 & E2 & G2).
  destruct (emits_download_megatools s2) as ([] & s3 & E3 & G3).
  exists s3. split.
  - rewrite (bind_returns _ _ _ _ _ E01). cbv beta.
    rewrite (bind_returns _ _ _ _ _ E02). cbv beta.
    rewrite (bind_returns _ _ _ _ _ E1). cbv beta.
    rewrite (bind_returns _ _ _ _ _ E2). cbv beta.
    rewrite (bind_returns _ _ _ _ _ E3). reflexivity.
  - rewrite G3, G2, G1, G02, G01, !app_nil_r. by rewrite <- !app_assoc.
Qed.

End Requests.

(** C10: the bento4 loop asks for one and the same archive, the
    x86_64-unknown-linux one, for linux/x64 and for linux/arm64, and the
    megatools loop asks for the Linux builds (linux-x86_64, linux-aarch64) for
    the two darwin targets, the same URLs as for the linux targets; in every
    world and from every state each of these targets makes exactly that one
    request. *)
Theorem non_native_artifacts (W : world) (base : Path) :
  emits ["https://www.bok.net/Bento4/binaries/Bento4-SDK-1-6-0-641.x86_64-unknown-linux.zip"]
        (bento4_target W base "linux" "x64")
  /\ emits ["https://www.bok.net/Bento4/binaries/Bento4-SDK-1-6-0-641.x86_64-unknown-linux.zip"]
           (bento4_target W base "linux" "arm64")
  /\ emits ["https://megatools.megous.com/builds/builds/megatools-1.11.3.20250401-linux-x86_64.tar.gz"]
           (megatools_target W base "darwin" "x64")
  /\ emits ["https://megatools.megous.com/builds/builds/megatools-1.11.3.20250401-linux-aarch64.tar.gz"]
           (megatools_target W base "darwin" "arm64")
  /\ megatools_urls "darwin" "x64" = megatools_urls "linux" "x64"
  /\ megatools_urls "darwin" "arm64" = megatools_urls "linux" "arm64"
  /\ flat_map (fun pa => megatools_urls pa.1 pa.2) targets
     = [ "https://megatools.megous.com/builds/builds/megatools-1.11.3.20250401-win64.zip";
         "https://megatools.megous.com/builds/builds/megatools-1.11.3.20250401-linux-x86_64.tar.gz";
         "https://megatools.megous.com/builds/builds/megatools-1.11.3.20250401-linux-aarch64.tar.gz";
         "https://megatools.megous.com/builds/builds/megatools-1.11.3.20250401-linux-x86_64.tar.gz";
         "https://megatools.megous.com/builds/builds/megatools-1.11.3.20250401-linux-aarch64.tar.gz" ].
Proof.
  assert (forall p a, (p, a) ∈ targets <-> In (p, a) targets) as Hin
    by (intros; apply list_elem_of_In).
  repeat split; try reflexivity.
  - apply (emits_eq (bento4_urls "linux" "x64")); [| reflexivity].
    apply emits_bento4_target, Hin. simpl. auto 6.
  - apply (emits_eq (bento4_urls "linux" "arm64")); [| reflexivity].
    apply emits_bento4_target, Hin. simpl. auto 6.
  - apply (emits_eq (megatools_urls "darwin" "x64")); [| reflexivity].
    apply emits_megatools_target, Hin. simpl. auto 6.
  - apply (emits_eq (megatools_urls "darwin" "arm64")); [| reflexivity].
    apply emits_megatools_target, Hin. simpl. auto 6.
Qed.

(** ** The manifest during a run *)

Lemma targets_plain (p a : string) :
  (p, a) ∈ targets -> no_underscore p = true /\ no_underscore a = true.
Proof.
  intros H. destruct (target_cases p a H) as [E|[E|[E|[E|E]]]]; injection E as -> ->;
    split; reflexivity.
Qed.

Lemma tools_plain (t : string) : t ∈ tools -> no_underscore t = true.
Proof.
  unfold tools. intros H.
  repeat (apply elem_of_cons in H as [->|H]; [reflexivity |]).
  by apply elem_of_nil in H.
Qed.

Lemma append_new_inv (x y : string) (l : list string) :
  y ∈ append_new x l -> y ∈ l \/ y = x.
Proof.
  unfold append_new. case_bool_decide as Hx; [auto |].
  intros [Hy|Hy%list_elem_of_singleton]%elem_of_app; auto.
Qed.

Lemma append_new_keeps (x y : string) (l : list string) : y ∈ l -> y ∈ append_new x l.
Proof.
  unfold append_new. case_bool_decide as Hx; [auto |]. intros Hy. apply elem_of_app. auto.
Qed.

Lemma add_path_keeps (p a t b k x : string) (l : list string)
    (paths : gmap string (list string)) :
  paths !! k = Some l -> x ∈ l ->
  exists l', add_path p a t b paths !! k = Some l' /\ x ∈ l'.
Proof.
  intros Hl Hx. destruct (decide (k = manifest_key p a t)) as [->|Hk].
  - rewrite add_path_lookup, Hl. simpl. eexists; split; [reflexivity |].
    by apply append_new_keeps.
  - rewrite add_path_lookup_ne by done. eauto.
Qed.

Lemma add_path_shape (p a t b : string) (paths : gmap string (list string)) :
  cell_call p a t b -> manifest_shape paths -> manifest_shape (add_path p a t b paths).
Proof.
  intros (Hpa & Ht & Hb) Hs k l Hl.
  destruct (decide (k = manifest_key p a t)) as [->|Hk].
  - rewrite add_path_lookup in Hl. injection Hl as <-.
    exists p, a, t. repeat split; [exact Hpa | exact Ht |].
    intros x [Hx| ->]%append_new_inv; [| by exists b].
    destruct (paths !! manifest_key p a t) as [l0|] eqn:E; simpl in Hx;
      [| by apply elem_of_nil in Hx].
    destruct (Hs _ _ E) as (p' & a' & t' & Hpa' & Ht' & Hk & Hl0).
    destruct (targets_plain _ _ Hpa') as [Hp' Ha'].
    destruct (manifest_key_inj p a t p' a' t' Hp' Ha' (tools_plain _ Ht') Hk)
      as (-> & -> & ->).
    by apply Hl0.
  - rewrite add_path_lookup_ne in Hl by done. by apply Hs.
Qed.

Section Manifest.

Variable W : world.
Variable base : Path.

Lemma keeps_paths_refl (s : state) : keeps_paths s s.
Proof. intros k l x Hl Hx. eauto. Qed.

Lemma keeps_paths_trans (s1 s2 s3 : state) :
  keeps_paths s1 s2 -> keeps_paths s2 s3 -> keeps_paths s1 s3.
Proof.
  intros H12 H23 k l x Hl Hx. destruct (H12 k l x Hl Hx) as (l' & Hl' & Hx'). eauto.
Qed.

Lemma keeps_paths_same (s s' : state) : paths_json s' = paths_json s -> keeps_paths s s'.
Proof. intros E k l x Hl Hx. rewrite E. eauto. Qed.

Lemma keeps_paths_fs (s : state) (f : FS) : keeps_paths s (with_fs f s).
Proof. by apply keeps_paths_same. Qed.

Lemma keeps_paths_stdout (s : state) (o : list string) : keeps_paths s (with_stdout o s).
Proof. by apply keeps_paths_same. Qed.

Lemma keeps_paths_success (s : state) (n : nat) : keeps_paths s (with_success n s).
Proof. by apply keeps_paths_same. Qed.

Lemma keeps_paths_log (s : state) (e : event) :
  true = true -> keeps_paths s (with_trace (trace s ++ [e]) s).
Proof. intros _. by apply keeps_paths_same. Qed.

Lemma keeps_paths_add (p a t b : string) :
  cell_call p a t b -> relates keeps_paths (_add_path p a t b).
Proof. intros _ s k l x Hl Hx. simpl. eapply add_path_keeps; eassumption. Qed.

Lemma keeps_paths_get (url : string) : relates keeps_paths (session_get W url).
Proof. intros s. rewrite session_get_state. by apply keeps_paths_same. Qed.

Ltac keeps_paths_frame :=
  first [ exact keeps_paths_refl | exact keeps_paths_trans | exact keeps_paths_log
        | exact keeps_paths_fs | exact keeps_paths_stdout | exact keeps_paths_success
        | exact keeps_paths_add | exact keeps_paths_get | assumption
        | intros; reflexivity ].

Tactic Notation "keeping_paths" uconstr(lemma) :=
  first [ apply lemma with (hidden := fun _ => true) | apply lemma ];
  keeps_paths_frame.

Lemma keeps_paths_ffmpeg_target (p a : string) :
  (p, a) ∈ targets -> relates keeps_paths (ffmpeg_target W base p a).
Proof. intros H. keeping_paths relates_ffmpeg_target. Qed.

Lemma keeps_paths_bento4_target (p a : string) :
  (p, a) ∈ targets -> relates keeps_paths (bento4_target W base p a).
Proof. intros H. keeping_paths relates_bento4_target. Qed.

Lemma keeps_paths_megatools_target (p a : string) :
  (p, a) ∈ targets -> relates keeps_paths (megatools_target W base p a).
Proof. intros H. keeping_paths relates_megatools_target. Qed.

Lemma keeps_paths_run : relates keeps_paths (run W base).
Proof. keeping_paths relates_run. Qed.

Lemma keeps_shape_refl (s : state) : keeps_shape s s.
Proof. intros H. exact H. Qed.

Lemma keeps_shape_trans (s1 s2 s3 : state) :
  keeps_shape s1 s2 -> keeps_shape s2 s3 -> keeps_shape s1 s3.
Proof. unfold keeps_shape. auto. Qed.

Lemma keeps_shape_same (s s' : state) : paths_json s' = paths_json s -> keeps_shape s s'.
Proof. intros E H. by rewrite E. Qed.

Lemma keeps_shape_fs (s : state) (f : FS) : keeps_shape s (with_fs f s).
Proof. by apply keeps_shape_same. Qed.

Lemma keeps_shape_stdout (s : state) (o : list string) : keeps_shape s (with_stdout o s).
Proof. by apply keeps_shape_same. Qed.

Lemma keeps_shape_success (s : state) (n : nat) : keeps_shape s (with_success n s).
Proof. by apply keeps_shape_same. Qed.

Lemma keeps_shape_log (s : state) (e : event) :
  true = true -> keeps_shape s (with_trace (trace s ++ [e]) s).
Proof. intros _. by apply keeps_shape_same. Qed.

Lemma keeps_shape_add (p a t b : string) :
  cell_call p a t b -> relates keeps_shape (_add_path p a t b).
Proof. intros Hc s Hs. simpl. by apply add_path_shape. Qed.

Lemma keeps_shape_get (url : string) : relates keeps_shape (session_get W url).
Proof. intros s. rewrite session_get_state. by apply keeps_shape_same. Qed.

Ltac keeps_shape_frame :=
  first [ exact keeps_shape_refl | exact keeps_shape_trans | exact keeps_shape_log
        | exact keeps_shape_fs | exact keeps_shape_stdout | exact keeps_shape_success
        | exact keeps_shape_add | exact keeps_shape_get | assumption
        | intros; reflexivity ].

Tactic Notation "keeping_shape" uconstr(lemma) :=
  first [ apply lemma with (hidden := fun _ => true) | apply lemma ];
  keeps_shape_frame.

Lemma keeps_shape_run : relates keeps_shape (run W base).
Proof. keeping_shape relates_run. Qed.

Lemma keeps_shape_create_directories : relates keeps_shape (_create_directories base).
Proof. keeping_shape relates_create_directories. Qed.

Lemma manifest_shape_empty : manifest_shape ∅.
Proof. intros k l H. by rewrite lookup_empty in H. Qed.

(** [save_paths_json], when it returns, has written the encoding of the
    manifest to [binary_paths.json] and has left the manifest alone. *)
Lemma save_paths_json_written (s s' : state) :
  save_paths_json W s = (Ret tt, s') ->
  paths_json s' = paths_json s
  /\ exists mode, fs s' !! ["binary_paths.json"]
                  = Some (File (json_dumps W (paths_json s)) mode).
Proof.
  unfold save_paths_json, open_wb, fs_write, parent_error, bind, log, get_fs, get_umask,
    get_paths, set_fs, print, print_noeol, raise, ret. simpl.
  destruct (fs s !! ["binary_paths.json"]) as [[|data mode]|] eqn:E; simpl.
  - discriminate.
  - rewrite lookup_insert_eq. simpl. intros [= <-]. simpl.
    split; [done |]. exists mode. by rewrite lookup_insert_eq.
  - rewrite lookup_insert_eq. simpl. intros [= <-]. simpl.
    split; [done |]. eexists. by rewrite lookup_insert_eq.
Qed.

End Manifest.

(** ** A run as a whole *)

Lemma run_urls_listed :
  run_urls =
  [ "https://github.com/eugeneware/ffmpeg-static/releases/download/b6.1.1/ffmpeg-win32-x64.gz";
    "https://github.com/eugeneware/ffmpeg-static/releases/download/b6.1.1/ffprobe-win32-x64.gz";
    "https://github.com/eugeneware/ffmpeg-static/releases/download/b6.1.1/ffmpeg-darwin-x64.gz";
    "https://github.com/eugeneware/ffmpeg-static/releases/download/b6.1.1/ffprobe-darwin-x64.gz";
    "https://github.com/eugeneware/ffmpeg-static/releases/download/b6.1.1/ffmpeg-darwin-arm64.gz";
    "https://github.com/eugeneware/ffmpeg-static/releases/download/b6.1.1/ffprobe-darwin-arm64.gz";
    "https://github.com/eugeneware/ffmpeg-static/releases/download/b6.1.1/ffmpeg-linux-x64.gz";
    "https://github.com/eugeneware/ffmpeg-static/releases/download/b6.1.1/ffprobe-linux-x64.gz";
    "https://github.com/eugeneware/ffmpeg-static/releases/download/b6.1.1/ffmpeg-linux-arm64.gz";
    "https://github.com/eugeneware/ffmpeg-static/releases/download/b6.1.1/ffprobe-linux-arm64.gz";
    "https://www.bok.net/Bento4/binaries/Bento4-SDK-1-6-0-641.x86_64-microsoft-win32.zip";
    "https://www.bok.net/Bento4/binaries/Bento4-SDK-1-6-0-641.universal-apple-macosx.zip";
    "https://www.bok.net/Bento4/binaries/Bento4-SDK-1-6-0-641.universal-apple-macosx.zip";
    "https://www.bok.net/Bento4/binaries/Bento4-SDK-1-6-0-641.x86_64-unknown-linux.zip";
    "https://www.bok.net/Bento4/binaries/Bento4-SDK-1-6-0-641.x86_64-unknown-linux.zip";
    "https://megatools.megous.com/builds/builds/megatools-1.11.3.20250401-win64.zip";
    "https://megatools.megous.com/builds/builds/megatools-1.11.3.20250401-linux-x86_64.tar.gz";
    "https://megatools.megous.com/builds/builds/megatools-1.11.3.20250401-linux-aarch64.tar.gz";
    "https://megatools.megous.com/builds/builds/megatools-1.11.3.20250401-linux-x86_64.tar.gz";
    "https://megatools.megous.com/builds/builds/megatools-1.11.3.20250401-linux-aarch64.tar.gz" ].
Proof. reflexivity. Qed.

(** Every target asks for something from every tool: no target is skipped. *)
Lemma every_target_requests (p a : string) :
  (p, a) ∈ targets ->
  length (ffmpeg_urls p a) = 2 /\ length (bento4_urls p a) = 1
  /\ length (megatools_urls p a) = 1.
Proof.
  intros H. destruct (target_cases p a H) as [E|[E|[E|[E|E]]]]; injection E as -> ->;
    repeat split; reflexivity.
Qed.

(** In the failing world of [flaky_world] the targets that were not hit are
    all in the manifest at the end. *)
Example flaky_run_manifest :
  let final := snd (main flaky_world (initial ∅)) in
  fst (main flaky_world (initial ∅)) = Ret tt
  /\ paths_json final !! "linux_arm64_ffmpeg"
     = Some ["linux/arm64/ffmpeg/ffmpeg"; "linux/arm64/ffmpeg/ffprobe"]
  /\ paths_json final !! "linux_x64_ffmpeg" = Some ["linux/x64/ffmpeg/ffmpeg"]
  /\ paths_json final !! "windows_x64_ffmpeg" = Some ["windows/x64/ffmpeg/ffprobe.exe"]
  /\ paths_json final !! "linux_x64_bento4" = None
  /\ paths_json final !! "darwin_x64_megatools" = Some ["darwin/x64/megatools/megatools"].
Proof. vm_compute. repeat split. Qed.

(** C7: at the end of a run, however it went, every key of the manifest is
    [{platform}_{arch}_{tool}] for a target of the matrix and one of the three
    tools, and every path under it is [{platform}/{arch}/{tool}/{binary}],
    with [/] between the parts, for a binary of that tool; when the run
    returns, [binary_paths.json] holds the encoding of that manifest; and in
    the world where everything succeeds, [windows_x64_ffmpeg] maps to the two
    paths of [ffmpeg.exe] and [ffprobe.exe]. *)
Theorem manifest_schema (W : world) (s : state) :
  let final := snd (main W s) in
  (forall k l, paths_json final !! k = Some l ->
     exists p a t, (p, a) ∈ targets /\ t ∈ tools /\ k = manifest_key p a t
       /\ forall x, x ∈ l ->
            exists b, b ∈ cell_binaries p a t
                      /\ x = p +:+ "/" +:+ a +:+ "/" +:+ t +:+ "/" +:+ b)
  /\ (fst (main W s) = Ret tt ->
      exists mode, fs final !! ["binary_paths.json"]
                   = Some (File (json_dumps W (paths_json final)) mode))
  /\ paths_json (snd (main happy_world (initial ∅))) !! "windows_x64_ffmpeg"
     = Some ["windows/x64/ffmpeg/ffmpeg.exe"; "windows/x64/ffmpeg/ffprobe.exe"].
Proof.
  set (b := ["binaries"]).
  assert (main W s = bind (_create_directories b) (fun _ => run W b) (with_paths ∅ s)) as E.
  { unfold main, __init__, bind. simpl. fold b.
    destruct (_create_directories b _) as [[[]|e] s1]; reflexivity. }
  simpl. rewrite E. clear E. split; [| split].
  - change (manifest_shape (paths_json
      (snd (bind (_create_directories b) (fun _ => run W b) (with_paths ∅ s))))).
    apply (relates_bind keeps_shape keeps_shape_trans
             (_create_directories b) (fun _ => run W b)).
    + apply keeps_shape_create_directories.
    + intros _. apply keeps_shape_run.
    + simpl. apply manifest_shape_empty.
  - remember (bind (_create_directories b) (fun _ => run W b) (with_paths ∅ s)) as r eqn:Er.
    unfold bind in Er.
    destruct (_create_directories b (with_paths ∅ s)) as [[[]|e] s1]; subst r;
      [| discriminate].
    destruct (run_reaches_save W b s1) as (s2 & -> & _). unfold bind.
    destruct (save_paths_json W s2) as [[[]|e] s3] eqn:Es; [| discriminate].
    intros _. destruct (save_paths_json_written W s2 s3 Es) as [Ep [mode Ef]].
    exists mode. simpl. by rewrite Ep.
  - vm_compute. reflexivity.
Qed.

Lemma manifest_schema_witness :
  fst (main happy_world (initial ∅)) = Ret tt
  /\ exists mode,
       fs (snd (main happy_world (initial ∅))) !! ["binary_paths.json"]
       = Some (File (json_dumps happy_world (paths_json (snd (main happy_world (initial ∅)))))
                    mode).
Proof.
  assert (fst (main happy_world (initial ∅)) = Ret tt) as H by (vm_compute; reflexivity).
  split; [exact H |].
  exact (proj1 (proj2 (manifest_schema happy_world (initial ∅))) H).
Defined.

(** ** The fetcher *)

Lemma bind_raises {A B} (m : M A) (k : A -> M B) (s s1 : state) (e : exn) :
  m s = (Raise e, s1) -> bind m k s = (Raise e, s1).
Proof. intros E. unfold bind. by rewrite E. Qed.


Lemma fs_write_eq (p : Path) (chunk : string) (s : state) :
  fs_write p chunk s
  = (Ret tt, match fs s !! p with
             | Some (File data mode) => with_fs (<[p := File (data +:+ chunk) mode]> (fs s)) s
             | _ => s
             end).
Proof.
  unfold fs_write, bind, get_fs. simpl. by destruct (fs s !! p) as [[|data mode]|].
Qed.

(** Writing the chunks never raises and touches the filesystem only. *)
Lemma write_chunks_returns (p : Path) (cs : list string) (s : state) :
  exists f, for_each cs (fs_write p) s = (Ret tt, with_fs f s).
Proof.
  revert s. induction cs as [|c cs IH]; intros s; simpl.
  - exists (fs s). by destruct s.
  - rewrite (bind_returns _ _ _ _ _ (fs_write_eq p c s)).
    destruct (fs s !! p) as [[|data mode]|]; [apply IH | | apply IH].
    destruct (IH (with_fs (<[p:=File (data +:+ c) mode]> (fs s)) s)) as [f ->].
    by exists f.
Qed.

Lemma open_wb_eq (p : Path) (s : state) :
  let s1 := with_trace (trace s ++ [EvOpenW p]) s in
  open_wb p s
  = match open_error (fs s) p with
    | Some e => (Raise e, s1)
    | None =>
        (Ret tt, with_fs (<[p := File "" match fs_lookup (fs s) p with
                                         | Some (File _ mode) => mode
                                         | _ => create_mode (umask s)
                                         end]> (fs s)) s1)
    end.
Proof.
  unfold open_wb, open_error, bind, log, get_fs, get_umask. simpl.
  destruct (fs_lookup (fs s) p) as [[|data mode]|]; [done.. |].
  by destruct (parent_error (fs s) p).
Qed.


Lemma error_status_range (code : nat) : error_status code = true <-> 400 <= code < 600.
Proof.
  unfold error_status. rewrite andb_true_iff, Nat.leb_le, Nat.ltb_lt. tauto.
Qed.

(** [raise_for_status()] raises for the statuses 400 to 599 and for no
    other. *)
Lemma http_error_status (r : response) :
  (400 <= status_code r < 600 -> exists msg, http_error r = Some msg)
  /\ (~ (400 <= status_code r < 600) -> http_error r = None).
Proof.
  unfold http_error. pose proof (error_status_range (status_code r)) as H.
  destruct (error_status (status_code r)); split.
  - intros _. by eexists.
  - intros Hn. exfalso. apply Hn, H. reflexivity.
  - intros Hs. apply H in Hs. discriminate Hs.
  - done.
Qed.



Lemma download_after_get (W : world) (url : string) (dest : Path) (s : state) :
  _download W url dest s
  = match http_get W (length (gets (trace s))) url with
    | GetRaises msg =>
        (print (download_diagnostic url (RequestException msg)) >> ret false)
          (with_trace (trace s ++ [EvGet url]) s)
    | GetReturns r =>
        try_except (write_response r dest)
          (fun e => print (download_diagnostic url e) >> ret false)
          (with_trace (trace s ++ [EvGet url]) s)
    end.
Proof.
  unfold _download, try_except, download_attempt.
  unfold bind at 1. unfold session_get, bind at 1 2, get_trace, log. simpl.
  by destruct (http_get W (length (gets (trace s))) url).
Qed.

Lemma write_response_rejected (r : response) (dest : Path) (msg : string) (s : state) :
  http_error r = Some msg -> write_response r dest s = (Raise (HTTPError msg), s).
Proof. intros H. unfold write_response, raise_for_status. by rewrite H. Qed.

(** C9, as corrected: the status is checked before the destination is
    opened.  When the response carries an error status, one from 400 to 599,
    [_download] returns [False] with the filesystem exactly as it was and with
    the request as its only event (the destination is not even opened); and
    whenever [_download] changes the filesystem at all, the request had
    returned a response whose status is no error status, and the destination
    was opened after it. *)
Theorem status_checked_before_open (W : world) (url : string) (dest : Path) (s : state) :
  let s' := snd (_download W url dest s) in
  (forall r,
     http_get W (length (gets (trace s))) url = GetReturns r ->
     400 <= status_code r < 600 ->
     fst (_download W url dest s) = Ret false
     /\ fs s' = fs s
     /\ trace s' = trace s ++ [EvGet url])
  /\ (fs s' <> fs s ->
      exists r t,
        http_get W (length (gets (trace s))) url = GetReturns r
        /\ ~ (400 <= status_code r < 600)
        /\ trace s' = trace s ++ EvGet url :: EvOpenW dest :: t).
Proof.
  simpl. rewrite download_after_get. split.
  - intros r -> Hs. destruct (proj1 (http_error_status r) Hs) as [msg Hr].
    unfold try_except. rewrite (write_response_rejected r dest msg _ Hr). by simpl.
  - destruct (http_get W (length (gets (trace s))) url) as [msg|r].
    { simpl. intros H. by destruct H. }
    unfold try_except. destruct (http_error r) as [msg|] eqn:Hr.
    { rewrite (write_response_rejected r dest msg _ Hr). simpl. intros H. by destruct H. }
    assert (~ (400 <= status_code r < 600)) as Hs.
    { intros Hs. destruct (proj1 (http_error_status r) Hs) as [msg Hm]. congruence. }
    intros _. exists r. unfold write_response, raise_for_status. rewrite Hr.
    rewrite (bind_returns _ _ _ _ tt eq_refl).
    pose proof (open_wb_eq dest (with_trace (trace s ++ [EvGet url]) s)) as Eo.
    simpl in Eo. destruct (open_error (fs s) dest) as [e|].
    + rewrite (bind_raises _ _ _ _ _ Eo). simpl. exists [].
      repeat split; [exact Hs |]. by rewrite <- app_assoc.
    + rewrite (bind_returns _ _ _ _ _ Eo).
      match goal with |- context [bind (for_each _ _) _ ?s1] =>
        destruct (write_chunks_returns dest (chunks r) s1) as [f Ew] end.
      rewrite (bind_returns _ _ _ _ _ Ew). unfold iter_end.
      exists []. destruct (stream_error r); simpl; (repeat split; [exact Hs |]);
        by rewrite <- app_assoc.
Qed.

Lemma status_checked_before_open_witness :
  (http_get flaky_world 2 "https://host/x.zip"
   = GetReturns (Response 404 "Not Found" "https://host/x.zip" ["<html>"] None)
   /\ 400 <= 404 < 600
   /\ fs (snd (_download flaky_world "https://host/x.zip" ["x.zip"]
                 (State ∅ ∅ 0 [] [EvGet "a"; EvGet "b"] 18))) = ∅)
  /\ (fs (snd (_download happy_world "https://host/x.zip" ["x.zip"] (initial ∅)))
      <> fs (initial ∅)
      /\ exists r t,
           http_get happy_world (length (gets (trace (initial ∅)))) "https://host/x.zip"
           = GetReturns r
           /\ ~ (400 <= status_code r < 600)
           /\ trace (snd (_download happy_world "https://host/x.zip" ["x.zip"] (initial ∅)))
              = trace (initial ∅) ++ EvGet "https://host/x.zip" :: EvOpenW ["x.zip"] :: t).
Proof.
  split.
  - split; [reflexivity |].
    assert (400 <= 404 < 600) as Hs by lia. split; [exact Hs |].
    exact (proj1 (proj2 (proj1 (status_checked_before_open flaky_world "https://host/x.zip"
             ["x.zip"] (State ∅ ∅ 0 [] [EvGet "a"; EvGet "b"] 18)) _ eq_refl Hs))).
  - assert (fs (snd (_download happy_world "https://host/x.zip" ["x.zip"] (initial ∅)))
            <> fs (initial ∅)) as H.
    { intros E. apply (f_equal (fun f : FS => f !! ["x.zip"])) in E.
      vm_compute in E. discriminate E. }
    split; [exact H |].
    exact (proj2 (status_checked_before_open happy_world "https://host/x.zip" ["x.zip"]
                    (initial ∅)) H).
Defined.

(** C9 as it was worded fails at a status outside 200 to 299 that is no
    error status: on the answer [304 Not Modified] the check of line 47 lets
    the response through and line 49 opens the destination, which creates it
    when it is missing and empties it when it is there. *)
Lemma not_modified_truncates :
  http_get not_modified_world 0 "https://host/x.gz"
  = GetReturns (Response 304 "Not Modified" "https://host/x.gz" [] None)
  /\ ~ (200 <= 304 < 300)
  /\ fs (snd (_download not_modified_world "https://host/x.gz" ["x.gz"]
                (initial {[ ["x.gz"] := File "kept from an earlier run" 420 ]})))
     !! ["x.gz"] = Some (File "" 420)
  /\ fs (snd (_download not_modified_world "https://host/x.gz" ["x.gz"] (initial ∅)))
     !! ["x.gz"] = Some (File "" 420).
Proof. split; [reflexivity |]. split; [lia |]. split; vm_compute; reflexivity. Qed.

(** ** The layout *)

Lemma bind_ext {A B} (m : M A) (k k' : A -> M B) (s : state) :
  (forall a s1, k a s1 = k' a s1) -> bind m k s = bind m k' s.
Proof. intros H. unfold bind. destruct (m s) as [[a|e] s1]; [apply H | done]. Qed.

Lemma bind_assoc {A B C} (m : M A) (k : A -> M B) (h : B -> M C) (s : state) :
  bind (bind m k) h s = bind m (fun a => bind (k a) h) s.
Proof. unfold bind. by destruct (m s) as [[a|e] s1]. Qed.

Lemma bind_ret_r (m : M unit) (s : state) : bind m (fun _ => ret tt) s = m s.
Proof. unfold bind, ret. by destruct (m s) as [[[]|e] s1]. Qed.

Lemma for_each_ext {A} (xs : list A) (f g : A -> M unit) (s : state) :
  (forall x s1, f x s1 = g x s1) -> for_each xs f s = for_each xs g s.
Proof.
  intros H. revert s. induction xs as [|x xs IH]; intros s; simpl; [done |].
  unfold bind. rewrite H. destruct (g x s) as [[[]|e] s1]; [apply IH | done].
Qed.

Lemma for_each_app {A} (xs ys : list A) (f : A -> M unit) (s : state) :
  for_each (xs ++ ys) f s = bind (for_each xs f) (fun _ => for_each ys f) s.
Proof.
  revert s. induction xs as [|x xs IH]; intros s; simpl; [done |].
  rewrite bind_assoc. apply bind_ext. intros _ s1. apply IH.
Qed.

Lemma for_each_flat_map {A B} (g : A -> list B) (f : B -> M unit) (xs : list A) (s : state) :
  for_each xs (fun x => for_each (g x) f) s = for_each (flat_map g xs) f s.
Proof.
  revert s. induction xs as [|x xs IH]; intros s; simpl; [done |].
  rewrite for_each_app. apply bind_ext. intros _ s1. apply IH.
Qed.

(** The two loops of [_create_directories] make the directories of
    [layout_dirs] one after the other. *)
Lemma create_directories_flat (base : Path) (s : state) :
  _create_directories base s = for_each (layout_dirs base) mkdir_parents s.
Proof.
  unfold _create_directories, layout_dirs.
  rewrite <- for_each_flat_map. apply for_each_ext. intros pa s1.
  rewrite <- for_each_flat_map. apply for_each_ext. intros arch s2.
  unfold tools. simpl. apply bind_ext. intros _ s3. apply bind_ext. intros _ s4.
  symmetry. apply bind_ret_r.
Qed.

Lemma prefixes_from_spec (acc p q : Path) :
  q ∈ prefixes_from acc p <-> exists r, r <> [] /\ r `prefix_of` p /\ q = acc ++ r.
Proof.
  revert acc. induction p as [|c p IH]; intros acc; simpl.
  - split; [by intros ?%elem_of_nil |].
    intros (r & Hr & Hp & _). apply prefix_nil_inv in Hp. done.
  - rewrite elem_of_cons, IH. split.
    + intros [->|(r & Hr & Hp & ->)].
      * exists [c]. repeat split; [done |]. by apply prefix_cons, prefix_nil.
      * exists (c :: r). repeat split; [done | by apply prefix_cons |].
        by rewrite <- app_assoc.
    + intros (r & Hr & Hp & ->). destruct r as [|c' r]; [done |].
      apply prefix_cons_inv_1 in Hp as Hc. subst c'.
      apply prefix_cons_inv_2 in Hp.
      destruct r as [|c2 r]; [by left |]. right.
      exists (c2 :: r). repeat split; [done | done |]. by rewrite <- app_assoc.
Qed.

Lemma prefixes_spec (p q : Path) : q ∈ prefixes p <-> q <> [] /\ q `prefix_of` p.
Proof.
  unfold prefixes. rewrite prefixes_from_spec. simpl. split.
  - by intros (r & Hr & Hp & ->).
  - intros [Hq Hp]. by exists q.
Qed.

Lemma fs_lookup_nonempty (f : FS) (q : Path) : q <> [] -> fs_lookup f q = f !! q.
Proof. by destruct q. Qed.

Lemma grown_refl (qs : list Path) (f : FS) : grown qs f f.
Proof. intros k. by left. Qed.

Lemma grown_trans (qs : list Path) (f1 f2 f3 : FS) :
  grown qs f1 f2 -> grown qs f2 f3 -> grown qs f1 f3.
Proof.
  intros H12 H23 k. destruct (H12 k) as [E1|(N1 & D1 & I1)], (H23 k) as [E2|(N2 & D2 & I2)].
  - left. congruence.
  - right. repeat split; congruence.
  - right. repeat split; congruence.
  - congruence.
Qed.

Lemma grown_weaken (qs qs' : list Path) (f f' : FS) :
  (forall q, q ∈ qs -> q ∈ qs') -> grown qs f f' -> grown qs' f f'.
Proof. intros Hs H k. destruct (H k) as [E|(N & D & I)]; [by left | right; auto]. Qed.

Lemma grown_insert (q : Path) (f : FS) : f !! q = None -> grown [q] f (<[q := Dir]> f).
Proof.
  intros H k. destruct (decide (k = q)) as [->|Hk].
  - right. rewrite lookup_insert_eq. repeat split; [done |]. apply list_elem_of_here.
  - left. by rewrite lookup_insert_ne.
Qed.

Lemma grown_keeps_dir (qs : list Path) (f f' : FS) (k : Path) :
  grown qs f f' -> f !! k = Some Dir -> f' !! k = Some Dir.
Proof. intros H Hk. destruct (H k) as [E|(N & D & I)]; congruence. Qed.

Lemma mkdir_component_eq (target q : Path) (s : state) :
  q <> [] ->
  mkdir_component target q s
  = match fs s !! q with
    | Some Dir => (Ret tt, s)
    | Some (File _ _) =>
        (Raise (if bool_decide (q = target) then FileExistsError target
                else NotADirectoryError target), s)
    | None => (Ret tt, with_fs (<[q := Dir]> (fs s)) s)
    end.
Proof.
  intros Hq. unfold mkdir_component, bind, get_fs. simpl.
  rewrite (fs_lookup_nonempty _ _ Hq). by destruct (fs s !! q) as [[|data mode]|].
Qed.

(** The walk of [mkdir(parents=True, exist_ok=True)] down the components
    [qs]: only the filesystem changes, and it only grows by directories among
    [qs]; when the walk returns, every component is a directory; when every
    component is a directory already, nothing changes. *)
Lemma mkdir_walk (target : Path) (qs : list Path) (s : state) (r : outcome unit * state) :
  (forall q, q ∈ qs -> q <> []) ->
  for_each qs (mkdir_component target) s = r ->
  snd r = with_fs (fs (snd r)) s
  /\ grown qs (fs s) (fs (snd r))
  /\ (fst r = Ret tt -> forall q, q ∈ qs -> fs (snd r) !! q = Some Dir)
  /\ ((forall q, q ∈ qs -> fs s !! q = Some Dir) -> r = (Ret tt, s)).
Proof.
  revert s. induction qs as [|q qs IH]; intros s Hne Hr; simpl in Hr.
  - subst r. simpl.
    repeat split; [by destruct s | apply grown_refl | by intros _ q ?%elem_of_nil].
  - assert (q <> []) as Hq by apply Hne, list_elem_of_here.
    assert (forall q', q' ∈ qs -> q' <> []) as Hne'
      by (intros; by apply Hne, list_elem_of_further).
    unfold bind in Hr. rewrite (mkdir_component_eq _ _ _ Hq) in Hr.
    destruct (fs s !! q) as [[|data mode]|] eqn:E.
    + destruct (IH s Hne' Hr) as (I1 & I2 & I3 & I4). repeat split.
      * exact I1.
      * eapply grown_weaken; [| exact I2]. intros; by apply list_elem_of_further.
      * intros Hret q' [->|Hq']%elem_of_cons; [| by apply I3].
        by apply (grown_keeps_dir qs (fs s)).
      * intros Hall. apply I4. intros; by apply Hall, list_elem_of_further.
    + subst r. simpl.
      repeat split; [by destruct s | apply grown_refl | discriminate |].
      intros Hall. specialize (Hall q (list_elem_of_here _ _)). congruence.
    + destruct (IH _ Hne' Hr) as (I1 & I2 & I3 & I4).
      simpl in *. repeat split.
      * rewrite I1 at 1. by destruct s.
      * apply (grown_trans _ _ (<[q:=Dir]> (fs s))).
        -- eapply grown_weaken; [| by apply grown_insert].
           intros ? ->%list_elem_of_singleton. apply list_elem_of_here.
        -- eapply grown_weaken; [| exact I2]. intros; by apply list_elem_of_further.
      * intros Hret q' [->|Hq']%elem_of_cons; [| by apply I3].
        apply (grown_keeps_dir qs (<[q:=Dir]> (fs s))); [exact I2 |].
        apply lookup_insert_eq.
      * intros Hall. specialize (Hall q (list_elem_of_here _ _)). congruence.
Qed.

Lemma mkdir_parents_spec (d : Path) (s : state) (r : outcome unit * state) :
  mkdir_parents d s = r ->
  snd r = with_fs (fs (snd r)) (with_trace (trace s ++ [EvMkdir d]) s)
  /\ grown (prefixes d) (fs s) (fs (snd r))
  /\ (fst r = Ret tt -> forall q, q ∈ prefixes d -> fs (snd r) !! q = Some Dir)
  /\ ((forall q, q ∈ prefixes d -> fs s !! q = Some Dir) ->
      r = (Ret tt, with_trace (trace s ++ [EvMkdir d]) s)).
Proof.
  unfold mkdir_parents. rewrite (bind_returns (log (EvMkdir d)) _ s _ tt eq_refl). intros Hr.
  apply mkdir_walk in Hr; [exact Hr |]. by intros q [Hq _]%prefixes_spec.
Qed.

(** Making the directories [ds] one after the other: the events are the
    [mkdir] calls, as many as were reached; the filesystem only grows, by
    directories on the way to some [d] of [ds]; when all calls return, all
    the [ds] and the directories above them are directories; when they all
    are directories already, nothing changes. *)
Lemma layout_walk (ds : list Path) (s : state) (r : outcome unit * state) :
  for_each ds mkdir_parents s = r ->
  (exists n, snd r = with_fs (fs (snd r))
                       (with_trace (trace s ++ List.map EvMkdir (take n ds)) s))
  /\ grown (flat_map prefixes ds) (fs s) (fs (snd r))
  /\ (fst r = Ret tt ->
      snd r = with_fs (fs (snd r)) (with_trace (trace s ++ List.map EvMkdir ds) s)
      /\ forall d q, d ∈ ds -> q ∈ prefixes d -> fs (snd r) !! q = Some Dir)
  /\ ((forall d q, d ∈ ds -> q ∈ prefixes d -> fs s !! q = Some Dir) ->
      r = (Ret tt, with_trace (trace s ++ List.map EvMkdir ds) s)).
Proof.
  revert s. induction ds as [|d ds IH]; intros s Hr; simpl in Hr.
  - subst r. simpl. rewrite app_nil_r. repeat split.
    + exists 0. simpl. rewrite app_nil_r. by destruct s.
    + apply grown_refl.
    + by destruct s.
    + by intros d q ?%elem_of_nil.
    + intros _. by destruct s.
  - unfold bind in Hr.
    destruct (mkdir_parents d s) as [o s1] eqn:E1.
    destruct (mkdir_parents_spec d s _ E1) as (M1 & M2 & M3 & M4). simpl in *.
    destruct o as [[]|e].
    + destruct (IH s1 Hr) as ((n & I1) & I2 & I3 & I4). repeat split.
      * exists (S n). rewrite I1, M1. simpl.
        rewrite <- app_assoc. by destruct s.
      * apply (grown_trans _ _ (fs s1)).
        -- eapply grown_weaken; [| exact M2]. intros q Hq. apply elem_of_app. by left.
        -- eapply grown_weaken; [| exact I2]. intros q Hq. apply elem_of_app. by right.
      * destruct (I3 H) as [I3a _]. rewrite I3a, M1. simpl.
        rewrite <- app_assoc. by destruct s.
      * intros d' q [->|Hd]%elem_of_cons Hq.
        -- apply (grown_keeps_dir _ _ _ _ I2). by apply M3.
        -- destruct (I3 H) as [_ I3b]. by apply (I3b d').
      * intros Hall.
        assert (mkdir_parents d s = (Ret tt, with_trace (trace s ++ [EvMkdir d]) s)) as E1'.
        { rewrite E1. apply M4. intros q Hq. apply (Hall d); [apply list_elem_of_here | done]. }
        rewrite E1 in E1'. injection E1' as ->.
        rewrite I4; [simpl; rewrite <- app_assoc; by destruct s |].
        intros d' q Hd Hq. simpl. apply (Hall d'); [by apply list_elem_of_further | done].
    + subst r. simpl. repeat split.
      * exists 1. rewrite M1. by destruct s.
      * eapply grown_weaken; [| exact M2]. intros q Hq. apply elem_of_app. by left.
      * discriminate.
      * discriminate.
      * intros Hall.
        assert ((Raise e, s1) = (Ret tt, with_trace (trace s ++ [EvMkdir d]) s)) as E1'
          by (apply M4; intros q Hq; apply (Hall d); [apply list_elem_of_here | done]).
        discriminate.
Qed.

Lemma layout_dirs_listed (base : Path) :
  layout_dirs base
  = List.map (fun pat => base ++ [pat.1.1; pat.1.2; pat.2])
      [ ("windows", "x64", "ffmpeg"); ("windows", "x64", "bento4");
        ("windows", "x64", "megatools");
        ("darwin", "x64", "ffmpeg"); ("darwin", "x64", "bento4");
        ("darwin", "x64", "megatools");
        ("darwin", "arm64", "ffmpeg"); ("darwin", "arm64", "bento4");
        ("darwin", "arm64", "megatools");
        ("linux", "x64", "ffmpeg"); ("linux", "x64", "bento4");
        ("linux", "x64", "megatools");
        ("linux", "arm64", "ffmpeg"); ("linux", "arm64", "bento4");
        ("linux", "arm64", "megatools") ].
Proof. reflexivity. Qed.

Lemma layout_dirs_spec (base d : Path) :
  d ∈ layout_dirs base <->
  exists p a t, (p, a) ∈ targets /\ t ∈ tools /\ d = base ++ [p; a; t].
Proof.
  split.
  - rewrite layout_dirs_listed. simpl. intros H.
    repeat (apply elem_of_cons in H as [->|H];
            [eexists _, _, _; repeat split; [unfold targets; simpl; in_list | in_list] |]).
    by apply elem_of_nil in H.
  - intros (p & a & t & Hpa & Ht & ->).
    destruct (target_cases p a Hpa) as [E|[E|[E|[E|E]]]]; injection E as -> ->;
      unfold tools in Ht;
      repeat (apply elem_of_cons in Ht as [->|Ht];
              [rewrite layout_dirs_listed; simpl; in_list |]);
      by apply elem_of_nil in Ht.
Qed.

Lemma extends_trace_refl (s : state) : extends_trace s s.
Proof. unfold extends_trace. done. Qed.

Lemma extends_trace_trans (s1 s2 s3 : state) :
  extends_trace s1 s2 -> extends_trace s2 s3 -> extends_trace s1 s3.
Proof. unfold extends_trace. by intros; etrans. Qed.

Lemma extends_trace_same (s s' : state) : trace s' = trace s -> extends_trace s s'.
Proof. unfold extends_trace. by intros ->. Qed.

Lemma extends_trace_log (s : state) (e : event) :
  true = true -> extends_trace s (with_trace (trace s ++ [e]) s).
Proof. intros _. unfold extends_trace. simpl. by apply prefix_app_r. Qed.

Lemma extends_trace_run (W : world) (base : Path) : relates extends_trace (run W base).
Proof.
  apply relates_run with (hidden := fun _ => true);
    first [ exact extends_trace_refl | exact extends_trace_trans | exact extends_trace_log
          | intros; reflexivity
          | intros; apply extends_trace_same; reflexivity
          | intros; intros ?; apply extends_trace_same; reflexivity
          | idtac ].
  intros url s0. rewrite session_get_state. by apply extends_trace_log.
Qed.

(** C5: [_create_directories] issues [mkdir] calls only, for the three tool
    directories of every target of the matrix, in order; the filesystem only
    grows, by directories on the way to those; when it returns, all fifteen
    are directories, any new entry below [base/platform/arch] is one of the
    three tool directories, and running it again returns without an error and
    without a change.  [__init__] is this creation, for [binaries], from the
    emptied manifest, and in [main] it runs before anything else: when it
    returns, the fifteen [mkdir] calls are its events, the fifteen directories
    exist, and [main] goes on with [run] from there, so that every request of
    [main] comes after the fifteen calls; no request is made during
    [__init__]; and when [__init__] raises, whatever the exception, [main]
    ends right there with that exception, with no request made.  In the
    filesystem of the model, which has files and directories and no
    permissions, the creation raises only for a file in the way. *)
Theorem layout_first (W : world) (base : Path) (s : state) :
  let r := _create_directories base s in
  let i := __init__ ["binaries"] s in
  (exists n, trace (snd r) = trace s ++ List.map EvMkdir (take n (layout_dirs base)))
  /\ grown (flat_map prefixes (layout_dirs base)) (fs s) (fs (snd r))
  /\ (fst r = Ret tt ->
      trace (snd r) = trace s ++ List.map EvMkdir (layout_dirs base)
      /\ (forall p a t, (p, a) ∈ targets -> t ∈ tools ->
            fs (snd r) !! (base ++ [p; a; t]) = Some Dir)
      /\ (forall p a x, fs s !! (base ++ [p; a; x]) = None ->
            fs (snd r) !! (base ++ [p; a; x]) <> None ->
            (p, a) ∈ targets /\ x ∈ tools)
      /\ exists s2, _create_directories base (snd r) = (Ret tt, s2) /\ fs s2 = fs (snd r))
  /\ i = _create_directories ["binaries"] (with_paths ∅ s)
  /\ (fst i = Ret tt ->
      trace (snd i) = trace s ++ List.map EvMkdir (layout_dirs ["binaries"])
      /\ (forall p a t, (p, a) ∈ targets -> t ∈ tools ->
            fs (snd i) !! ["binaries"; p; a; t] = Some Dir)
      /\ main W s = run W ["binaries"] (snd i)
      /\ exists t, trace (snd (main W s))
                   = trace s ++ List.map EvMkdir (layout_dirs ["binaries"]) ++ t)
  /\ gets (trace (snd i)) = gets (trace s)
  /\ trace (snd i) `prefix_of` trace (snd (main W s))
  /\ (forall e, fst i = Raise e -> main W s = (Raise e, snd i)).
Proof.
  assert (forall b s0,
    fst (_create_directories b s0) = Ret tt ->
    trace (snd (_create_directories b s0)) = trace s0 ++ List.map EvMkdir (layout_dirs b)
    /\ forall p a t, (p, a) ∈ targets -> t ∈ tools ->
         fs (snd (_create_directories b s0)) !! (b ++ [p; a; t]) = Some Dir) as Hmade.
  { intros b s0. rewrite create_directories_flat.
    destruct (layout_walk (layout_dirs b) s0 _ eq_refl) as (_ & _ & L3 & _).
    intros Hret. destruct (L3 Hret) as [L3a L3b]. split; [by rewrite L3a |].
    intros p a t Hpa Ht. apply (L3b (b ++ [p; a; t])).
    - apply layout_dirs_spec. eauto 6.
    - apply prefixes_spec. split; [by destruct b | done]. }
  simpl. rewrite create_directories_flat.
  destruct (layout_walk (layout_dirs base) s _ eq_refl) as ((n & L1) & L2 & L3 & _).
  split; [| split; [| split; [| split; [| split; [| split; [| split]]]]]].
  - exists n. by rewrite L1.
  - exact L2.
  - intros Hret. destruct (L3 Hret) as [L3a L3b]. split; [| split; [| split]].
    + by rewrite L3a.
    + intros p a t Hpa Ht. apply (L3b (base ++ [p; a; t])).
      * apply layout_dirs_spec. eauto 6.
      * apply prefixes_spec. split; [by destruct base | done].
    + intros p a x Hnone Hsome. destruct (L2 (base ++ [p; a; x])) as [E|(_ & _ & Hin)];
        [congruence |].
      apply list_elem_of_In, in_flat_map in Hin as (d & Hd & Hq).
      apply list_elem_of_In, layout_dirs_spec in Hd as (p' & a' & t' & Hpa & Ht & ->).
      apply list_elem_of_In, prefixes_spec in Hq as [_ Hq].
      apply prefix_length_eq in Hq; [| by rewrite !length_app].
      apply app_inv_head in Hq. injection Hq as -> -> ->. done.
    + rewrite create_directories_flat.
      destruct (layout_walk (layout_dirs base) (snd (for_each (layout_dirs base) mkdir_parents s))
                  _ eq_refl) as (_ & _ & _ & L4).
      rewrite L4; [by eexists |]. intros d q Hd Hq. by apply (L3b d).
  - reflexivity.
  - change (__init__ ["binaries"] s)
      with (_create_directories ["binaries"] (with_paths ∅ s)).
    intros Hret. destruct (Hmade ["binaries"] (with_paths ∅ s) Hret) as [Ht Hd].
    assert (main W s = run W ["binaries"]
                         (snd (_create_directories ["binaries"] (with_paths ∅ s)))) as Em.
    { unfold main, __init__, bind. simpl.
      destruct (_create_directories ["binaries"] _) as [[[]|e] s1]; [done | discriminate]. }
    split; [exact Ht |]. split; [exact Hd |]. split; [exact Em |].
    rewrite Em.
    destruct (extends_trace_run W ["binaries"]
                (snd (_create_directories ["binaries"] (with_paths ∅ s)))) as [t Et].
    exists t. rewrite Et, Ht. simpl. by rewrite <- app_assoc.
  - change (gets (trace (snd (__init__ ["binaries"] s)))) with
      (gets (trace (snd (_create_directories ["binaries"] (with_paths ∅ s))))).
    exact (quiet_create_directories ["binaries"] (with_paths ∅ s)).
  - unfold main, bind. destruct (__init__ ["binaries"] s) as [[[]|e] s1]; simpl; [| done].
    apply extends_trace_run.
  - intros e He. unfold main, bind.
    destruct (__init__ ["binaries"] s) as [[[]|e'] s1]; simpl in *; congruence.
Qed.

Lemma layout_first_witness :
  (fst (_create_directories ["binaries"] (initial ∅)) = Ret tt
   /\ exists s2,
        _create_directories ["binaries"] (snd (_create_directories ["binaries"] (initial ∅)))
        = (Ret tt, s2)
        /\ fs s2 = fs (snd (_create_directories ["binaries"] (initial ∅))))
  /\ (fst (__init__ ["binaries"] (initial ∅)) = Ret tt
      /\ main happy_world (initial ∅)
         = run happy_world ["binaries"] (snd (__init__ ["binaries"] (initial ∅))))
  /\ (fst (__init__ ["binaries"] (initial {[ ["binaries"] := File "" 420 ]}))
      = Raise (NotADirectoryError ["binaries"; "windows"; "x64"; "ffmpeg"])
      /\ fst (main happy_world (initial {[ ["binaries"] := File "" 420 ]}))
         = Raise (NotADirectoryError ["binaries"; "windows"; "x64"; "ffmpeg"])).
Proof.
  split; [| split].
  - assert (fst (_create_directories ["binaries"] (initial ∅)) = Ret tt) as H
      by (vm_compute; reflexivity).
    split; [exact H |].
    exact (proj2 (proj2 (proj2 (proj1 (proj2 (proj2
             (layout_first happy_world ["binaries"] (initial ∅)))) H)))).
  - assert (fst (__init__ ["binaries"] (initial ∅)) = Ret tt) as H
      by (vm_compute; reflexivity).
    split; [exact H |].
    exact (proj1 (proj2 (proj2 (proj1 (proj2 (proj2 (proj2 (proj2
             (layout_first happy_world ["binaries"] (initial ∅)))))) H)))).
  - assert (fst (__init__ ["binaries"] (initial {[ ["binaries"] := File "" 420 ]}))
            = Raise (NotADirectoryError ["binaries"; "windows"; "x64"; "ffmpeg"])) as H
      by (vm_compute; reflexivity).
    split; [exact H |].
    rewrite (proj2 (proj2 (proj2 (proj2 (proj2 (proj2 (proj2
      (layout_first happy_world ["binaries"] (initial {[ ["binaries"] := File "" 420 ]}))))))))
      _ H). reflexivity.
Defined.

(** ** The gzip variant: one executable of ffmpeg *)

Lemma append_assoc (a b c : string) : (a +:+ b) +:+ c = a +:+ (b +:+ c).
Proof.
  induction a as [|x a IH]; rewrite ?append_nil, ?append_cons; [done | by rewrite IH].
Qed.

Lemma gz_path_differs (dir : Path) (executable platform_str platform_name : string) :
  dir ++ [ffmpeg_filename executable platform_str +:+ ".gz"]
  <> dir ++ [executable +:+ exe_ext platform_name].
Proof.
  intros H. apply app_inv_head in H. injection H as H.
  unfold ffmpeg_filename in H. rewrite append_assoc in H. apply append_inv_head in H.
  unfold exe_ext in H. rewrite append_cons in H.
  destruct (String.eqb platform_name "windows"); discriminate H.
Qed.

Lemma unlink_eq (p : Path) (s : state) :
  let s1 := with_trace (trace s ++ [EvUnlink p]) s in
  unlink p s
  = match fs_lookup (fs s) p with
    | Some (File _ _) => (Ret tt, with_fs (delete p (fs s)) s1)
    | Some Dir => (Raise (IsADirectoryError p), s1)
    | None => (Raise (FileNotFoundError p), s1)
    end.
Proof.
  unfold unlink, bind, log, get_fs. simpl.
  by destruct (fs_lookup (fs s) p) as [[|data mode]|].
Qed.

Lemma chmod_eq (p : Path) (mode : Z) (s : state) :
  let s1 := with_trace (trace s ++ [EvChmod p mode]) s in
  chmod p mode s
  = match fs_lookup (fs s) p with
    | Some (File data _) => (Ret tt, with_fs (<[p := File data mode]> (fs s)) s1)
    | Some Dir => (Ret tt, s1)
    | None => (Raise (FileNotFoundError p), s1)
    end.
Proof.
  unfold chmod, bind, log, get_fs. simpl.
  by destruct (fs_lookup (fs s) p) as [[|data m]|].
Qed.

(** When [gzip_copy] returns, the source was a file whose stream unpacked
    without an error, and the output file holds what it unpacked to. *)
Lemma gzip_copy_returns (W : world) (gz out : Path) (s s2 : state) :
  gz <> [] -> out <> [] -> gz <> out ->
  gzip_copy W gz out s = (Ret tt, s2) ->
  exists data gzmode mode,
    fs s !! gz = Some (File data gzmode)
    /\ (gunzip W data).2 = None
    /\ s2 = with_fs (<[out := File (gunzip W data).1 mode]> (fs s))
              (with_trace (trace s ++ [EvRead gz; EvOpenW out]) s).
Proof.
  intros Hgz Hout Hne. unfold gzip_copy, read_file.
  rewrite (bind_assoc (log (EvRead gz))).
  rewrite (bind_returns (log (EvRead gz)) _ s _ tt eq_refl).
  rewrite bind_assoc. unfold bind at 1. unfold get_fs at 1. simpl.
  rewrite (fs_lookup_nonempty _ _ Hgz).
  destruct (fs s !! gz) as [[|data gzmode]|] eqn:E; simpl; try discriminate.
  rewrite (bind_returns (ret data) _ _ _ data eq_refl).
  pose proof (open_wb_eq out (with_trace (trace s ++ [EvRead gz]) s)) as Eo. simpl in Eo.
  destruct (open_error (fs s) out) as [e|].
  { rewrite (bind_raises _ _ _ _ _ Eo). discriminate. }
  rewrite (bind_returns _ _ _ _ _ Eo).
  match goal with |- bind (fs_write _ ?c) _ ?s1 = _ -> _ =>
    rewrite (bind_returns _ _ _ _ _ (fs_write_eq out c s1)) end.
  simpl. rewrite lookup_insert_eq, insert_insert_eq, append_nil.
  destruct (gunzip W data).2 as [msg|] eqn:Eg; simpl; [discriminate |].
  intros [= <-]. eexists data, gzmode, _. repeat split; [done |].
  simpl. by rewrite <- app_assoc.
Qed.

Lemma no_chmod_refl (s : state) : no_chmod s s.
Proof. reflexivity. Qed.

Lemma no_chmod_trans (s1 s2 s3 : state) : no_chmod s1 s2 -> no_chmod s2 s3 -> no_chmod s1 s3.
Proof. unfold no_chmod. congruence. Qed.

Lemma no_chmod_log (s : state) (e : event) :
  negb (is_chmod e) = true -> no_chmod s (with_trace (trace s ++ [e]) s).
Proof.
  intros H. unfold no_chmod. simpl. rewrite List.filter_app. simpl.
  destruct (is_chmod e); [discriminate | apply app_nil_r].
Qed.

Lemma no_chmod_same (s s' : state) : trace s' = trace s -> no_chmod s s'.
Proof. unfold no_chmod. by intros ->. Qed.

Ltac no_chmod_frame :=
  first [ exact no_chmod_refl | exact no_chmod_trans | exact no_chmod_log
        | assumption | intros; reflexivity
        | intros; apply no_chmod_same; reflexivity
        | intros; intros ?; apply no_chmod_same; reflexivity ].

Tactic Notation "without_chmod" uconstr(lemma) :=
  first [ apply lemma with (hidden := fun e => negb (is_chmod e)) | apply lemma ];
  no_chmod_frame.

Lemma no_chmod_get (W : world) (url : string) : relates no_chmod (session_get W url).
Proof. intros s. rewrite session_get_state. by apply no_chmod_log. Qed.

Lemma no_chmod_download (W : world) (url : string) (dest : Path) :
  relates no_chmod (_download W url dest).
Proof.
  apply relates_download with (hidden := fun e => negb (is_chmod e));
    first [ exact (no_chmod_get W) | no_chmod_frame ].
Qed.

(** For a windows target no step of [ffmpeg_executable] changes a mode,
    however the step ends. *)
Lemma no_chmod_windows (W : world) (base : Path) (a platform_str executable : string) :
  relates no_chmod (ffmpeg_executable W base "windows" a platform_str executable).
Proof.
  unfold ffmpeg_executable.
  apply relates_bind; [exact no_chmod_trans | apply no_chmod_download |].
  intros [|]; [| intros ?; reflexivity].
  apply relates_try; [exact no_chmod_trans | |].
  - unfold ffmpeg_extract.
    apply relates_bind; [exact no_chmod_trans | without_chmod relates_gzip_copy |].
    intros _. apply relates_bind; [exact no_chmod_trans | without_chmod relates_unlink |].
    intros _. apply relates_bind; [exact no_chmod_trans | intros ?; reflexivity |].
    intros _. apply relates_bind; [exact no_chmod_trans | intros ?; reflexivity |].
    intros _. intros ?. reflexivity.
  - intros e s. reflexivity.
Qed.

Lemma try_returns {A} (m : M A) (h : exn -> M A) (s s1 : state) (a : A) :
  m s = (Ret a, s1) -> try_except m h s = (Ret a, s1).
Proof. intros E. unfold try_except. by rewrite E. Qed.

(** C6: one executable of ffmpeg, when the download succeeded and the gzip
    stream unpacked.  The step returns; the [.gz] file is gone; the output
    file holds what the stream unpacked to, under the name [executable]
    followed by [.exe] exactly when the platform is windows; for another
    platform one [chmod] to 0755 is made and the file has that mode, for
    windows none is made (and none is made for windows however the step
    ends); the path is in the manifest and the counter went up by one. *)
Theorem gzip_variant (W : world) (base : Path) (p a platform_str executable : string)
    (s s1 s2 : state) :
  let dir := tool_dir base p a "ffmpeg" in
  let gz_path := dir ++ [ffmpeg_filename executable platform_str +:+ ".gz"] in
  let final_path := dir ++ [executable +:+ (if String.eqb p "windows" then ".exe" else "")] in
  let r := ffmpeg_executable W base p a platform_str executable s in
  _download W (ffmpeg_url executable platform_str) gz_path s = (Ret true, s1) ->
  gzip_copy W gz_path final_path s1 = (Ret tt, s2) ->
  fst r = Ret tt
  /\ fs (snd r) !! gz_path = None
  /\ (exists gz_data gz_mode mode,
        fs s1 !! gz_path = Some (File gz_data gz_mode)
        /\ fs (snd r) !! final_path = Some (File (gunzip W gz_data).1 mode)
        /\ (p <> "windows" -> mode = 493%Z))
  /\ List.filter is_chmod (trace (snd r))
     = List.filter is_chmod (trace s)
       ++ (if String.eqb p "windows" then [] else [EvChmod final_path 493])
  /\ success (snd r) = success s1 + 1
  /\ (exists l, paths_json (snd r) !! manifest_key p a "ffmpeg" = Some l
                /\ rel_path p a "ffmpeg"
                     (executable +:+ (if String.eqb p "windows" then ".exe" else "")) ∈ l)
  /\ relates no_chmod (ffmpeg_executable W base "windows" a platform_str executable).
Proof.
  intros dir gz_path final_path r H1 H2.
  assert (gz_path <> final_path) as Hne by apply gz_path_differs.
  assert (gz_path <> []) as Hgz by (subst gz_path; by destruct dir).
  assert (final_path <> []) as Hfin by (subst final_path; by destruct dir).
  pose proof (no_chmod_download W (ffmpeg_url executable platform_str) gz_path s) as Hc.
  rewrite H1 in Hc. simpl in Hc.
  destruct (gzip_copy_returns W gz_path final_path s1 s2 Hgz Hfin Hne H2)
    as (gz_data & gz_mode & mode0 & Egz & Eerr & ->).
  subst r. unfold ffmpeg_executable. fold dir. fold gz_path.
  change (dir ++ [executable +:+ exe_ext p]) with final_path.
  rewrite (bind_returns _ _ _ _ _ H1).
  match type of H2 with _ = (_, ?s3) => pose proof (unlink_eq gz_path s3) as Eu end.
  simpl in Eu. rewrite (fs_lookup_nonempty _ _ Hgz) in Eu.
  rewrite lookup_insert_ne in Eu by done. rewrite Egz in Eu.
  unfold exe_ext in *.
  destruct (String.eqb_spec p "windows") as [->|Hp].
  - eassert (ffmpeg_extract W "windows" a executable gz_path final_path s1 = (Ret tt, _))
      as Ex.
    { unfold ffmpeg_extract. rewrite (bind_returns _ _ _ _ _ H2).
      rewrite (bind_returns _ _ _ _ _ Eu). reflexivity. }
    rewrite (try_returns _ _ _ _ _ Ex). simpl.
    repeat split.
    + apply lookup_delete_eq.
    + exists gz_data, gz_mode, mode0. repeat split; [done | | done].
      rewrite lookup_delete_ne by done. apply lookup_insert_eq.
    + rewrite !List.filter_app. simpl. by rewrite Hc, !app_nil_r.
    + eexists. split; [apply add_path_lookup | apply append_new_elem].
    + apply no_chmod_windows.
  - match type of Eu with _ = (_, ?s4) => pose proof (chmod_eq final_path 493 s4) as Ec end.
    simpl in Ec. rewrite (fs_lookup_nonempty _ _ Hfin) in Ec.
    rewrite lookup_delete_ne in Ec by done. rewrite lookup_insert_eq in Ec.
    eassert (ffmpeg_extract W p a executable gz_path final_path s1 = (Ret tt, _)) as Ex.
    { unfold ffmpeg_extract, chmod_unless_windows.
      rewrite (bind_returns _ _ _ _ _ H2). rewrite (bind_returns _ _ _ _ _ Eu).
      destruct (String.eqb_spec p "windows") as [E|_]; [exfalso; exact (Hp E) |].
      rewrite (bind_returns _ _ _ _ _ Ec). reflexivity. }
    rewrite (try_returns _ _ _ _ _ Ex). simpl.
    repeat split.
    + rewrite lookup_insert_ne by done. apply lookup_delete_eq.
    + exists gz_data, gz_mode, 493%Z. repeat split; [done |]. apply lookup_insert_eq.
    + rewrite !List.filter_app. simpl. by rewrite Hc, !app_nil_r.
    + assert (exe_ext p = "") as ->.
      { unfold exe_ext. destruct (String.eqb_spec p "windows") as [E|_]; [| done].
        exfalso. exact (Hp E). }
      eexists. split; [apply add_path_lookup | apply append_new_elem].
    + apply no_chmod_windows.
Qed.

Lemma gzip_variant_witness :
  let s := after_layout in
  let gz := ["binaries"; "linux"; "x64"; "ffmpeg"; "ffmpeg-linux-x64.gz"] in
  let out := ["binaries"; "linux"; "x64"; "ffmpeg"; "ffmpeg"] in
  let r := ffmpeg_executable happy_world ["binaries"] "linux" "x64" "linux-x64" "ffmpeg" s in
  fst (_download happy_world (ffmpeg_url "ffmpeg" "linux-x64") gz s) = Ret true
  /\ fst (gzip_copy happy_world gz out
            (snd (_download happy_world (ffmpeg_url "ffmpeg" "linux-x64") gz s))) = Ret tt
  /\ fs (snd r) !! gz = None
  /\ List.filter is_chmod (trace (snd r))
     = List.filter is_chmod (trace s) ++ [EvChmod out 493].
Proof.
  set (s := after_layout).
  set (gz := ["binaries"; "linux"; "x64"; "ffmpeg"; "ffmpeg-linux-x64.gz"]).
  set (out := ["binaries"; "linux"; "x64"; "ffmpeg"; "ffmpeg"]).
  set (d := _download happy_world (ffmpeg_url "ffmpeg" "linux-x64") gz s).
  set (g := gzip_copy happy_world gz out (snd d)).
  assert (d = (Ret true, snd d)) as H1 by (vm_compute; reflexivity).
  assert (g = (Ret tt, snd g)) as H2 by (vm_compute; reflexivity).
  simpl. fold s gz d. fold g.
  split; [by rewrite H1 |]. split; [by rewrite H2 |].
  pose proof (gzip_variant happy_world ["binaries"] "linux" "x64" "linux-x64" "ffmpeg"
                s (snd d) (snd g) H1 H2) as (_ & G & _ & C & _).
  split; [exact G | exact C].
Defined.

(** ** The zip variant on concrete archives *)

(** An archive with three of the four tools, once each: three executables are
    installed, [3/4] is printed and the manifest holds those three paths. *)
Example zip_three_of_four :
  let r := bento4_target three_world ["binaries"] "linux" "x64" after_layout in
  fst r = Ret tt
  /\ success (snd r) = 3
  /\ List.last (stdout (snd r)) "" = "3/4" +:+ nl
  /\ paths_json (snd r) !! "linux_x64_bento4"
     = Some ["linux/x64/bento4/mp4decrypt"; "linux/x64/bento4/mp4info";
             "linux/x64/bento4/mp4dump"]
  /\ fs (snd r) !! ["binaries"; "linux"; "x64"; "bento4"; "mp4encrypt"] = None.
Proof. vm_compute. repeat split. Qed.

(** C1 on the code: an archive in which two entries end with [mp4info].
    Both are extracted and installed, the second over the first, so the
    installed [mp4info] is the later entry; the counter counts entries, not
    names, and the line printed is [5/4], above the number of expected names.
    The manifest, which [_add_path] keeps free of repeats, holds four
    paths. *)
Theorem zip_duplicate_entry :
  let r := bento4_target duplicate_world ["binaries"] "linux" "x64" after_layout in
  List.map filename (default [] (unzip duplicate_world ""))
  = ["sdk/"; "sdk/bin/"; "sdk/bin/mp4decrypt"; "sdk/bin/mp4encrypt"; "sdk/bin/mp4info";
     "sdk/bin/mp4dump"; "sdk/utils/mp4info"]
  /\ fst r = Ret tt
  /\ success (snd r) = 5
  /\ List.last (stdout (snd r)) "" = "5/4" +:+ nl
  /\ fs (snd r) !! ["binaries"; "linux"; "x64"; "bento4"; "mp4info"]
     = Some (File "<sdk/utils/mp4info>" 493)
  /\ paths_json (snd r) !! "linux_x64_bento4"
     = Some ["linux/x64/bento4/mp4decrypt"; "linux/x64/bento4/mp4encrypt";
             "linux/x64/bento4/mp4info"; "linux/x64/bento4/mp4dump"].
Proof. vm_compute. repeat split. Qed.

(** ** The fetcher in closed form *)

Lemma append_empty_r (a : string) : a +:+ "" = a.
Proof. induction a as [|c a IH]; [reflexivity |]. by rewrite append_cons, IH. Qed.

Lemma with_fs_same (s : state) : with_fs (fs s) s = s.
Proof. by destruct s. Qed.

(** Writing the chunks to an open file appends them all. *)
Lemma write_chunks_eq (p : Path) (cs : list string) (s : state) (data : string) (mode : Z) :
  fs s !! p = Some (File data mode) ->
  for_each cs (fs_write p) s
  = (Ret tt, with_fs (<[p := File (data +:+ written cs) mode]> (fs s)) s).
Proof.
  revert s data. induction cs as [|c cs IH]; intros s data H; simpl.
  - unfold ret. rewrite append_empty_r, (insert_id _ _ _ H). by rewrite with_fs_same.
  - rewrite (bind_returns _ _ _ _ _ (fs_write_eq p c s)). rewrite H.
    erewrite IH; [| simpl; apply lookup_insert_eq].
    simpl. rewrite insert_insert_eq. by rewrite append_assoc.
Qed.

(** [write_response] step by step, with the state it ends in. *)
Lemma write_response_eq (r : response) (dest : Path) (s : state) :
  let s2 := with_trace (trace s ++ [EvOpenW dest]) s in
  write_response r dest s
  = match http_error r with
    | Some msg => (Raise (HTTPError msg), s)
    | None =>
        match open_error (fs s) dest with
        | Some e => (Raise e, s2)
        | None =>
            (match stream_error r with
             | Some msg => Raise (RequestException msg)
             | None => Ret true
             end,
             with_fs (<[dest := File (written (chunks r)) (open_mode s dest)]> (fs s)) s2)
        end
    end.
Proof.
  simpl. unfold write_response, raise_for_status, iter_end.
  destruct (http_error r) as [msg|]; [reflexivity |].
  rewrite (bind_returns _ _ s s tt eq_refl).
  pose proof (open_wb_eq dest s) as Eo. simpl in Eo.
  destruct (open_error (fs s) dest) as [e|] eqn:Eoe.
  - by rewrite (bind_raises _ _ _ _ _ Eo).
  - rewrite (bind_returns _ _ _ _ _ Eo).
    erewrite bind_returns;
      [| apply (write_chunks_eq dest (chunks r) _ "" (open_mode s dest));
         simpl; apply lookup_insert_eq].
    simpl. rewrite insert_insert_eq, append_nil.
    by destruct (stream_error r).
Qed.

(** [_download] in closed form: what it returns is decided by
    [fetch_failure], the state it leaves is [after_attempt], with the
    diagnostic printed when it failed. *)
Lemma download_eq (W : world) (url : string) (dest : Path) (s : state) :
  let sa := after_attempt W url dest s in
  _download W url dest s
  = match fetch_failure W url dest s with
    | Some e => (Ret false, with_stdout (stdout sa ++ [download_diagnostic url e +:+ nl]) sa)
    | None => (Ret true, sa)
    end.
Proof.
  simpl. rewrite download_after_get. unfold fetch_failure, after_attempt.
  destruct (http_get W (length (gets (trace s))) url) as [msg|r]; [reflexivity |].
  unfold try_except. rewrite write_response_eq. simpl.
  destruct (http_error r) as [msg|]; [reflexivity |].
  destruct (open_error (fs s) dest) as [e|]; [reflexivity |].
  by destruct (stream_error r).
Qed.

Lemma after_attempt_books (W : world) (url : string) (dest : Path) (s : state) :
  let sa := after_attempt W url dest s in
  paths_json sa = paths_json s /\ success sa = success s /\ stdout sa = stdout s.
Proof.
  simpl. unfold after_attempt.
  destruct (http_get W _ url) as [msg|r]; [done |].
  destruct (http_error r); [done |]. by destruct (open_error (fs s) dest).
Qed.

Lemma after_attempt_frame (W : world) (url : string) (dest q : Path) (s : state) :
  q <> dest -> fs (after_attempt W url dest s) !! q = fs s !! q.
Proof.
  intros Hq. unfold after_attempt.
  destruct (http_get W _ url) as [msg|r]; [done |].
  destruct (http_error r); [done |]. destruct (open_error (fs s) dest); [done |].
  simpl. by rewrite lookup_insert_ne.
Qed.

Lemma after_attempt_trace (W : world) (url : string) (dest : Path) (s : state) :
  trace (after_attempt W url dest s) = trace s ++ [EvGet url]
  \/ trace (after_attempt W url dest s) = trace s ++ [EvGet url; EvOpenW dest].
Proof.
  unfold after_attempt. destruct (http_get W _ url) as [msg|r]; [by left |].
  destruct (http_error r); [by left |]. right.
  destruct (open_error (fs s) dest); simpl; by rewrite <- app_assoc.
Qed.



(** X2: whatever the network answers, [_download] changes no path but its
    destination, leaves the manifest and the counter alone, and issues the
    request and at most the opening of the destination, nothing else; it
    prints at most one line. *)
Theorem download_touches_destination_only (W : world) (url : string) (dest : Path)
    (s : state) :
  let s' := snd (_download W url dest s) in
  (forall q, q <> dest -> fs s' !! q = fs s !! q)
  /\ paths_json s' = paths_json s
  /\ success s' = success s
  /\ (trace s' = trace s ++ [EvGet url] \/ trace s' = trace s ++ [EvGet url; EvOpenW dest])
  /\ (stdout s' = stdout s \/ exists line, stdout s' = stdout s ++ [line]).
Proof.
  simpl. rewrite download_eq.
  destruct (after_attempt_books W url dest s) as (Hp & Hs & Ho).
  pose proof (after_attempt_frame W url dest) as Hf.
  pose proof (after_attempt_trace W url dest s) as Ht.
  destruct (fetch_failure W url dest s) as [e|]; simpl.
  - repeat split; try done; [by intros q Hq; apply Hf |].
    right. rewrite Ho. by eexists.
  - repeat split; try done; [by intros q Hq; apply Hf |]. by left.
Qed.

(** ** Targets that install nothing *)

Lemma print_after_label (p a line : string) (s : state) :
  print line (labelled p a s)
  = (Ret tt, with_stdout (stdout s ++ [p +:+ "-" +:+ a +:+ ": "; line +:+ nl]) s).
Proof.
  unfold print, print_noeol, labelled, with_stdout. simpl. by rewrite <- app_assoc.
Qed.

Lemma platform_cases (p : string) :
  p ∈ List.map fst platforms -> p = "windows" \/ p = "darwin" \/ p = "linux".
Proof.
  simpl. intros H.
  repeat (apply elem_of_cons in H as [-> | H]; [auto |]). by apply not_elem_of_nil in H.
Qed.

Section Skipped.

Variable W : world.
Variable base : Path.

Lemma ffmpeg_skip (p a : string) (s : state) :
  assoc p ffmpeg_map <> None -> ffmpeg_urls p a = [] ->
  ffmpeg_target W base p a s = print "skip" (labelled p a s).
Proof.
  unfold ffmpeg_urls, ffmpeg_target.
  rewrite (bind_returns _ _ s (labelled p a s) tt eq_refl).
  unfold bind at 1, dict_index.
  destruct (assoc p ffmpeg_map) as [d|]; [| done]. intros _. simpl.
  destruct (get_platform_str d a); [discriminate | reflexivity].
Qed.

Lemma bento4_skip (p a : string) (s : state) :
  assoc p platform_config <> None -> bento4_urls p a = [] ->
  bento4_target W base p a s = print "skip" (labelled p a s).
Proof.
  unfold bento4_urls, bento4_target.
  rewrite (bind_returns _ _ s (labelled p a s) tt eq_refl).
  unfold bind at 1, dict_index.
  destruct (assoc p platform_config) as [d|]; [| done]. intros _. simpl.
  destruct (get_platform_str d a); [discriminate | reflexivity].
Qed.

Lemma megatools_skip (p a : string) (s : state) :
  assoc p config <> None -> megatools_urls p a = [] ->
  megatools_target W base p a s = print "skip" (labelled p a s).
Proof.
  unfold megatools_urls, megatools_target.
  rewrite (bind_returns _ _ s (labelled p a s) tt eq_refl).
  unfold bind at 1, dict_index.
  destruct (assoc p config) as [d|]; [| done]. intros _. simpl.
  destruct (assoc a d) as [[[? ?] ?]|]; [discriminate | reflexivity].
Qed.

End Skipped.

(** X3: a target whose architecture has no entry in the table of a tool (or
    an empty one) is skipped by that tool: the label and [skip] are printed
    and nothing else happens, no request, no file, no change of the manifest
    or of the counter. *)
Theorem arch_without_build_is_skipped (W : world) (base : Path) (p a : string) (s : state) :
  p ∈ List.map fst platforms ->
  let skipped := (Ret tt, with_stdout (stdout s ++ [p +:+ "-" +:+ a +:+ ": "; "skip" +:+ nl]) s) in
  (ffmpeg_urls p a = [] -> ffmpeg_target W base p a s = skipped)
  /\ (bento4_urls p a = [] -> bento4_target W base p a s = skipped)
  /\ (megatools_urls p a = [] -> megatools_target W base p a s = skipped).
Proof.
  intros Hp. simpl. rewrite <- (print_after_label p a "skip" s).
  destruct (platform_cases p Hp) as [-> | [-> | ->]]; (split; [| split]); intros Hu.
  all: first [ apply ffmpeg_skip | apply bento4_skip | apply megatools_skip ];
    [intros E; vm_compute in E; discriminate E | exact Hu].
Qed.

Lemma arch_without_build_is_skipped_witness :
  "windows" ∈ List.map fst platforms
  /\ ffmpeg_urls "windows" "arm64" = []
  /\ ffmpeg_target happy_world ["binaries"] "windows" "arm64" (initial ∅)
     = (Ret tt, State ∅ ∅ 0 ["windows-arm64: "; "skip" +:+ nl] [] 18).
Proof.
  assert ("windows" ∈ List.map fst platforms) as H by (simpl; in_list).
  split; [exact H |]. split; [reflexivity |].
  exact (proj1 (arch_without_build_is_skipped happy_world ["binaries"] "windows" "arm64"
                  (initial ∅) H) eq_refl).
Defined.

Lemma assoc_none {V} (p : string) (d : list (string * V)) :
  p ∉ List.map fst d -> assoc p d = None.
Proof.
  induction d as [|[k v] d IH]; [done |]. simpl. intros H.
  apply not_elem_of_cons in H as [Hk H].
  destruct (String.eqb_spec p k) as [->|_]; [done | by apply IH].
Qed.

(** X4: the lookups of the tables by platform are outside every [try]: for a
    platform that is not a key of the tables each of the three loop bodies
    raises [KeyError] right after printing the label, with no request made and
    nothing else changed. *)
Theorem unknown_platform_raises (W : world) (base : Path) (p a : string) (s : state) :
  p ∉ List.map fst platforms ->
  let raised := (@Raise unit (KeyError p), labelled p a s) in
  ffmpeg_target W base p a s = raised
  /\ bento4_target W base p a s = raised
  /\ megatools_target W base p a s = raised.
Proof.
  intros Hp. simpl.
  unfold ffmpeg_target, bento4_target, megatools_target.
  rewrite !(bind_returns _ _ s (labelled p a s) tt eq_refl).
  repeat split; apply bind_raises; unfold dict_index; by rewrite assoc_none.
Qed.

Lemma unknown_platform_raises_witness :
  ("freebsd" ∉ List.map fst platforms)
  /\ bento4_target happy_world ["binaries"] "freebsd" "x64" (initial ∅)
     = (Raise (KeyError "freebsd"), State ∅ ∅ 0 ["freebsd-x64: "] [] 18).
Proof.
  assert ("freebsd" ∉ List.map fst platforms) as H.
  { simpl. intros H. repeat (apply elem_of_cons in H as [H|H]; [discriminate H |]).
    by apply not_elem_of_nil in H. }
  split; [exact H |].
  exact (proj1 (proj2 (unknown_platform_raises happy_world ["binaries"] "freebsd" "x64"
                         (initial ∅) H))).
Defined.

(** ** The zip variant: the ways to [0/4] *)

Lemma read_file_eq (p : Path) (s : state) :
  let s1 := with_trace (trace s ++ [EvRead p]) s in
  read_file p s
  = match fs_lookup (fs s) p with
    | Some (File data _) => (Ret data, s1)
    | Some Dir => (Raise (IsADirectoryError p), s1)
    | None => (Raise (FileNotFoundError p), s1)
    end.
Proof.
  unfold read_file, bind, log, get_fs. simpl.
  by destruct (fs_lookup (fs s) p) as [[|data mode]|].
Qed.

(** X5: when the archive of Bento4 cannot be fetched, the target ends
    there: the label, the diagnostic of [_download] and [0/4] are printed,
    the archive is never read, the manifest and the counter are as before, no
    path but the archive's changed and the only events are the request and
    at most the opening of the archive. *)
Theorem bento4_fetch_failure (W : world) (base : Path) (p a platform_str : string)
    (d : list (string * string)) (e : exn) (s : state) :
  assoc p platform_config = Some d ->
  get_platform_str d a = Some platform_str ->
  let zip_path := tool_dir base p a "bento4" ++ ["bento4.zip"] in
  let url := bento4_url platform_str in
  fetch_failure W url zip_path s = Some e ->
  let s' := snd (bento4_target W base p a s) in
  fst (bento4_target W base p a s) = Ret tt
  /\ stdout s' = stdout s ++ [p +:+ "-" +:+ a +:+ ": ";
                             download_diagnostic url e +:+ nl; "0/4" +:+ nl]
  /\ paths_json s' = paths_json s
  /\ success s' = success s
  /\ (forall q, q <> zip_path -> fs s' !! q = fs s !! q)
  /\ (trace s' = trace s ++ [EvGet url] \/ trace s' = trace s ++ [EvGet url; EvOpenW zip_path]).
Proof.
  intros Hd Hg zip_path url Hf.
  set (sa := after_attempt W url zip_path (labelled p a s)).
  assert (bento4_target W base p a s
          = print "0/4" (with_stdout (stdout sa ++ [download_diagnostic url e +:+ nl]) sa))
    as E.
  { unfold bento4_target.
    rewrite (bind_returns _ _ s (labelled p a s) tt eq_refl).
    rewrite (bind_returns (dict_index platform_config p) _ _ (labelled p a s) d);
      [| unfold dict_index; by rewrite Hd].
    rewrite Hg. cbv zeta. fold zip_path. fold url.
    unfold bind at 1. rewrite download_eq.
    change (fetch_failure W url zip_path (labelled p a s))
      with (fetch_failure W url zip_path s).
    by rewrite Hf. }
  simpl. rewrite E. simpl.
  destruct (after_attempt_books W url zip_path (labelled p a s)) as (Hp & Hs & Ho).
  fold sa in Hp, Hs, Ho. rewrite Hp, Hs, Ho. simpl. rewrite <- !app_assoc. simpl.
  repeat split.
  - intros q Hq. unfold sa. by rewrite after_attempt_frame.
  - exact (after_attempt_trace W url zip_path (labelled p a s)).
Qed.

Lemma bento4_fetch_failure_witness :
  fetch_failure flaky_world (bento4_url "x86_64-unknown-linux")
    ["binaries"; "linux"; "x64"; "bento4"; "bento4.zip"] (initial ∅)
  = Some (RequestException
            "HTTPSConnectionPool(host='github.com', port=443): Max retries exceeded")
  /\ fst (bento4_target flaky_world ["binaries"] "linux" "x64" (initial ∅)) = Ret tt
  /\ paths_json (snd (bento4_target flaky_world ["binaries"] "linux" "x64" (initial ∅))) = ∅.
Proof.
  split; [reflexivity |].
  pose proof (bento4_fetch_failure flaky_world ["binaries"] "linux" "x64"
                "x86_64-unknown-linux" _ _ (initial ∅) eq_refl eq_refl eq_refl)
    as (H1 & _ & H3 & _).
  split; [exact H1 | exact H3].
Defined.

Section NoMatch.

Variable W : world.
Variable base : Path.

Lemma names_without_match (p a : string) (zip_info : member) (names : list string)
    (s : state) :
  (forall e, e ∈ names -> endswith (filename zip_info) e = false) ->
  for_each names (fun executable =>
    if endswith (filename zip_info) executable
    then bento4_install base p a zip_info executable
    else ret tt) s = (Ret tt, s).
Proof.
  induction names as [|e names IH]; intros H; simpl; [reflexivity |].
  rewrite (H e) by apply list_elem_of_here.
  rewrite (bind_returns _ _ s s tt eq_refl). apply IH.
  intros e' He'. by apply H, list_elem_of_further.
Qed.

Lemma entries_without_match (p a : string) (names : list string) (ms : list member)
    (s : state) :
  assoc p executables = Some names ->
  (forall m e, m ∈ ms -> e ∈ names -> endswith (filename m) e = false) ->
  for_each ms (fun zip_info =>
    let* names := dict_index executables p in
    for_each names (fun executable =>
      if endswith (filename zip_info) executable
      then bento4_install base p a zip_info executable
      else ret tt)) s = (Ret tt, s).
Proof.
  intros Hn. induction ms as [|m ms IH]; intros H; simpl; [reflexivity |].
  erewrite bind_returns; [apply IH | ].
  - intros m' e Hm' He. by apply H; [apply list_elem_of_further |].
  - erewrite bind_returns; [| unfold dict_index; by rewrite Hn].
    apply names_without_match. intros e He. apply H; [apply list_elem_of_here | exact He].
Qed.

End NoMatch.

(** X6: an archive of Bento4 that was fetched and opens as a zip file, but
    in which no entry ends with the name of one of the executables of the
    platform.  This is no error: nothing is extracted, the archive is read
    once and removed, [0/4] is printed after the label and nothing else, and
    the manifest is as it was; the filesystem ends as it began, but for the
    archive's path, which is empty. *)
Theorem bento4_archive_without_tools (W : world) (base : Path)
    (p a platform_str : string) (d : list (string * string)) (names : list string)
    (r : response) (ms : list member) (s : state) :
  assoc p platform_config = Some d ->
  get_platform_str d a = Some platform_str ->
  assoc p executables = Some names ->
  let zip_path := tool_dir base p a "bento4" ++ ["bento4.zip"] in
  let url := bento4_url platform_str in
  http_get W (length (gets (trace s))) url = GetReturns r ->
  fetch_failure W url zip_path s = None ->
  unzip W (written (chunks r)) = Some ms ->
  (forall m e, m ∈ ms -> e ∈ names -> endswith (filename m) e = false) ->
  let s' := snd (bento4_target W base p a s) in
  fst (bento4_target W base p a s) = Ret tt
  /\ stdout s' = stdout s ++ [p +:+ "-" +:+ a +:+ ": "; "0/4" +:+ nl]
  /\ paths_json s' = paths_json s
  /\ fs s' = delete zip_path (fs s)
  /\ trace s' = trace s ++ [EvGet url; EvOpenW zip_path; EvRead zip_path; EvUnlink zip_path].
Proof.
  intros Hd Hg Hn zip_path url Hget Hf Hz Hno.
  assert (http_error r = None /\ open_error (fs s) zip_path = None) as [Hr Ho].
  { unfold fetch_failure in Hf. rewrite Hget in Hf.
    destruct (http_error r); [discriminate |].
    by destruct (open_error (fs s) zip_path). }
  assert (zip_path <> []) as Hne
    by (unfold zip_path; by destruct (tool_dir base p a "bento4")).
  set (data := written (chunks r)) in *.
  set (f1 := <[zip_path := File data (open_mode s zip_path)]> (fs s)).
  set (s1 := with_fs f1 (with_trace (trace s ++ [EvGet url; EvOpenW zip_path])
                           (labelled p a s))).
  assert (_download W url zip_path (labelled p a s) = (Ret true, s1)) as E1.
  { rewrite download_eq.
    change (fetch_failure W url zip_path (labelled p a s))
      with (fetch_failure W url zip_path s).
    rewrite Hf. unfold after_attempt. simpl. rewrite Hget, Hr, Ho.
    unfold s1, with_fs, with_trace. simpl. by rewrite <- app_assoc. }
  set (s2 := with_success 0 s1).
  set (s3 := with_trace (trace s2 ++ [EvRead zip_path]) s2).
  assert (zip_open W zip_path s2 = (Ret ms, s3)) as E2.
  { unfold zip_open. pose proof (read_file_eq zip_path s2) as Er. simpl in Er.
    rewrite (fs_lookup_nonempty _ _ Hne) in Er.
    change (fs s2 !! zip_path) with (f1 !! zip_path) in Er.
    unfold f1 in Er. rewrite lookup_insert_eq in Er.
    rewrite (bind_returns _ _ _ _ _ Er). by rewrite Hz. }
  set (s4 := with_fs (delete zip_path (fs s)) (with_trace (trace s3 ++ [EvUnlink zip_path]) s3)).
  assert (bento4_extract W base p a zip_path s2 = (Ret tt, s4)) as E3.
  { unfold bento4_extract. rewrite (bind_returns _ _ _ _ _ E2).
    rewrite (bind_returns _ _ _ _ _ (entries_without_match base p a names ms s3 Hn Hno)).
    pose proof (unlink_eq zip_path s3) as Eu. simpl in Eu.
    rewrite (fs_lookup_nonempty _ _ Hne) in Eu.
    change (fs s3 !! zip_path) with (f1 !! zip_path) in Eu.
    unfold f1 in Eu. rewrite lookup_insert_eq in Eu. rewrite Eu.
    unfold s4. simpl. unfold f1. by rewrite delete_insert_eq. }
  assert (bento4_target W base p a s = print "0/4" s4) as E.
  { unfold bento4_target.
    rewrite (bind_returns _ _ s (labelled p a s) tt eq_refl).
    rewrite (bind_returns (dict_index platform_config p) _ _ (labelled p a s) d);
      [| unfold dict_index; by rewrite Hd].
    rewrite Hg. cbv zeta. fold zip_path. fold url.
    rewrite (bind_returns _ _ _ _ _ E1). cbn [negb].
    rewrite (bind_returns _ _ s1 s2 tt eq_refl).
    rewrite (bind_returns _ _ s2 s4 tt (try_returns _ _ _ _ _ E3)).
    reflexivity. }
  simpl. rewrite E. simpl. rewrite <- !app_assoc. by simpl.
Qed.

Lemma bento4_archive_without_tools_witness :
  fst (bento4_target readme_world ["binaries"] "linux" "x64" after_layout) = Ret tt
  /\ stdout (snd (bento4_target readme_world ["binaries"] "linux" "x64" after_layout))
     = ["linux-x64: "; "0/4" +:+ nl]
  /\ fs (snd (bento4_target readme_world ["binaries"] "linux" "x64" after_layout))
     = delete ["binaries"; "linux"; "x64"; "bento4"; "bento4.zip"] (fs after_layout).
Proof.
  assert (forall m e, m ∈ [sound "docs/"; sound "docs/README.txt"] ->
                      e ∈ ["mp4decrypt"; "mp4encrypt"; "mp4info"; "mp4dump"] ->
                      endswith (filename m) e = false) as Hno.
  { intros m e Hm He.
    repeat (apply elem_of_cons in Hm as [-> | Hm]);
      [.. | by apply not_elem_of_nil in Hm];
      repeat (apply elem_of_cons in He as [-> | He]);
      first [reflexivity | by apply not_elem_of_nil in He]. }
  pose proof (bento4_archive_without_tools readme_world ["binaries"] "linux" "x64"
                "x86_64-unknown-linux" _ _ _ _ after_layout
                eq_refl eq_refl eq_refl eq_refl eq_refl eq_refl Hno)
    as (H1 & H2 & _ & H4 & _).
  split; [exact H1 |]. split; [exact H2 | exact H4].
Defined.

(** ** The counter and the manifest move together *)

Lemma same_books_refl (s : state) : same_books s s.
Proof. by split. Qed.

Lemma same_books_trans (s1 s2 s3 : state) :
  same_books s1 s2 -> same_books s2 s3 -> same_books s1 s3.
Proof. intros [H1 H2] [H3 H4]. split; congruence. Qed.

Lemma same_books_log (s : state) (e : event) :
  (fun _ : event => true) e = true -> same_books s (with_trace (trace s ++ [e]) s).
Proof. by split. Qed.

Ltac same_books_frame :=
  first [ exact same_books_refl | exact same_books_trans | exact same_books_log
        | assumption | intros; reflexivity | intros; split; reflexivity ].

Tactic Notation "keeping_books" uconstr(lemma) :=
  first [ apply lemma with (hidden := fun _ => true) | apply lemma ];
  same_books_frame.

Section Books.

Variable W : world.
Variable base : Path.

Lemma same_books_gzip_copy (gz final : Path) : relates same_books (gzip_copy W gz final).
Proof. keeping_books relates_gzip_copy. Qed.

Lemma same_books_unlink (p : Path) : relates same_books (unlink p).
Proof. keeping_books relates_unlink. Qed.

Lemma same_books_chmod (platform_name : string) (p : Path) :
  relates same_books (chmod_unless_windows platform_name p).
Proof. keeping_books relates_chmod_unless_windows. Qed.

Lemma same_books_download (url : string) (dest : Path) :
  relates same_books (_download W url dest).
Proof.
  intros s. rewrite download_eq.
  destruct (after_attempt_books W url dest s) as (Hp & Hs & _).
  by destruct (fetch_failure W url dest s).
Qed.

(** The [try] block of [download_ffmpeg] records and counts at its very
    end: it returns with both done, or raises with neither. *)
Lemma ffmpeg_extract_books (p a executable : string) (gz final : Path) (s : state) :
  let r := ffmpeg_extract W p a executable gz final s in
  match fst r with
  | Ret _ =>
      paths_json (snd r) = add_path p a "ffmpeg" (executable +:+ exe_ext p) (paths_json s)
      /\ success (snd r) = success s + 1
  | Raise _ => same_books s (snd r)
  end.
Proof.
  simpl. unfold ffmpeg_extract, bind.
  pose proof (same_books_gzip_copy gz final s) as H1.
  destruct (gzip_copy W gz final s) as [[[]|e1] s1]; simpl in *; [| exact H1].
  pose proof (same_books_unlink gz s1) as H2.
  destruct (unlink gz s1) as [[[]|e2] s2]; simpl in *;
    [| exact (same_books_trans _ _ _ H1 H2)].
  pose proof (same_books_chmod p final s2) as H3.
  destruct (chmod_unless_windows p final s2) as [[[]|e3] s3]; simpl in *;
    [| exact (same_books_trans _ _ _ H1 (same_books_trans _ _ _ H2 H3))].
  destruct H1 as [H1 H1'], H2 as [H2 H2'], H3 as [H3 H3'].
  unfold _add_path, incr_success, bind, get_paths, set_paths, get_success, set_success.
  simpl. split; congruence.
Qed.

(** When the gzip copy returns, so does the [try] block: the archive that
    was read is there to be removed and the output file is there to have its
    mode set. *)
Lemma ffmpeg_extract_returns (p a executable : string) (gz final : Path) (s s2 : state) :
  gz <> [] -> final <> [] -> gz <> final ->
  gzip_copy W gz final s = (Ret tt, s2) ->
  fst (ffmpeg_extract W p a executable gz final s) = Ret tt.
Proof.
  intros Hgz Hfin Hne H2.
  destruct (gzip_copy_returns W gz final s s2 Hgz Hfin Hne H2)
    as (data & gzmode & mode0 & Egz & Eerr & ->).
  unfold ffmpeg_extract. rewrite (bind_returns _ _ _ _ _ H2).
  match type of H2 with _ = (_, ?s3) => pose proof (unlink_eq gz s3) as Eu end.
  simpl in Eu. rewrite (fs_lookup_nonempty _ _ Hgz) in Eu.
  rewrite lookup_insert_ne in Eu by done. rewrite Egz in Eu.
  rewrite (bind_returns _ _ _ _ _ Eu).
  unfold chmod_unless_windows. destruct (String.eqb p "windows"); [reflexivity |].
  match type of Eu with _ = (_, ?s4) => pose proof (chmod_eq final 493 s4) as Ec end.
  simpl in Ec. rewrite (fs_lookup_nonempty _ _ Hfin) in Ec.
  rewrite lookup_delete_ne in Ec by done. rewrite lookup_insert_eq in Ec.
  rewrite (bind_returns _ _ _ _ _ Ec). reflexivity.
Qed.

(** One executable: it is recorded and counted exactly when it was fetched
    and unpacked. *)
Lemma ffmpeg_executable_books (p a platform_str executable : string) (s : state) :
  let r := ffmpeg_executable W base p a platform_str executable s in
  let b := ffmpeg_unpacks W base p a platform_str executable s in
  fst r = Ret tt
  /\ paths_json (snd r) = add_if b p a "ffmpeg" (executable +:+ exe_ext p) (paths_json s)
  /\ success (snd r) = success s + Nat.b2n b.
Proof.
  cbv zeta. unfold ffmpeg_executable, ffmpeg_unpacks. cbv zeta.
  set (gz := tool_dir base p a "ffmpeg" ++ [ffmpeg_filename executable platform_str +:+ ".gz"]).
  set (final := tool_dir base p a "ffmpeg" ++ [executable +:+ exe_ext p]).
  assert (gz <> final) as Hne by apply gz_path_differs.
  assert (gz <> []) as Hgz by (subst gz; by destruct (tool_dir base p a "ffmpeg")).
  assert (final <> []) as Hfin by (subst final; by destruct (tool_dir base p a "ffmpeg")).
  pose proof (same_books_download (ffmpeg_url executable platform_str) gz s) as H1.
  pose proof (emits_download W (ffmpeg_url executable platform_str) gz s)
    as (ok & s1 & E & _).
  rewrite E in H1. simpl in H1. destruct H1 as [H1 H1'].
  rewrite (bind_returns _ _ _ _ _ E). rewrite E.
  destruct ok; [| simpl; repeat split; [congruence | lia]].
  unfold try_except.
  pose proof (ffmpeg_extract_books p a executable gz final s1) as H2. simpl in H2.
  destruct (gzip_copy W gz final s1) as [[[]|e] s2] eqn:Eg; simpl.
  - pose proof (ffmpeg_extract_returns p a executable gz final s1 s2 Hgz Hfin Hne Eg) as R.
    destruct (ffmpeg_extract W p a executable gz final s1) as [[[]|e] s3];
      [| discriminate R].
    simpl in *. destruct H2 as [H2 H2']. repeat split; congruence.
  - unfold ffmpeg_extract in *. rewrite (bind_raises _ _ _ _ _ Eg) in *.
    simpl in *. destruct H2 as [H2 H2']. repeat split; [congruence | lia].
Qed.

(** A target of ffmpeg: the two executables in turn. *)
Lemma ffmpeg_target_books (p a platform_str : string) (d : list (string * string))
    (s : state) :
  assoc p ffmpeg_map = Some d ->
  get_platform_str d a = Some platform_str ->
  let s0 := with_success 0 (labelled p a s) in
  let s1 := snd (ffmpeg_executable W base p a platform_str "ffmpeg" s0) in
  let b1 := ffmpeg_unpacks W base p a platform_str "ffmpeg" s0 in
  let b2 := ffmpeg_unpacks W base p a platform_str "ffprobe" s1 in
  let r := ffmpeg_target W base p a s in
  fst r = Ret tt
  /\ success (snd r) = Nat.b2n b1 + Nat.b2n b2
  /\ List.last (stdout (snd r)) "" = str_nat (success (snd r)) +:+ "/2" +:+ nl
  /\ paths_json (snd r)
     = add_if b2 p a "ffmpeg" ("ffprobe" +:+ exe_ext p)
         (add_if b1 p a "ffmpeg" ("ffmpeg" +:+ exe_ext p) (paths_json s)).
Proof.
  intros Hd Hg. cbv zeta. unfold ffmpeg_target.
  rewrite (bind_returns _ _ s (labelled p a s) tt eq_refl).
  rewrite (bind_returns (dict_index ffmpeg_map p) _ _ (labelled p a s) d);
    [| unfold dict_index; by rewrite Hd].
  rewrite Hg.
  rewrite (bind_returns (set_success 0) _ (labelled p a s) _ tt eq_refl).
  simpl for_each.
  destruct (ffmpeg_executable_books p a platform_str "ffmpeg"
              (with_success 0 (labelled p a s))) as (R1 & P1 & S1).
  destruct (ffmpeg_executable W base p a platform_str "ffmpeg" _) as [[[]|e1] s1] eqn:E1;
    [| discriminate R1]. simpl in P1, S1. simpl snd.
  destruct (ffmpeg_executable_books p a platform_str "ffprobe" s1) as (R2 & P2 & S2).
  destruct (ffmpeg_executable W base p a platform_str "ffprobe" s1) as [[[]|e2] s2] eqn:E2;
    [| discriminate R2]. simpl in P2, S2.
  erewrite (bind_returns (bind _ _) _ _ s2 tt);
    [| rewrite (bind_returns _ _ _ _ _ E1); rewrite (bind_returns _ _ _ _ _ E2);
       reflexivity].
  rewrite (bind_returns get_success _ s2 s2 (success s2) eq_refl).
  unfold print, print_noeol. simpl. rewrite last_last.
  repeat split; [lia | apply append_assoc | congruence].
Qed.

End Books.



(** [gzip_copy] on an archive that is there, into a file that opens:
    what was unpacked is written, whether or not the stream was sound. *)
Lemma gzip_copy_eq (W : world) (gz out : Path) (s : state) (data : string) (gzmode : Z) :
  gz <> [] -> fs s !! gz = Some (File data gzmode) -> open_error (fs s) out = None ->
  gzip_copy W gz out s
  = (match (gunzip W data).2 with
     | Some msg => Raise (BadArchive msg)
     | None => Ret tt
     end,
     with_fs (<[out := File (gunzip W data).1 (open_mode s out)]> (fs s))
       (with_trace (trace s ++ [EvRead gz; EvOpenW out]) s)).
Proof.
  intros Hgz Hd Ho. unfold gzip_copy.
  pose proof (read_file_eq gz s) as Er. simpl in Er.
  rewrite (fs_lookup_nonempty _ _ Hgz), Hd in Er.
  rewrite (bind_returns _ _ _ _ _ Er).
  pose proof (open_wb_eq out (with_trace (trace s ++ [EvRead gz]) s)) as Eo. simpl in Eo.
  rewrite Ho in Eo. rewrite (bind_returns _ _ _ _ _ Eo).
  match goal with |- bind (fs_write _ ?c) _ ?s1 = _ =>
    rewrite (bind_returns _ _ _ _ _ (fs_write_eq out c s1)) end.
  simpl. rewrite lookup_insert_eq, insert_insert_eq, append_nil.
  unfold open_mode. rewrite <- app_assoc. simpl.
  by destruct (gunzip W data).2.
Qed.

(** X8: one executable of ffmpeg whose archive was fetched but whose gzip
    stream is damaged.  The step still returns; it prints [  X extract
    <executable>]; the archive stays where it was fetched to and the output
    file is left behind with the part that unpacked; no mode is changed, and
    neither the manifest nor the counter moves. *)
Theorem damaged_gzip_keeps_archive (W : world) (base : Path)
    (p a platform_str executable : string) (s s1 : state) (data msg : string) (mode : Z) :
  let dir := tool_dir base p a "ffmpeg" in
  let gz_path := dir ++ [ffmpeg_filename executable platform_str +:+ ".gz"] in
  let final_path := dir ++ [executable +:+ exe_ext p] in
  let r := ffmpeg_executable W base p a platform_str executable s in
  _download W (ffmpeg_url executable platform_str) gz_path s = (Ret true, s1) ->
  fs s1 !! gz_path = Some (File data mode) ->
  open_error (fs s1) final_path = None ->
  (gunzip W data).2 = Some msg ->
  fst r = Ret tt
  /\ fs (snd r)
     = <[final_path := File (gunzip W data).1 (open_mode s1 final_path)]> (fs s1)
  /\ fs (snd r) !! gz_path = Some (File data mode)
  /\ stdout (snd r) = stdout s1 ++ [("  X extract " +:+ executable) +:+ nl]
  /\ trace (snd r) = trace s1 ++ [EvRead gz_path; EvOpenW final_path]
  /\ paths_json (snd r) = paths_json s
  /\ success (snd r) = success s.
Proof.
  intros dir gz_path final_path r H1 Hd Ho Hg.
  assert (gz_path <> final_path) as Hne by apply gz_path_differs.
  assert (gz_path <> []) as Hgz by (subst gz_path; by destruct dir).
  pose proof (same_books_download W (ffmpeg_url executable platform_str) gz_path s) as Hb.
  rewrite H1 in Hb. destruct Hb as [Hb1 Hb2]. simpl in Hb1, Hb2.
  pose proof (gzip_copy_eq W gz_path final_path s1 data mode Hgz Hd Ho) as Ec.
  rewrite Hg in Ec.
  subst r. unfold ffmpeg_executable. fold dir. fold gz_path. fold final_path.
  rewrite (bind_returns _ _ _ _ _ H1).
  unfold try_except, ffmpeg_extract. rewrite (bind_raises _ _ _ _ _ Ec). simpl.
  repeat split; try done.
  by rewrite lookup_insert_ne.
Qed.

Lemma returned_pair {A} (x : outcome A * state) (a : A) : fst x = Ret a -> x = (Ret a, snd x).
Proof. destruct x as [o s]. simpl. by intros ->. Qed.

Lemma damaged_gzip_keeps_archive_witness :
  fst (ffmpeg_executable flaky_world ["binaries"] "linux" "x64" "linux-x64" "ffprobe"
         (with_trace [EvGet "first"] after_layout)) = Ret tt
  /\ fs (snd (ffmpeg_executable flaky_world ["binaries"] "linux" "x64" "linux-x64" "ffprobe"
                (with_trace [EvGet "first"] after_layout)))
     !! ["binaries"; "linux"; "x64"; "ffmpeg"; "ffprobe-linux-x64.gz"]
     = Some (File ("GET " +:+ ffmpeg_url "ffprobe" "linux-x64") 420)
  /\ paths_json (snd (ffmpeg_executable flaky_world ["binaries"] "linux" "x64" "linux-x64"
                        "ffprobe" (with_trace [EvGet "first"] after_layout))) = ∅.
Proof.
  set (s := with_trace [EvGet "first"] after_layout).
  set (gz := tool_dir ["binaries"] "linux" "x64" "ffmpeg"
             ++ [ffmpeg_filename "ffprobe" "linux-x64" +:+ ".gz"]).
  set (s1 := snd (_download flaky_world (ffmpeg_url "ffprobe" "linux-x64") gz s)).
  assert (fst (_download flaky_world (ffmpeg_url "ffprobe" "linux-x64") gz s) = Ret true)
    as H1 by (vm_compute; reflexivity).
  assert (fs s1 !! gz = Some (File ("GET " +:+ ffmpeg_url "ffprobe" "linux-x64") 420))
    as H2 by (vm_compute; reflexivity).
  assert (open_error (fs s1) (tool_dir ["binaries"] "linux" "x64" "ffmpeg"
                                ++ ["ffprobe" +:+ exe_ext "linux"]) = None)
    as H3 by (vm_compute; reflexivity).
  assert ((gunzip flaky_world ("GET " +:+ ffmpeg_url "ffprobe" "linux-x64")).2
          = Some "CRC check failed") as H4 by (vm_compute; reflexivity).
  destruct (damaged_gzip_keeps_archive flaky_world ["binaries"] "linux" "x64" "linux-x64"
              "ffprobe" s s1 _ _ _ (returned_pair _ true H1) H2 H3 H4)
    as (R1 & _ & R3 & _ & _ & R6 & _).
  split; [exact R1 |]. split; [exact R3 | exact R6].
Defined.

(** ** The archive variant: megatools *)

Lemma relates_weaken (R R' : state -> state -> Prop) {A} (m : M A) :
  (forall s s', R s s' -> R' s s') -> relates R m -> relates R' m.
Proof. intros H Hm s. apply H, Hm. Qed.

Lemma bind_inv {A B} (m : M A) (k : A -> M B) (s s' : state) (b : B) :
  bind m k s = (Ret b, s') -> exists a s1, m s = (Ret a, s1) /\ k a s1 = (Ret b, s').
Proof.
  unfold bind. destruct (m s) as [[a|e] s1]; [| discriminate]. intros H. by exists a, s1.
Qed.

Lemma rmtree_eq (p : Path) (s : state) :
  let s1 := with_trace (trace s ++ [EvRmtree p]) s in
  rmtree p s
  = match fs_lookup (fs s) p with
    | Some Dir => (Ret tt, with_fs (filter (fun kv => under p kv.1 = false) (fs s)) s1)
    | Some (File _ _) => (Raise (NotADirectoryError p), s1)
    | None => (Raise (FileNotFoundError p), s1)
    end.
Proof.
  unfold rmtree, bind, log, get_fs. simpl.
  by destruct (fs_lookup (fs s) p) as [[|data mode]|].
Qed.

Lemma rmtree_returns (p : Path) (s s' : state) :
  rmtree p s = (Ret tt, s') ->
  fs s' = filter (fun kv => under p kv.1 = false) (fs s).
Proof.
  rewrite rmtree_eq. simpl.
  destruct (fs_lookup (fs s) p) as [[|data mode]|]; [| discriminate..].
  by intros [= <-].
Qed.

Lemma unlink_returns (p : Path) (s s' : state) :
  unlink p s = (Ret tt, s') -> fs s' = delete p (fs s).
Proof.
  pose proof (unlink_eq p s) as E. simpl in E. rewrite E.
  destruct (fs_lookup (fs s) p) as [[|data mode]|]; [discriminate | | discriminate].
  by intros [= <-].
Qed.

Lemma removed_tree (p k : Path) (f : FS) :
  p `prefix_of` k -> filter (fun kv : Path * node => under p kv.1 = false) f !! k = None.
Proof.
  intros H. apply map_lookup_filter_None. right. intros x _. simpl.
  unfold under. by rewrite bool_decide_eq_true_2.
Qed.

Section Megatools.

Variable W : world.
Variable base : Path.

Lemma same_books_mkdir_exist_ok (p : Path) : relates same_books (mkdir_exist_ok p).
Proof. keeping_books relates_mkdir_exist_ok. Qed.

Lemma same_books_extract_member (dest : Path) (m : member) :
  relates same_books (extract_member dest m).
Proof. keeping_books relates_extract_member. Qed.

Lemma same_books_zip_open (p : Path) : relates same_books (zip_open W p).
Proof. keeping_books relates_zip_open. Qed.

Lemma same_books_tar_open (p : Path) : relates same_books (tar_open W p).
Proof. keeping_books relates_tar_open. Qed.

Lemma same_books_os_walk (p : Path) : relates same_books (os_walk p).
Proof. keeping_books relates_os_walk. Qed.

Lemma same_books_shutil_move (src dst : Path) : relates same_books (shutil_move src dst).
Proof. keeping_books relates_shutil_move. Qed.

Lemma same_books_rmtree (p : Path) : relates same_books (rmtree p).
Proof. keeping_books relates_rmtree. Qed.

Variables p a executable : string.

Lemma same_books_megatools_unpack (extension : string) (archive_path : Path) :
  relates same_books (megatools_unpack W base p a extension archive_path).
Proof.
  unfold megatools_unpack.
  apply (relates_bind _ same_books_trans); [apply same_books_mkdir_exist_ok | intros _].
  apply (relates_bind _ same_books_trans); [| intros _].
  { apply (relates_bind _ same_books_trans).
    - destruct (String.eqb extension ".zip");
        [apply same_books_zip_open | apply same_books_tar_open].
    - intros archive. apply (relates_for_each same_books same_books_refl same_books_trans).
      intros m _. apply same_books_extract_member. }
  apply (relates_bind _ same_books_trans); [apply same_books_os_walk | intros roots].
  apply (relates_bind _ same_books_trans); intros; intros ?; apply same_books_refl.
Qed.

(** The [try] block of [download_megatools] is the unpacking and the walk,
    then the installation of what the search found, then the removal of the
    scratch directory and of the archive. *)
Lemma megatools_extract_split (extension : string) (archive_path : Path) (s : state) :
  megatools_extract W base p a extension executable archive_path s
  = (let* rf := megatools_unpack W base p a extension archive_path in
     (match List.find (fun root => has_file rf.2 root executable) rf.1 with
      | Some root =>
          (shutil_move (root ++ [executable])
                       (tool_dir base p a "megatools" ++ [executable]) >>
           chmod_unless_windows p (tool_dir base p a "megatools" ++ [executable])) >>
          _add_path p a "megatools" executable >>
          set_success 1
      | None => ret tt
      end >>
      rmtree (tool_dir base p a "megatools" ++ ["temp"]) >>
      unlink archive_path)) s.
Proof.
  unfold megatools_extract, megatools_unpack. cbv zeta.
  rewrite ?bind_assoc. apply bind_ext. intros _ s1.
  rewrite ?bind_assoc. apply bind_ext. intros archive s2.
  rewrite ?bind_assoc. apply bind_ext. intros _ s3.
  rewrite ?bind_assoc. apply bind_ext. intros roots s4.
  rewrite ?bind_assoc. apply bind_ext. intros f s5.
  rewrite (bind_returns (ret (roots, f)) _ s5 s5 (roots, f) eq_refl). simpl.
  destruct (List.find _ roots) as [root|]; [| reflexivity]. unfold bind.
  destruct (shutil_move _ _ s5) as [[[]|e1] s6]; [| reflexivity].
  destruct (chmod_unless_windows _ _ s6) as [[[]|e2] s7]; reflexivity.
Qed.

(** The [try] block records the executable and sets the counter to one
    exactly when the executable was found, moved and given its mode; else it
    does neither, however it ends. *)
Lemma megatools_extract_books (extension : string) (archive_path : Path) (s : state) :
  let r := megatools_extract W base p a extension executable archive_path s in
  let b := match megatools_unpack W base p a extension archive_path s with
           | (Ret (roots, f), s2) =>
               match List.find (fun root => has_file f root executable) roots with
               | Some root =>
                   match fst ((shutil_move (root ++ [executable])
                                 (tool_dir base p a "megatools" ++ [executable]) >>
                               chmod_unless_windows p
                                 (tool_dir base p a "megatools" ++ [executable])) s2) with
                   | Ret _ => true
                   | Raise _ => false
                   end
               | None => false
               end
           | (Raise _, _) => false
           end in
  paths_json (snd r) = add_if b p a "megatools" executable (paths_json s)
  /\ success (snd r) = (if b then 1 else success s).
Proof.
  cbv zeta.
  remember (megatools_extract W base p a extension executable archive_path s) as res
    eqn:Eres.
  rewrite megatools_extract_split in Eres. unfold bind at 1 in Eres.
  pose proof (same_books_megatools_unpack extension archive_path s) as H1.
  destruct (megatools_unpack W base p a extension archive_path s) as [[[roots f]|e] s2];
    simpl in H1, Eres; [| subst res; exact H1].
  assert (relates same_books (rmtree (tool_dir base p a "megatools" ++ ["temp"]) >>
                              unlink archive_path)) as Hend.
  { apply (relates_bind _ same_books_trans); [apply same_books_rmtree | intros _].
    apply same_books_unlink. }
  destruct (List.find _ roots) as [root|].
  - rewrite bind_assoc in Eres.
    pose proof (relates_bind _ same_books_trans _ _
                  (same_books_shutil_move (root ++ [executable])
                     (tool_dir base p a "megatools" ++ [executable]))
                  (fun _ => same_books_chmod p
                              (tool_dir base p a "megatools" ++ [executable])) s2) as H3.
    destruct ((shutil_move _ _ >> chmod_unless_windows _ _) s2) as [[[]|e3] s3] eqn:E3;
      simpl in H3 |- *.
    + rewrite (bind_returns _ _ _ _ _ E3) in Eres.
      rewrite bind_assoc in Eres.
      rewrite (bind_returns (_add_path p a "megatools" executable) _ s3 _ tt eq_refl)
        in Eres.
      rewrite (bind_returns (set_success 1) _ _ _ tt eq_refl) in Eres.
      match type of Eres with _ = _ ?s4 => destruct (Hend s4) as [H4 H4'] end.
      subst res. rewrite H4, H4'. simpl. destruct H1 as [H1 _], H3 as [H3 _].
      split; congruence.
    + rewrite (bind_raises _ _ _ _ _ E3) in Eres. subst res. simpl.
      exact (same_books_trans _ _ _ H1 H3).
  - rewrite (bind_returns (ret tt) _ s2 s2 tt eq_refl) in Eres. subst res.
    exact (same_books_trans _ _ _ H1 (Hend s2)).
Qed.

(** A target of megatools: what it prints and records. *)
Lemma megatools_target_books (platform_str extension : string)
    (d : list (string * (string * string * string))) (s : state) :
  assoc p config = Some d ->
  assoc a d = Some (platform_str, extension, executable) ->
  let r := megatools_target W base p a s in
  let b := megatools_installs W base p a platform_str extension executable
             (labelled p a s) in
  fst r = Ret tt
  /\ List.last (stdout (snd r)) "" = str_nat (Nat.b2n b) +:+ "/1" +:+ nl
  /\ paths_json (snd r) = add_if b p a "megatools" executable (paths_json s).
Proof.
  intros Hd Ha. cbv zeta. unfold megatools_target, megatools_installs. cbv zeta.
  rewrite (bind_returns _ _ s (labelled p a s) tt eq_refl).
  rewrite (bind_returns (dict_index config p) _ _ (labelled p a s) d);
    [| unfold dict_index; by rewrite Hd].
  rewrite Ha. cbv zeta.
  set (url := megatools_url platform_str extension).
  set (archive_path := tool_dir base p a "megatools" ++ ["megatools" +:+ extension]).
  pose proof (same_books_download W url archive_path (labelled p a s)) as [Hb _].
  destruct (emits_download W url archive_path (labelled p a s)) as (ok & s1 & E1 & _).
  rewrite E1 in Hb. simpl in Hb.
  rewrite (bind_returns _ _ _ _ _ E1). rewrite E1.
  destruct ok; cbn [negb].
  - rewrite (bind_returns (set_success 0) _ s1 _ tt eq_refl).
    pose proof (megatools_extract_books extension archive_path (with_success 0 s1))
      as [Hp Hs].
    match type of Hp with context [add_if ?b0] => set (b := b0) in * end.
    simpl in Hp, Hs.
    assert (exists s2, try_except
                         (megatools_extract W base p a extension executable archive_path)
                         (fun e => print ("  X extract: " +:+ str_take 40 (str_exn e)))
                         (with_success 0 s1) = (Ret tt, s2)
                       /\ paths_json s2 = add_if b p a "megatools" executable (paths_json s1)
                       /\ success s2 = Nat.b2n b) as (s2 & E2 & Hp2 & Hs2).
    { unfold try_except.
      destruct (megatools_extract W base p a extension executable archive_path _)
        as [[[]|e] s2]; simpl in Hp, Hs; eexists; (split; [reflexivity |]); simpl;
        (split; [exact Hp | rewrite Hs; by destruct b]). }
    rewrite (bind_returns _ _ _ _ _ E2).
    rewrite (bind_returns get_success _ s2 s2 (success s2) eq_refl).
    unfold print, print_noeol. simpl. rewrite last_last, Hs2.
    repeat split; first [apply append_assoc | congruence].
  - unfold print, print_noeol. simpl. rewrite last_last. by repeat split.
Qed.

End Megatools.

(** X9: the line [k/1] of a target of megatools.  The target returns; it
    prints [1/1] exactly when the archive was fetched and the executable
    installed from it: [_download] returned True, the archive unpacked, the
    executable was found in the walk of the scratch directory, and the move
    and the mode change returned; and then the manifest is the one before with
    that one path recorded, even when the removal of the scratch directory or
    of the archive fails afterwards.  In every other case, a failed fetch
    included, it prints [0/1] and the manifest is as it was.  No target counts
    above one. *)
Theorem megatools_count_is_recorded (W : world) (base : Path)
    (p a platform_str extension executable : string)
    (d : list (string * (string * string * string))) (s : state) :
  assoc p config = Some d ->
  assoc a d = Some (platform_str, extension, executable) ->
  let r := megatools_target W base p a s in
  let b := megatools_installs W base p a platform_str extension executable
             (labelled p a s) in
  fst r = Ret tt
  /\ List.last (stdout (snd r)) "" = str_nat (Nat.b2n b) +:+ "/1" +:+ nl
  /\ paths_json (snd r) = add_if b p a "megatools" executable (paths_json s).
Proof.
  intros Hd Ha r b.
  exact (megatools_target_books W base p a executable platform_str extension d s Hd Ha).
Qed.

Lemma megatools_count_is_recorded_witness :
  megatools_installs happy_world ["binaries"] "darwin" "arm64" "linux-aarch64" ".tar.gz"
    "megatools" (labelled "darwin" "arm64" after_layout) = true
  /\ fst (megatools_target happy_world ["binaries"] "darwin" "arm64" after_layout) = Ret tt
  /\ paths_json (snd (megatools_target happy_world ["binaries"] "darwin" "arm64"
                         after_layout))
     = add_path "darwin" "arm64" "megatools" "megatools" ∅.
Proof.
  assert (megatools_installs happy_world ["binaries"] "darwin" "arm64" "linux-aarch64"
            ".tar.gz" "megatools" (labelled "darwin" "arm64" after_layout) = true) as Hb
    by (vm_compute; reflexivity).
  split; [exact Hb |].
  destruct (megatools_count_is_recorded happy_world ["binaries"] "darwin" "arm64"
              "linux-aarch64" ".tar.gz" "megatools" _ after_layout eq_refl eq_refl)
    as (H1 & _ & H3).
  rewrite Hb in H3. split; [exact H1 | exact H3].
Defined.

(** ** What is left behind when the unpacking went through *)

(** X10: the archives and the scratch directories are removed.  When the
    [try] block of megatools completes, the archive is gone and so is the
    whole tree under the [temp] directory; when the [try] block of Bento4
    completes, the zip archive is gone; and every installation of an
    executable of Bento4 that completes leaves no [temp] directory behind. *)
Theorem scratch_is_removed (W : world) (base : Path)
    (p a extension executable : string) (archive_path : Path) (zip_info : member)
    (s s' : state) :
  (megatools_extract W base p a extension executable archive_path s = (Ret tt, s') ->
   fs s' !! archive_path = None
   /\ forall k, (tool_dir base p a "megatools" ++ ["temp"]) `prefix_of` k -> fs s' !! k = None)
  /\ (bento4_extract W base p a archive_path s = (Ret tt, s') ->
      fs s' !! archive_path = None)
  /\ (bento4_install base p a zip_info executable s = (Ret tt, s') ->
      fs s' !! (tool_dir base p a "bento4" ++ ["temp"]) = None).
Proof.
  split; [| split].
  - unfold megatools_extract. intros H.
    apply bind_inv in H as ([] & s1 & _ & H).
    apply bind_inv in H as ([] & s2 & _ & H).
    apply bind_inv in H as (roots & s3 & _ & H).
    apply bind_inv in H as (f & s4 & _ & H).
    apply bind_inv in H as ([] & s5 & _ & H).
    apply bind_inv in H as ([] & s6 & Hrm & Hun).
    apply rmtree_returns in Hrm. apply unlink_returns in Hun. rewrite Hun, Hrm.
    split; [apply lookup_delete_eq |].
    intros k Hk. destruct (decide (k = archive_path)) as [->|Hne];
      [apply lookup_delete_eq |].
    rewrite lookup_delete_ne by done. by apply removed_tree.
  - unfold bento4_extract. intros H.
    apply bind_inv in H as (zip_ref & s1 & _ & H).
    apply bind_inv in H as ([] & s2 & _ & Hun).
    apply unlink_returns in Hun. rewrite Hun. apply lookup_delete_eq.
  - unfold bento4_install. intros H.
    apply bind_inv in H as ([] & s1 & _ & H).
    apply bind_inv in H as ([] & s2 & _ & H).
    apply bind_inv in H as ([] & s3 & _ & H).
    apply bind_inv in H as ([] & s4 & _ & H).
    apply bind_inv in H as ([] & s5 & _ & H).
    apply bind_inv in H as ([] & s6 & _ & H).
    apply bind_inv in H as (there & s7 & Hex & H).
    unfold path_exists, bind, get_fs, ret in Hex. injection Hex as Hthere <-.
    destruct there.
    + apply rmtree_returns in H. rewrite H. by apply removed_tree.
    + injection H as <-.
      rewrite fs_lookup_nonempty in Hthere
        by (by destruct (tool_dir base p a "bento4")).
      by destruct (fs s6 !! _).
Qed.


Lemma scratch_is_removed_witness :
  fst (megatools_extract happy_world ["binaries"] "linux" "x64" ".tar.gz" "megatools"
         ["binaries"; "linux"; "x64"; "megatools"; "megatools.tar.gz"] megatools_fetched)
  = Ret tt
  /\ fs (snd (megatools_extract happy_world ["binaries"] "linux" "x64" ".tar.gz" "megatools"
                ["binaries"; "linux"; "x64"; "megatools"; "megatools.tar.gz"]
                megatools_fetched))
     !! ["binaries"; "linux"; "x64"; "megatools"; "megatools.tar.gz"] = None.
Proof.
  assert (fst (megatools_extract happy_world ["binaries"] "linux" "x64" ".tar.gz" "megatools"
                 ["binaries"; "linux"; "x64"; "megatools"; "megatools.tar.gz"]
                 megatools_fetched) = Ret tt) as H by (vm_compute; reflexivity).
  split; [exact H |].
  exact (proj1 (proj1 (scratch_is_removed happy_world ["binaries"] "linux" "x64" ".tar.gz"
                         "megatools" ["binaries"; "linux"; "x64"; "megatools"; "megatools.tar.gz"]
                         (sound "") megatools_fetched _)
                  (returned_pair _ tt H))).
Defined.

(** ** Writing the manifest, and how a run can end *)

Section Manifest.

Variable W : world.

(** [save_paths_json] in closed form. *)
Lemma save_paths_json_eq (s : state) :
  let json := ["binary_paths.json"] in
  let s1 := with_trace (trace s ++ [EvOpenW json]) s in
  save_paths_json W s
  = match fs s !! json with
    | Some Dir => (Raise (IsADirectoryError json), s1)
    | _ =>
        (Ret tt,
         with_stdout (stdout s ++ [(nl +:+ "Paths: " +:+ cwd W +:+ "/binary_paths.json") +:+ nl])
           (with_fs (<[json := File (json_dumps W (paths_json s)) (open_mode s json)]>
                       (fs s)) s1))
    end.
Proof.
  simpl. unfold save_paths_json.
  pose proof (open_wb_eq ["binary_paths.json"] s) as Eo. simpl in Eo.
  unfold open_error, parent_error in Eo. simpl in Eo.
  assert (forall (s2 : state) (mode : Z),
    fs s2 = <[ ["binary_paths.json"] := File "" mode]> (fs s) ->
    bind (bind get_paths (fun paths =>
            fs_write ["binary_paths.json"] (json_dumps W paths)))
         (fun _ => print (nl +:+ "Paths: " +:+ absolute W ["binary_paths.json"])) s2
    = (Ret tt,
       with_stdout (stdout s2 ++ [(nl +:+ "Paths: " +:+ cwd W +:+ "/binary_paths.json") +:+ nl])
         (with_fs (<[ ["binary_paths.json"] := File (json_dumps W (paths_json s2)) mode]>
                     (fs s)) s2))) as Hw.
  { intros s2 mode Hs2.
    erewrite bind_returns;
      [| rewrite (bind_returns get_paths _ s2 s2 (paths_json s2) eq_refl);
         apply fs_write_eq].
    rewrite Hs2, lookup_insert_eq, insert_insert_eq, append_nil. reflexivity. }
  destruct (fs s !! ["binary_paths.json"]) as [[|data mode]|] eqn:E.
  - by rewrite (bind_raises _ _ _ _ _ Eo).
  - rewrite (bind_returns _ _ _ _ _ Eo). match goal with |- _ ?s2 = _ => rewrite (Hw s2 mode eq_refl) end.
    unfold open_mode. simpl. by rewrite E.
  - rewrite (bind_returns _ _ _ _ _ Eo). match goal with |- _ ?s2 = _ => rewrite (Hw s2 (create_mode (umask s)) eq_refl) end.
    unfold open_mode. simpl. by rewrite E.
Qed.

End Manifest.

(** X11: in the filesystem of the model, where an entry is a file or a
    directory and nothing more (no permissions, no full disk),
    [save_paths_json] fails in one case only, when [binary_paths.json] in the
    working directory is a directory: then [IsADirectoryError] is raised,
    nothing is written and nothing is printed.  In every other case it
    returns with the file holding the encoding of the manifest and nothing
    else (an existing file is replaced and keeps its mode, a new one gets
    0666 without the bits of the umask of the process), no other path
    changed, the manifest untouched, and one line printed that names the file
    under the working directory. *)
Theorem manifest_file_outcome (W : world) (s : state) :
  let json := ["binary_paths.json"] in
  let r := save_paths_json W s in
  match fs s !! json with
  | Some Dir =>
      r = (Raise (IsADirectoryError json), with_trace (trace s ++ [EvOpenW json]) s)
  | _ =>
      fst r = Ret tt
      /\ fs (snd r)
         = <[json := File (json_dumps W (paths_json s)) (open_mode s json)]> (fs s)
      /\ open_mode s json = match fs s !! json with
                            | Some (File _ mode) => mode
                            | _ => Z.land 438 (Z.lnot (umask s))
                            end
      /\ stdout (snd r)
         = stdout s ++ [(nl +:+ "Paths: " +:+ cwd W +:+ "/binary_paths.json") +:+ nl]
      /\ paths_json (snd r) = paths_json s
      /\ trace (snd r) = trace s ++ [EvOpenW json]
  end.
Proof.
  simpl. rewrite save_paths_json_eq. unfold open_mode. simpl.
  destruct (fs s !! ["binary_paths.json"]) as [[|data mode]|]; by repeat split.
Qed.

(** X12: how [run] can end.  The three loops never let an exception out, so
    the only exception a run can raise is the one of opening the manifest for
    writing, which in the filesystem of the model is [IsADirectoryError]: then
    [binary_paths.json] is a directory and the attempt to open it is the last
    event.  When the run returns, the last line printed is [Done!] and
    [binary_paths.json] holds the encoding of the manifest as it is at the
    end. *)
Theorem run_fails_only_writing_manifest (W : world) (base : Path) (s : state) :
  let json := ["binary_paths.json"] in
  let r := run W base s in
  match fst r with
  | Ret _ =>
      List.last (stdout (snd r)) "" = (nl +:+ "Done!") +:+ nl
      /\ exists mode,
           fs (snd r) !! json = Some (File (json_dumps W (paths_json (snd r))) mode)
  | Raise e =>
      e = IsADirectoryError json
      /\ fs (snd r) !! json = Some Dir
      /\ List.last (trace (snd r)) (EvGet "") = EvOpenW json
  end.
Proof.
  simpl. destruct (run_reaches_save W base s) as (s1 & -> & _).
  unfold bind. rewrite save_paths_json_eq.
  destruct (fs s1 !! ["binary_paths.json"]) as [[|data mode]|] eqn:E; simpl.
  - rewrite last_last. by repeat split.
  - rewrite last_last. split; [done |]. eexists. apply lookup_insert_eq.
  - rewrite last_last. split; [done |]. eexists. apply lookup_insert_eq.
Qed.

(** ** When the layout cannot be made, and how [main] can end *)

Lemma is_file_insert_dir (f : FS) (q k : Path) :
  f !! q = None -> is_file (<[q := Dir]> f) k = is_file f k.
Proof.
  intros H. unfold is_file. destruct (decide (k = q)) as [->|Hne].
  - by rewrite lookup_insert_eq, H.
  - by rewrite lookup_insert_ne.
Qed.

Lemma grown_is_file (qs : list Path) (f f' : FS) (k : Path) :
  grown qs f f' -> is_file f' k = is_file f k.
Proof.
  intros H. unfold is_file. destruct (H k) as [->|(-> & -> & _)]; done.
Qed.

(** The components of one directory: the walk stops at the first file. *)
Lemma components_outcome (d : Path) (qs : list Path) (s : state) :
  (forall q, q ∈ qs -> q <> []) ->
  match fst (for_each qs (mkdir_component d) s) with
  | Ret _ => forall q, q ∈ qs -> is_file (fs s) q = false
  | Raise e => exists q, q ∈ qs /\ is_file (fs s) q = true /\ e = mkdir_error d q
  end.
Proof.
  revert s. induction qs as [|q qs IH]; intros s Hne; simpl.
  - intros q Hq. by apply not_elem_of_nil in Hq.
  - assert (forall q', q' ∈ qs -> q' <> []) as Hne'
      by (intros q' Hq'; by apply Hne, list_elem_of_further).
    pose proof (mkdir_component_eq d q s (Hne q (list_elem_of_here _ _))) as Eq.
    destruct (fs s !! q) as [[|data mode]|] eqn:E.
    + rewrite (bind_returns _ _ _ _ _ Eq). specialize (IH s Hne').
      destruct (fst (for_each qs (mkdir_component d) s)) as [[]|e].
      * intros q' Hq'. apply elem_of_cons in Hq' as [-> | Hq']; [| by apply IH].
        unfold is_file. by rewrite E.
      * destruct IH as (q' & Hq' & Hf & ->). exists q'.
        split; [by apply list_elem_of_further | done].
    + rewrite (bind_raises _ _ _ _ _ Eq). simpl. exists q.
      split; [apply list_elem_of_here |]. split; [| done].
      unfold is_file. by rewrite E.
    + rewrite (bind_returns _ _ _ _ _ Eq).
      specialize (IH (with_fs (<[q := Dir]> (fs s)) s) Hne'). simpl in IH.
      destruct (fst (for_each qs (mkdir_component d) _)) as [[]|e].
      * intros q' Hq'. apply elem_of_cons in Hq' as [-> | Hq'].
        -- unfold is_file. by rewrite E.
        -- rewrite <- (is_file_insert_dir _ q q' E). by apply IH.
      * destruct IH as (q' & Hq' & Hf & ->). exists q'.
        rewrite (is_file_insert_dir _ q q' E) in Hf.
        split; [by apply list_elem_of_further | done].
Qed.

Lemma mkdir_parents_outcome (d : Path) (s : state) :
  match fst (mkdir_parents d s) with
  | Ret _ => forall q, q ∈ prefixes d -> is_file (fs s) q = false
  | Raise e => exists q, q ∈ prefixes d /\ is_file (fs s) q = true /\ e = mkdir_error d q
  end.
Proof.
  unfold mkdir_parents. rewrite (bind_returns (log (EvMkdir d)) _ s _ tt eq_refl).
  apply (components_outcome d (prefixes d) (with_trace (trace s ++ [EvMkdir d]) s)).
  intros q Hq. by apply prefixes_spec in Hq as [Hq _].
Qed.

(** The directories of a layout, one after the other: the first file in the
    way, if there is one, ends it. *)
Lemma layout_outcome (ds : list Path) (s : state) :
  match fst (for_each ds mkdir_parents s) with
  | Ret _ => forall d q, d ∈ ds -> q ∈ prefixes d -> is_file (fs s) q = false
  | Raise e =>
      exists d q, d ∈ ds /\ q ∈ prefixes d /\ is_file (fs s) q = true /\ e = mkdir_error d q
  end.
Proof.
  revert s. induction ds as [|d ds IH]; intros s; simpl.
  - intros d q Hd. by apply not_elem_of_nil in Hd.
  - pose proof (mkdir_parents_outcome d s) as H1.
    destruct (mkdir_parents_spec d s _ eq_refl) as (_ & Hg & _).
    destruct (mkdir_parents d s) as [[[]|e] s1] eqn:E1; simpl in H1, Hg.
    + rewrite (bind_returns _ _ _ _ _ E1). specialize (IH s1).
      destruct (fst (for_each ds mkdir_parents s1)) as [[]|e].
      * intros d' q Hd' Hq. apply elem_of_cons in Hd' as [-> | Hd']; [by apply H1 |].
        rewrite <- (grown_is_file _ _ _ q Hg). by apply (IH d').
      * destruct IH as (d' & q & Hd' & Hq & Hf & ->). exists d', q.
        rewrite (grown_is_file _ _ _ q Hg) in Hf.
        split; [by apply list_elem_of_further | done].
    + rewrite (bind_raises _ _ _ _ _ E1). simpl.
      destruct H1 as (q & Hq & Hf & ->). exists d, q.
      split; [apply list_elem_of_here | done].
Qed.

(** X13: in the filesystem of the model (files and directories, no
    permissions) [_create_directories] returns exactly when no file lies at a
    tool directory of the layout or at a directory above one; otherwise it
    raises for such a file, naming the tool directory it could not make:
    [FileExistsError] when the file is at the tool directory itself and
    [NotADirectoryError] when it is above it. *)
Theorem layout_blocked_by_file (base : Path) (s : state) :
  match fst (_create_directories base s) with
  | Ret _ =>
      forall d q, d ∈ layout_dirs base -> q ∈ prefixes d -> is_file (fs s) q = false
  | Raise e =>
      exists d q, d ∈ layout_dirs base /\ q ∈ prefixes d
                  /\ is_file (fs s) q = true /\ e = mkdir_error d q
  end.
Proof. rewrite create_directories_flat. apply layout_outcome. Qed.

Lemma run_gets (W : world) (base : Path) (s : state) :
  gets (trace (snd (run W base s))) = gets (trace s) ++ run_urls.
Proof.
  destruct (run_reaches_save W base s) as (s1 & -> & <-).
  apply (relates_bind quiet quiet_trans);
    [apply quiet_save_paths_json | intros _; intros ?; reflexivity].
Qed.

Lemma run_raises (W : world) (base : Path) (s : state) (e : exn) :
  fst (run W base s) = Raise e -> e = IsADirectoryError ["binary_paths.json"].
Proof.
  destruct (run_reaches_save W base s) as (s1 & -> & _).
  unfold bind. rewrite save_paths_json_eq.
  destruct (fs s1 !! ["binary_paths.json"]) as [[|data mode]|]; simpl; congruence.
Qed.

(** X14: the exceptions [main] can end with, in the filesystem of the model,
    which has files and directories only: no permissions, no full disk, no
    read-only mount, so the failures those bring are outside this statement.
    There, either the layout could not be made, because a file lies at a tool
    directory under [binaries] or above one, the exception naming the tool
    directory that could not be made, and then no request was made; or all
    the requests of the matrix were made and the manifest could not be
    written because [binary_paths.json] is a directory.  No failure of the
    network, of an archive or of an installation ends [main]. *)
Theorem main_exceptions (W : world) (s : state) (e : exn) :
  fst (main W s) = Raise e ->
  (gets (trace (snd (main W s))) = gets (trace s)
   /\ exists d q, d ∈ layout_dirs ["binaries"] /\ q ∈ prefixes d
                  /\ is_file (fs s) q = true /\ e = mkdir_error d q)
  \/ (gets (trace (snd (main W s))) = gets (trace s) ++ run_urls
      /\ e = IsADirectoryError ["binary_paths.json"]).
Proof.
  assert (main W s = bind (_create_directories ["binaries"])
                         (fun _ => run W ["binaries"]) (with_paths ∅ s)) as ->.
  { unfold main, __init__, bind. simpl.
    destruct (_create_directories ["binaries"] _) as [[[]|e1] s1]; reflexivity. }
  pose proof (layout_outcome (layout_dirs ["binaries"]) (with_paths ∅ s)) as HL.
  rewrite <- create_directories_flat in HL.
  pose proof (quiet_create_directories ["binaries"] (with_paths ∅ s)) as HQ.
  unfold bind.
  destruct (_create_directories ["binaries"] (with_paths ∅ s)) as [[[]|e1] s1];
    simpl in HL, HQ.
  - intros He. right. split; [| by apply (run_raises W ["binaries"] s1)].
    rewrite run_gets. unfold quiet in HQ. by rewrite HQ.
  - simpl. intros [= <-]. left. split; [exact HQ | exact HL].
Qed.

Lemma main_exceptions_witness :
  fst (main happy_world (initial {[ ["binaries"; "linux"] := File "" 420 ]}))
  = Raise (NotADirectoryError ["binaries"; "linux"; "x64"; "ffmpeg"])
  /\ (gets (trace (snd (main happy_world (initial {[ ["binaries"; "linux"] := File "" 420 ]}))))
      = []
      \/ gets (trace (snd (main happy_world
                             (initial {[ ["binaries"; "linux"] := File "" 420 ]}))))
         = [] ++ run_urls).
Proof.
  assert (fst (main happy_world (initial {[ ["binaries"; "linux"] := File "" 420 ]}))
          = Raise (NotADirectoryError ["binaries"; "linux"; "x64"; "ffmpeg"])) as H
    by (vm_compute; reflexivity).
  split; [exact H |].
  destruct (main_exceptions happy_world (initial {[ ["binaries"; "linux"] := File "" 420 ]})
              _ H) as [[G _]|[G _]]; [left | right]; exact G.
Defined.

(** ** The size of the manifest *)

Lemma append_new_NoDup (x : string) (l : list string) : NoDup l -> NoDup (append_new x l).
Proof.
  intros H. unfold append_new. case_bool_decide as Hx; [done |].
  apply NoDup_app. split; [done |]. split; [| apply NoDup_singleton].
  intros y Hy Hy'. by apply list_elem_of_singleton in Hy' as ->.
Qed.

Lemma add_path_duplicate_free (p a t b : string) (paths : gmap string (list string)) :
  duplicate_free paths -> duplicate_free (add_path p a t b paths).
Proof.
  intros H k l. rewrite add_path_eq. intros Hl.
  apply lookup_insert_Some in Hl as [[<- <-]|[Hne Hl]]; [| by apply (H k)].
  apply append_new_NoDup.
  destruct (paths !! manifest_key p a t) as [l0|] eqn:E; simpl;
    [by apply (H _ _ E) | apply NoDup_nil_2].
Qed.

Lemma keeps_duplicate_free_refl (s : state) : keeps_duplicate_free s s.
Proof. intros H. exact H. Qed.

Lemma keeps_duplicate_free_trans (s1 s2 s3 : state) :
  keeps_duplicate_free s1 s2 -> keeps_duplicate_free s2 s3 -> keeps_duplicate_free s1 s3.
Proof. unfold keeps_duplicate_free. auto. Qed.

Lemma keeps_duplicate_free_same (s s' : state) :
  paths_json s' = paths_json s -> keeps_duplicate_free s s'.
Proof. intros E H. by rewrite E. Qed.

Lemma keeps_duplicate_free_log (s : state) (e : event) :
  true = true -> keeps_duplicate_free s (with_trace (trace s ++ [e]) s).
Proof. intros _. by apply keeps_duplicate_free_same. Qed.

Lemma keeps_duplicate_free_add (p a t b : string) :
  cell_call p a t b -> relates keeps_duplicate_free (_add_path p a t b).
Proof. intros _ s Hs. simpl. by apply add_path_duplicate_free. Qed.

Lemma keeps_duplicate_free_get (W : world) (url : string) :
  relates keeps_duplicate_free (session_get W url).
Proof. intros s. rewrite session_get_state. by apply keeps_duplicate_free_same. Qed.

Ltac duplicate_free_frame :=
  first [ exact keeps_duplicate_free_refl | exact keeps_duplicate_free_trans
        | exact keeps_duplicate_free_log | exact keeps_duplicate_free_add
        | apply keeps_duplicate_free_get | assumption
        | intros; apply keeps_duplicate_free_same; reflexivity
        | intros; reflexivity ].

Lemma keeps_duplicate_free_run (W : world) (base : Path) :
  relates keeps_duplicate_free (run W base).
Proof.
  first [ apply relates_run with (hidden := fun _ => true) | apply relates_run ];
    duplicate_free_frame.
Qed.

Lemma keeps_duplicate_free_create_directories (base : Path) :
  relates keeps_duplicate_free (_create_directories base).
Proof.
  first [ apply relates_create_directories with (hidden := fun _ => true)
        | apply relates_create_directories ];
    duplicate_free_frame.
Qed.

Lemma cell_capacity (p a t : string) :
  (p, a) ∈ targets -> t ∈ tools -> length (cell_binaries p a t) = capacity t.
Proof.
  intros Hpa Ht. unfold tools in Ht.
  destruct (target_cases p a Hpa) as [E|[E|[E|[E|E]]]]; injection E as -> ->;
    repeat (apply elem_of_cons in Ht as [-> | Ht]; [reflexivity |]);
    by apply not_elem_of_nil in Ht.
Qed.

(** X15: the manifest at the end of [main], however the run went: no list
    holds a path twice, and the list of a key [{platform}_{arch}_{tool}] has
    at most as many paths as the tool has executables, 2 for ffmpeg, 4 for
    bento4 and 1 for megatools, whatever the counters printed. *)
Theorem manifest_lists_bounded (W : world) (s : state) :
  let final := snd (main W s) in
  forall k l, paths_json final !! k = Some l ->
    NoDup l
    /\ exists p a t, (p, a) ∈ targets /\ t ∈ tools /\ k = manifest_key p a t
                     /\ length l <= capacity t.
Proof.
  set (b := ["binaries"]).
  assert (main W s = bind (_create_directories b) (fun _ => run W b) (with_paths ∅ s)) as E.
  { unfold main, __init__, bind. simpl. fold b.
    destruct (_create_directories b _) as [[[]|e] s1]; reflexivity. }
  simpl. rewrite E. clear E.
  assert (manifest_shape (paths_json
            (snd (bind (_create_directories b) (fun _ => run W b) (with_paths ∅ s))))) as Hs.
  { apply (relates_bind keeps_shape keeps_shape_trans
             (_create_directories b) (fun _ => run W b)).
    - apply keeps_shape_create_directories.
    - intros _. apply keeps_shape_run.
    - simpl. apply manifest_shape_empty. }
  assert (duplicate_free (paths_json
            (snd (bind (_create_directories b) (fun _ => run W b) (with_paths ∅ s))))) as Hd.
  { apply (relates_bind keeps_duplicate_free keeps_duplicate_free_trans
             (_create_directories b) (fun _ => run W b)).
    - apply keeps_duplicate_free_create_directories.
    - intros _. apply keeps_duplicate_free_run.
    - simpl. intros k l H. by rewrite lookup_empty in H. }
  intros k l Hl. split; [by apply (Hd k) |].
  destruct (Hs k l Hl) as (p & a & t & Hpa & Ht & -> & Hx).
  exists p, a, t. repeat split; try done.
  rewrite <- (cell_capacity p a t Hpa Ht).
  rewrite <- (length_map (rel_path p a t) (cell_binaries p a t)).
  apply submseteq_length, NoDup_submseteq; [by apply (Hd _ _ Hl) |].
  intros x Hin. destruct (Hx x Hin) as (bin & Hb & ->).
  apply list_elem_of_fmap. by exists bin.
Qed.

Lemma manifest_lists_bounded_witness :
  exists l,
    paths_json (snd (main happy_world (initial ∅))) !! "windows_x64_ffmpeg" = Some l
    /\ NoDup l /\ length l <= 2.
Proof.
  assert (paths_json (snd (main happy_world (initial ∅))) !! "windows_x64_ffmpeg"
          = Some ["windows/x64/ffmpeg/ffmpeg.exe"; "windows/x64/ffmpeg/ffprobe.exe"]) as H
    by (vm_compute; reflexivity).
  eexists. split; [exact H |].
  destruct (manifest_lists_bounded happy_world (initial ∅) _ _ H) as [Hn _].
  split; [exact Hn | simpl; lia].
Defined.

(** ** Mode changes *)

Section Chmods.

Variable W : world.
Variable base : Path.


















End Chmods.


(** ** The two string tests of the script *)

Lemma length_append (a b : string) :
  String.length (a +:+ b) = String.length a + String.length b.
Proof.
  induction a as [|c a IH]; [by rewrite append_nil |].
  rewrite append_cons. simpl. by rewrite IH.
Qed.

Lemma substring_all (s : string) : String.substring 0 (String.length s) s = s.
Proof. induction s as [|c s IH]; [done |]. simpl. by rewrite IH. Qed.

Lemma substring_skip (pre suf : string) :
  String.substring (String.length pre) (String.length suf) (pre +:+ suf) = suf.
Proof.
  induction pre as [|c pre IH]; [rewrite append_nil; apply substring_all |].
  rewrite append_cons. simpl. exact IH.
Qed.

Lemma substring_split (s : string) (i : nat) :
  i <= String.length s ->
  s = String.substring 0 i s +:+ String.substring i (String.length s - i) s.
Proof.
  revert i. induction s as [|c s IH]; intros i Hi; simpl in Hi.
  - assert (i = 0) as -> by lia. reflexivity.
  - destruct i as [|i]; simpl.
    + by rewrite append_nil, substring_all.
    + rewrite append_cons. f_equal. apply IH. lia.
Qed.

Lemma endswith_suffix (s suffix : string) :
  endswith s suffix = true <-> exists pre, s = pre +:+ suffix.
Proof.
  unfold endswith. split.
  - intros H. apply andb_true_iff in H as [Hk He].
    apply Nat.leb_le in Hk. apply String.eqb_eq in He.
    exists (String.substring 0 (String.length s - String.length suffix) s).
    pose proof (substring_split s (String.length s - String.length suffix)) as Hs.
    replace (String.length s - (String.length s - String.length suffix))
      with (String.length suffix) in Hs by lia.
    rewrite He in Hs. apply Hs. lia.
  - intros [pre ->]. rewrite length_append. apply andb_true_iff. split.
    + apply Nat.leb_le. lia.
    + replace (String.length pre + String.length suffix - String.length suffix)
        with (String.length pre) by lia.
      rewrite substring_skip. apply String.eqb_refl.
Qed.

(** X17: the test of line 153.  An entry of the archive matches the name of
    an executable exactly when the entry's path ends with that name as a
    string: the test does not look at the components of the path, so an
    entry whose last component merely ends with the name matches as well, as
    does the bare name. *)
Theorem entry_matches_by_suffix (zip_info : member) (executable : string) :
  (endswith (filename zip_info) executable = true
   <-> exists pre, filename zip_info = pre +:+ executable)
  /\ (forall dir stem payload err,
        endswith (filename (Member (dir +:+ "/" +:+ stem +:+ executable) payload err))
                 executable = true)
  /\ endswith executable executable = true.
Proof.
  split; [apply endswith_suffix |]. split.
  - intros dir stem payload err. simpl. apply endswith_suffix.
    exists (dir +:+ "/" +:+ stem). by rewrite !append_assoc.
  - apply endswith_suffix. by exists "".
Qed.

Lemma split_on_nonempty (s : string) : split_on "/" s <> [].
Proof.
  destruct s as [|c r]; simpl; [done |].
  destruct (Ascii.eqb c "/"); [done |]. by destruct (split_on "/" r).
Qed.

Lemma split_plain (s : string) : has_slash s = false -> split_on "/" s = [s].
Proof.
  induction s as [|c r IH]; simpl; [done |].
  intros H. apply orb_false_iff in H as [Hc Hr]. rewrite Hc. by rewrite (IH Hr).
Qed.

Lemma split_single (s w : string) : split_on "/" s = [w] -> has_slash s = false.
Proof.
  revert w. induction s as [|c r IH]; intros w; simpl; [done |].
  destruct (Ascii.eqb c "/").
  - intros H. injection H as _ H. by apply split_on_nonempty in H.
  - destruct (split_on "/" r) as [|w' ws] eqn:E; [by apply split_on_nonempty in E |].
    intros H. injection H as _ ->. simpl. by apply (IH w').
Qed.

Lemma pieces_plain (s w : string) : w ∈ split_on "/" s -> has_slash w = false.
Proof.
  revert w. induction s as [|c r IH]; intros w; simpl.
  - intros H. by apply list_elem_of_singleton in H as ->.
  - destruct (Ascii.eqb c "/") eqn:Ec.
    + intros H. apply elem_of_cons in H as [-> | H]; [done | by apply IH].
    + destruct (split_on "/" r) as [|w' ws] eqn:E.
      * intros H. apply list_elem_of_singleton in H as ->. simpl. by rewrite Ec.
      * intros H. apply elem_of_cons in H as [-> | H].
        -- simpl. rewrite Ec. simpl. apply IH, list_elem_of_here.
        -- by apply IH, list_elem_of_further.
Qed.

Lemma last_elem {A} (l : list A) (d : A) : l <> [] -> List.last l d ∈ l.
Proof.
  induction l as [|x l IH]; [done |]. intros _. destruct l as [|y l].
  - apply list_elem_of_here.
  - apply list_elem_of_further. by apply IH.
Qed.

Lemma has_slash_after (pre name : string) : has_slash (pre +:+ "/" +:+ name) = true.
Proof.
  induction pre as [|c pre IH].
  - by rewrite append_nil, append_cons.
  - rewrite append_cons. simpl. rewrite IH. apply orb_true_r.
Qed.

Lemma last_segment_after_slash (pre name : string) :
  has_slash name = false -> last_segment (pre +:+ "/" +:+ name) = name.
Proof.
  intros Hn. unfold last_segment. induction pre as [|c pre IH].
  - rewrite append_nil, append_cons, append_nil. simpl. by rewrite (split_plain name Hn).
  - rewrite append_cons. simpl.
    destruct (split_on "/" (pre +:+ "/" +:+ name)) as [|w ws] eqn:E;
      [by apply split_on_nonempty in E |].
    destruct (Ascii.eqb c "/"); [exact IH |].
    destruct ws as [|w2 ws]; [| exact IH].
    apply split_single in E. by rewrite has_slash_after in E.
Qed.

(** X18: the name in the diagnostic of [_download], line 55.  The part of
    the URL that is printed holds no [/]; for a URL that ends with [/name],
    where [name] holds no [/], it is [name]; and for a URL without any [/] it
    is the whole URL. *)
Theorem diagnostic_names_last_segment (url : string) :
  has_slash (last_segment url) = false
  /\ (forall pre name, has_slash name = false -> url = pre +:+ "/" +:+ name ->
        last_segment url = name)
  /\ (has_slash url = false -> last_segment url = url)
  /\ forall e, download_diagnostic url e
               = "  X " +:+ last_segment url +:+ ": " +:+ str_take 50 (str_exn e).
Proof.
  split; [| split; [| split]].
  - apply (pieces_plain url). apply last_elem, split_on_nonempty.
  - intros pre name Hn ->. by apply last_segment_after_slash.
  - intros H. unfold last_segment. by rewrite (split_plain url H).
  - reflexivity.
Qed.

(** ** What a failed unpacking leaves behind *)

Section Fetched.

Variable W : world.
Variable base : Path.

(** The state after a fetch that went through. *)
Lemma download_fetched (url : string) (dest : Path) (r : response) (s : state) :
  http_get W (length (gets (trace s))) url = GetReturns r ->
  fetch_failure W url dest s = None ->
  _download W url dest s
  = (Ret true,
     with_fs (<[dest := File (written (chunks r)) (open_mode s dest)]> (fs s))
       (with_trace (trace s ++ [EvGet url; EvOpenW dest]) s)).
Proof.
  intros Hget Hf. rewrite download_eq, Hf.
  unfold fetch_failure in Hf. rewrite Hget in Hf. unfold after_attempt. rewrite Hget.
  destruct (http_error r); [discriminate |].
  destruct (open_error (fs s) dest); [discriminate |].
  unfold with_fs, with_trace. simpl. by rewrite <- app_assoc.
Qed.

(** A target of Bento4 whose archive was fetched: what is left is the [try]
    block and the line with the count. *)
Lemma bento4_target_fetched (p a platform_str : string) (d : list (string * string))
    (r : response) (s : state) :
  assoc p platform_config = Some d ->
  get_platform_str d a = Some platform_str ->
  let zip_path := tool_dir base p a "bento4" ++ ["bento4.zip"] in
  let url := bento4_url platform_str in
  http_get W (length (gets (trace s))) url = GetReturns r ->
  fetch_failure W url zip_path s = None ->
  bento4_target W base p a s
  = (try_except (bento4_extract W base p a zip_path)
       (fun e => print ("  X extract: " +:+ str_take 40 (str_exn e))) >>
     let* n := get_success in print (str_nat n +:+ "/4"))
      (with_success 0
         (with_fs (<[zip_path := File (written (chunks r)) (open_mode s zip_path)]> (fs s))
            (with_trace (trace s ++ [EvGet url; EvOpenW zip_path]) (labelled p a s)))).
Proof.
  intros Hd Hg zip_path url Hget Hf. unfold bento4_target.
  rewrite (bind_returns _ _ s (labelled p a s) tt eq_refl).
  rewrite (bind_returns (dict_index platform_config p) _ _ (labelled p a s) d);
    [| unfold dict_index; by rewrite Hd].
  rewrite Hg. cbv zeta. fold zip_path. fold url.
  rewrite (bind_returns _ _ _ _ _
             (download_fetched url zip_path r (labelled p a s) Hget Hf)).
  cbn [negb]. by rewrite (bind_returns (set_success 0) _ _ _ tt eq_refl).
Qed.

Lemma megatools_target_fetched (p a platform_str extension executable : string)
    (d : list (string * (string * string * string))) (r : response) (s : state) :
  assoc p config = Some d ->
  assoc a d = Some (platform_str, extension, executable) ->
  let archive_path := tool_dir base p a "megatools" ++ ["megatools" +:+ extension] in
  let url := megatools_url platform_str extension in
  http_get W (length (gets (trace s))) url = GetReturns r ->
  fetch_failure W url archive_path s = None ->
  megatools_target W base p a s
  = (try_except (megatools_extract W base p a extension executable archive_path)
       (fun e => print ("  X extract: " +:+ str_take 40 (str_exn e))) >>
     let* n := get_success in print (str_nat n +:+ "/1"))
      (with_success 0
         (with_fs (<[archive_path := File (written (chunks r))
                                       (open_mode s archive_path)]> (fs s))
            (with_trace (trace s ++ [EvGet url; EvOpenW archive_path]) (labelled p a s)))).
Proof.
  intros Hd Ha archive_path url Hget Hf. unfold megatools_target.
  rewrite (bind_returns _ _ s (labelled p a s) tt eq_refl).
  rewrite (bind_returns (dict_index config p) _ _ (labelled p a s) d);
    [| unfold dict_index; by rewrite Hd].
  rewrite Ha. cbv zeta. fold archive_path. fold url.
  rewrite (bind_returns _ _ _ _ _
             (download_fetched url archive_path r (labelled p a s) Hget Hf)).
  cbn [negb]. by rewrite (bind_returns (set_success 0) _ _ _ tt eq_refl).
Qed.

End Fetched.

(** X19: a fetched archive of Bento4 that is no zip file.  The target
    returns; it prints the label, [  X extract: File is not a zip file] and
    [0/4]; the archive was read once and is left where it was fetched to, it
    is not removed; nothing else changed on the filesystem and the manifest
    is as it was. *)
Theorem bento4_bad_archive_stays (W : world) (base : Path) (p a platform_str : string)
    (d : list (string * string)) (r : response) (s : state) :
  assoc p platform_config = Some d ->
  get_platform_str d a = Some platform_str ->
  let zip_path := tool_dir base p a "bento4" ++ ["bento4.zip"] in
  let url := bento4_url platform_str in
  http_get W (length (gets (trace s))) url = GetReturns r ->
  fetch_failure W url zip_path s = None ->
  unzip W (written (chunks r)) = None ->
  let s' := snd (bento4_target W base p a s) in
  fst (bento4_target W base p a s) = Ret tt
  /\ stdout s' = stdout s ++ [p +:+ "-" +:+ a +:+ ": ";
                             "  X extract: File is not a zip file" +:+ nl; "0/4" +:+ nl]
  /\ fs s' = <[zip_path := File (written (chunks r)) (open_mode s zip_path)]> (fs s)
  /\ paths_json s' = paths_json s
  /\ trace s' = trace s ++ [EvGet url; EvOpenW zip_path; EvRead zip_path].
Proof.
  intros Hd Hg zip_path url Hget Hf Hz.
  assert (zip_path <> []) as Hne
    by (unfold zip_path; by destruct (tool_dir base p a "bento4")).
  simpl. remember (bento4_target W base p a s) as res eqn:Eres.
  rewrite (bento4_target_fetched W base p a platform_str d r s Hd Hg Hget Hf) in Eres.
  fold zip_path in Eres. fold url in Eres.
  set (s2 := with_success 0 _) in Eres.
  assert (bento4_extract W base p a zip_path s2
          = (Raise (BadArchive "File is not a zip file"),
             with_trace (trace s2 ++ [EvRead zip_path]) s2)) as E.
  { unfold bento4_extract, zip_open.
    pose proof (read_file_eq zip_path s2) as Er. simpl in Er.
    rewrite (fs_lookup_nonempty _ _ Hne) in Er.
    unfold s2 in Er at 1. simpl in Er. rewrite lookup_insert_eq in Er.
    apply bind_raises. rewrite (bind_returns _ _ _ _ _ Er). by rewrite Hz. }
  unfold bind at 1, try_except in Eres. rewrite E in Eres.
  subst res. unfold s2. simpl. rewrite <- !app_assoc. by simpl.
Qed.

Lemma bento4_bad_archive_stays_witness :
  fst (bento4_target flaky_world ["binaries"] "darwin" "x64"
         (with_trace [EvGet "first"] after_layout)) = Ret tt
  /\ fs (snd (bento4_target flaky_world ["binaries"] "darwin" "x64"
                (with_trace [EvGet "first"] after_layout)))
     = <[ ["binaries"; "darwin"; "x64"; "bento4"; "bento4.zip"]
          := File ("GET " +:+ bento4_url "universal-apple-macosx") 420 ]> (fs after_layout).
Proof.
  pose proof (bento4_bad_archive_stays flaky_world ["binaries"] "darwin" "x64"
                "universal-apple-macosx"
                [("x64", "universal-apple-macosx"); ("arm64", "universal-apple-macosx")]
                (Response 200 "OK" (bento4_url "universal-apple-macosx") ["GET "; bento4_url "universal-apple-macosx"] None)
                (with_trace [EvGet "first"] after_layout)
                eq_refl eq_refl eq_refl) as H.
  simpl in H.
  assert (fetch_failure flaky_world (bento4_url "universal-apple-macosx")
            (tool_dir ["binaries"] "darwin" "x64" "bento4" ++ ["bento4.zip"])
            (with_trace [EvGet "first"] after_layout) = None) as Hf
    by (vm_compute; reflexivity).
  destruct (H Hf eq_refl) as (H1 & _ & H3 & _).
  split; [exact H1 |]. rewrite H3. by f_equal.
Defined.

Lemma mkdir_exist_ok_fresh (p : Path) (s : state) :
  p <> [] -> fs s !! p = None -> fs_lookup (fs s) (removelast p) = Some Dir ->
  mkdir_exist_ok p s
  = (Ret tt, with_fs (<[p := Dir]> (fs s)) (with_trace (trace s ++ [EvMkdir p]) s)).
Proof.
  intros Hp Hn Hd. unfold mkdir_exist_ok, bind, log, get_fs, parent_error. simpl.
  by rewrite (fs_lookup_nonempty _ _ Hp), Hn, Hd.
Qed.

(** X20: a fetched archive of megatools that cannot be opened, in a tool
    directory that exists and has no [temp] entry yet.  The target returns
    and prints the label, the diagnostic of the archive reader and [0/1];
    nothing is recorded; and both the archive and the [temp] directory, made
    before the archive was opened, are left behind. *)
Theorem megatools_bad_archive_leaves_scratch (W : world) (base : Path)
    (p a platform_str extension executable : string)
    (d : list (string * (string * string * string))) (r : response) (s : state) :
  assoc p config = Some d ->
  assoc a d = Some (platform_str, extension, executable) ->
  let dir := tool_dir base p a "megatools" in
  let archive_path := dir ++ ["megatools" +:+ extension] in
  let temp_dir := dir ++ ["temp"] in
  let url := megatools_url platform_str extension in
  http_get W (length (gets (trace s))) url = GetReturns r ->
  fetch_failure W url archive_path s = None ->
  fs s !! dir = Some Dir ->
  fs s !! temp_dir = None ->
  (if String.eqb extension ".zip" then unzip W (written (chunks r))
   else untar W (written (chunks r))) = None ->
  let s' := snd (megatools_target W base p a s) in
  fst (megatools_target W base p a s) = Ret tt
  /\ stdout s'
     = stdout s ++ [p +:+ "-" +:+ a +:+ ": ";
                    ("  X extract: " +:+ (if String.eqb extension ".zip"
                                          then "File is not a zip file"
                                          else "not a gzip file")) +:+ nl;
                    "0/1" +:+ nl]
  /\ fs s' = <[temp_dir := Dir]>
               (<[archive_path := File (written (chunks r)) (open_mode s archive_path)]>
                  (fs s))
  /\ paths_json s' = paths_json s
  /\ trace s' = trace s ++ [EvGet url; EvOpenW archive_path; EvMkdir temp_dir;
                            EvRead archive_path].
Proof.
  intros Hd Ha dir archive_path temp_dir url Hget Hf Hdir Htemp Hbad.
  assert (dir <> []) as Hdne by (unfold dir, tool_dir; by destruct base).
  assert (archive_path <> []) as Hane by (unfold archive_path; by destruct dir).
  assert (temp_dir <> []) as Htne by (unfold temp_dir; by destruct dir).
  assert (temp_dir <> archive_path) as Hta.
  { unfold temp_dir, archive_path. intros H. apply app_inv_head in H.
    injection H; intros; discriminate. }
  assert (dir <> archive_path) as Hda.
  { unfold archive_path. intros H. apply (f_equal length) in H.
    rewrite length_app in H. simpl in H. lia. }
  simpl. remember (megatools_target W base p a s) as res eqn:Eres.
  rewrite (megatools_target_fetched W base p a platform_str extension executable d r s
             Hd Ha Hget Hf) in Eres.
  fold dir in Eres. fold archive_path in Eres. fold url in Eres.
  set (f1 := <[archive_path := _]> (fs s)) in *.
  set (s2 := with_success 0 _) in Eres.
  set (s3 := with_fs (<[temp_dir := Dir]> f1) (with_trace (trace s2 ++ [EvMkdir temp_dir]) s2)).
  set (msg := if String.eqb extension ".zip" then "File is not a zip file"
              else "not a gzip file").
  assert (mkdir_exist_ok temp_dir s2 = (Ret tt, s3)) as E1.
  { apply mkdir_exist_ok_fresh; [done | |].
    - unfold s2. simpl. unfold f1. by rewrite lookup_insert_ne.
    - unfold temp_dir. rewrite removelast_last, (fs_lookup_nonempty _ _ Hdne).
      unfold s2. simpl. unfold f1. by rewrite lookup_insert_ne. }
  assert (megatools_extract W base p a extension executable archive_path s2
          = (Raise (BadArchive msg), with_trace (trace s3 ++ [EvRead archive_path]) s3)) as E.
  { unfold megatools_extract. fold dir. fold temp_dir.
    rewrite (bind_returns _ _ _ _ _ E1). apply bind_raises. apply bind_raises.
    pose proof (read_file_eq archive_path s3) as Er. simpl in Er.
    rewrite (fs_lookup_nonempty _ _ Hane) in Er.
    rewrite lookup_insert_ne in Er by done. unfold f1 in Er at 1.
    rewrite lookup_insert_eq in Er. unfold msg.
    destruct (String.eqb extension ".zip"); unfold zip_open, tar_open;
      rewrite (bind_returns _ _ _ _ _ Er); by rewrite Hbad. }
  unfold bind at 1, try_except in Eres. rewrite E in Eres.
  assert (str_take 40 (str_exn (BadArchive msg)) = msg) as Em
    by (unfold msg; by destruct (String.eqb extension ".zip")).
  rewrite Em in Eres.
  subst res. unfold s3, s2. simpl. rewrite <- !app_assoc. by simpl.
Qed.

Lemma megatools_bad_archive_leaves_scratch_witness :
  fst (megatools_target flaky_world ["binaries"] "windows" "x64"
         (with_trace [EvGet "first"] after_layout)) = Ret tt
  /\ fs (snd (megatools_target flaky_world ["binaries"] "windows" "x64"
                (with_trace [EvGet "first"] after_layout)))
     !! ["binaries"; "windows"; "x64"; "megatools"; "temp"] = Some Dir.
Proof.
  pose proof (megatools_bad_archive_leaves_scratch flaky_world ["binaries"] "windows" "x64"
                "win64" ".zip" "megatools.exe"
                [("x64", ("win64", ".zip", "megatools.exe"))]
                (Response 200 "OK" (megatools_url "win64" ".zip") ["GET "; megatools_url "win64" ".zip"] None)
                (with_trace [EvGet "first"] after_layout)
                eq_refl eq_refl eq_refl) as H.
  simpl in H.
  assert (fetch_failure flaky_world (megatools_url "win64" ".zip")
            (tool_dir ["binaries"] "windows" "x64" "megatools" ++ ["megatools" +:+ ".zip"])
            (with_trace [EvGet "first"] after_layout) = None) as Hf
    by (vm_compute; reflexivity).
  assert (fs (with_trace [EvGet "first"] after_layout)
            !! tool_dir ["binaries"] "windows" "x64" "megatools" = Some Dir) as Hd
    by (vm_compute; reflexivity).
  assert (fs (with_trace [EvGet "first"] after_layout)
            !! (tool_dir ["binaries"] "windows" "x64" "megatools" ++ ["temp"]) = None) as Ht
    by (vm_compute; reflexivity).
  destruct (H Hf Hd Ht eq_refl) as (H1 & _ & H3 & _).
  split; [exact H1 |]. rewrite H3. apply lookup_insert_eq.
Defined.

(** ** Recording, and what an installation leaves *)

(** X21: [_add_path] only ever appends.  Every other key keeps its list;
    the list of the key stays as it is when it holds the path already, and is
    the old list followed by the path otherwise (the empty list counts as old
    for a new key): nothing is removed and nothing is reordered. *)
Theorem add_path_only_appends (p a t b : string) (paths : gmap string (list string)) :
  let key := manifest_key p a t in
  let old := default [] (paths !! key) in
  let new := add_path p a t b paths in
  (forall k, k <> key -> new !! k = paths !! k)
  /\ (rel_path p a t b ∈ old -> new !! key = Some old)
  /\ (rel_path p a t b ∉ old -> new !! key = Some (old ++ [rel_path p a t b])).
Proof.
  simpl. split; [| split].
  - intros k Hk. by apply add_path_lookup_ne.
  - intros H. rewrite add_path_lookup. unfold append_new. by rewrite bool_decide_eq_true_2.
  - intros H. rewrite add_path_lookup. unfold append_new. by rewrite bool_decide_eq_false_2.
Qed.

Lemma relates_returned (R : state -> state -> Prop) {A} (m : M A) (s s' : state) (a : A) :
  relates R m -> m s = (Ret a, s') -> R s s'.
Proof. intros H E. specialize (H s). by rewrite E in H. Qed.

(** X22: an installation of an executable of Bento4 that completes, lines
    154 to 170.  The path is recorded and the counter went up by one; and for
    a platform other than windows the destination exists, and when it is a
    file its mode is 0755. *)
Theorem bento4_install_completed (base : Path) (p a executable : string)
    (zip_info : member) (s s' : state) :
  bento4_install base p a zip_info executable s = (Ret tt, s') ->
  executable <> "temp" ->
  let dst := tool_dir base p a "bento4" ++ [executable] in
  paths_json s' = add_path p a "bento4" executable (paths_json s)
  /\ success s' = success s + 1
  /\ (p <> "windows" ->
      exists n, fs s' !! dst = Some n /\ forall data mode, n = File data mode -> mode = 493%Z).
Proof.
  intros H Hexe dst. unfold bento4_install in H. fold dst in H.
  set (temp := tool_dir base p a "bento4" ++ ["temp"]) in *.
  apply bind_inv in H as ([] & s1 & E1 & H).
  apply bind_inv in H as ([] & s2 & E2 & H).
  apply bind_inv in H as ([] & s3 & E3 & H).
  apply bind_inv in H as ([] & s4 & E4 & H).
  apply bind_inv in H as ([] & s5 & E5 & H).
  apply bind_inv in H as ([] & s6 & E6 & H).
  apply bind_inv in H as (there & s7 & E7 & H).
  apply (relates_returned _ _ _ _ _ (same_books_mkdir_exist_ok temp)) in E1 as [P1 S1].
  apply (relates_returned _ _ _ _ _ (same_books_extract_member temp zip_info)) in E2
    as [P2 S2].
  apply (relates_returned _ _ _ _ _ (same_books_shutil_move _ _)) in E3 as [P3 S3].
  pose proof (relates_returned _ _ _ _ _ (same_books_chmod p dst) E4) as [P4 S4].
  injection E5 as <-. injection E6 as <-. injection E7 as <- <-. simpl in *.
  assert (paths_json s' = paths_json (with_paths (add_path p a "bento4" executable
                                                    (paths_json s4)) s4)
          /\ success s' = success s4 + 1
          /\ forall k, temp `prefix_of` k \/ fs s' !! k = fs s4 !! k) as (P7 & S7 & F7).
  { destruct (fs_lookup (fs s4) temp) as [n|].
    - pose proof (relates_returned _ _ _ _ _ (same_books_rmtree temp) H) as [P S].
      apply rmtree_returns in H. simpl in *. split; [done |]. split; [done |].
      intros k. destruct (decide (temp `prefix_of` k)) as [Hk|Hk]; [by left | right].
      rewrite H. destruct (fs s4 !! k) as [n'|] eqn:Ek.
      + apply map_lookup_filter_Some. split; [done |]. simpl. unfold under.
        by rewrite bool_decide_eq_false_2.
      + apply map_lookup_filter_None. by left.
    - injection H as <-. simpl. repeat split. intros k. by right. }
  simpl in P7. split; [congruence |]. split; [lia |].
  intros Hp. unfold chmod_unless_windows in E4.
  destruct (String.eqb_spec p "windows") as [->|_]; [done |].
  rewrite chmod_eq in E4. simpl in E4.
  assert (dst <> []) as Hdst by (unfold dst; by destruct (tool_dir base p a "bento4")).
  rewrite (fs_lookup_nonempty _ _ Hdst) in E4.
  destruct (F7 dst) as [Hpre|Hsame].
  { exfalso. apply prefix_length_eq in Hpre; [| by unfold dst, temp; rewrite !length_app].
    unfold temp, dst in Hpre. apply app_inv_head in Hpre. by injection Hpre as <-. }
  rewrite Hsame.
  destruct (fs s3 !! dst) as [[|data mode]|] eqn:Ed; [| | discriminate E4];
    injection E4 as <-; simpl.
  - exists Dir. by rewrite Ed.
  - exists (File data 493). rewrite lookup_insert_eq. split; [done |]. by intros ? ? [= _ <-].
Qed.

Lemma bento4_install_completed_witness :
  fst (bento4_install ["binaries"] "linux" "x64" (sound "sdk/bin/mp4dump") "mp4dump"
         after_layout) = Ret tt
  /\ exists n,
       fs (snd (bento4_install ["binaries"] "linux" "x64" (sound "sdk/bin/mp4dump") "mp4dump"
                  after_layout))
       !! ["binaries"; "linux"; "x64"; "bento4"; "mp4dump"] = Some n
       /\ forall data mode, n = File data mode -> mode = 493%Z.
Proof.
  assert (fst (bento4_install ["binaries"] "linux" "x64" (sound "sdk/bin/mp4dump") "mp4dump"
                 after_layout) = Ret tt) as H by (vm_compute; reflexivity).
  split; [exact H |].
  assert ("mp4dump" <> "temp") as Hn by discriminate.
  assert ("linux" <> "windows") as Hp by discriminate.
  exact (proj2 (proj2 (bento4_install_completed ["binaries"] "linux" "x64" "mp4dump"
                         (sound "sdk/bin/mp4dump") after_layout _
                         (returned_pair _ tt H) Hn)) Hp).
Defined.

(** ** What the counter of the zip variant counts *)

Lemma unobserved_refl (s : state) : unobserved s s.
Proof. split; [apply same_books_refl | done]. Qed.

Lemma unobserved_trans (s1 s2 s3 : state) :
  unobserved s1 s2 -> unobserved s2 s3 -> unobserved s1 s3.
Proof.
  intros [H1 O1] [H2 O2]. split; [by apply (same_books_trans _ s2) | congruence].
Qed.

Lemma unobserved_log (s : state) (e : event) :
  (fun _ : event => true) e = true -> unobserved s (with_trace (trace s ++ [e]) s).
Proof. intros _. by repeat split. Qed.

Ltac unobserved_frame :=
  first [ exact unobserved_refl | exact unobserved_trans | exact unobserved_log
        | assumption | intros; reflexivity | intros; repeat split; reflexivity ].

Tactic Notation "unobservedly" uconstr(lemma) :=
  first [ apply lemma with (hidden := fun _ => true) | apply lemma ];
  unobserved_frame.

Lemma record_all_app (c1 c2 : list (string * string * string * string))
    (paths : gmap string (list string)) :
  record_all (c1 ++ c2) paths = record_all c2 (record_all c1 paths).
Proof. unfold record_all. apply fold_left_app. Qed.

Section Counting.

Variable W : world.
Variable base : Path.
Variables p a : string.

Lemma unobserved_mkdir_exist_ok (q : Path) : relates unobserved (mkdir_exist_ok q).
Proof. unobservedly relates_mkdir_exist_ok. Qed.

Lemma unobserved_extract_member (dest : Path) (m : member) :
  relates unobserved (extract_member dest m).
Proof. unobservedly relates_extract_member. Qed.

Lemma unobserved_shutil_move (src dst : Path) : relates unobserved (shutil_move src dst).
Proof. unobservedly relates_shutil_move. Qed.

Lemma unobserved_chmod (platform_name : string) (q : Path) :
  relates unobserved (chmod_unless_windows platform_name q).
Proof. unobservedly relates_chmod_unless_windows. Qed.

Lemma unobserved_rmtree (q : Path) : relates unobserved (rmtree q).
Proof. unobservedly relates_rmtree. Qed.

Lemma unobserved_unlink (q : Path) : relates unobserved (unlink q).
Proof. unobservedly relates_unlink. Qed.

(** A computation that records, counts and prints nothing makes none of
    the installations. *)
Lemma installed_nothing (c : list string) (r : outcome unit * state) (s : state) :
  unobserved s (snd r) -> (fst r = Ret tt -> c = []) -> installed p a c r s.
Proof.
  intros [[Hp Hs] Ho] Hc. exists []. split; [apply prefix_nil |].
  simpl. repeat split; try done; [lia | by intros H; rewrite (Hc H)].
Qed.

(** One after the other. *)
Lemma installed_seq (c1 c2 : list string) (m1 m2 : M unit) (s : state) :
  installed p a c1 (m1 s) s ->
  (forall s1, m1 s = (Ret tt, s1) -> installed p a c2 (m2 s1) s1) ->
  installed p a (c1 ++ c2) ((m1 >> m2) s) s.
Proof.
  intros (d1 & Hd1 & Hs1 & Hp1 & Ho1 & Hr1) H2. unfold bind.
  destruct (m1 s) as [[[]|e] s1]; simpl in *.
  - rewrite (Hr1 eq_refl) in *.
    destruct (H2 s1 eq_refl) as (d2 & Hd2 & Hs2 & Hp2 & Ho2 & Hr2).
    exists (c1 ++ d2). split; [by apply prefix_app |].
    rewrite length_app. split; [lia |]. split.
    + unfold bento4_calls. rewrite map_app, record_all_app.
      fold (bento4_calls p a c1). fold (bento4_calls p a d2). by rewrite <- Hp1.
    + split; [congruence |]. intros Hr. by rewrite (Hr2 Hr).
  - exists d1. split; [by apply prefix_app_r |]. by repeat split.
Qed.

(** One installation, lines 154 to 170: the recording and the counting are
    next to each other, so it made both or neither. *)
Lemma install_one (zip_info : member) (executable : string) (s : state) :
  installed p a [executable] (bento4_install base p a zip_info executable s) s.
Proof.
  unfold bento4_install. cbv zeta.
  set (temp := tool_dir base p a "bento4" ++ ["temp"]).
  set (dst := tool_dir base p a "bento4" ++ [executable]).
  unfold bind.
  pose proof (unobserved_mkdir_exist_ok temp s) as H1.
  destruct (mkdir_exist_ok temp s) as [[[]|e1] s1]; simpl in H1;
    [| by apply installed_nothing].
  pose proof (unobserved_extract_member temp zip_info s1) as H2.
  destruct (extract_member temp zip_info s1) as [[[]|e2] s2]; simpl in H2;
    [| by apply installed_nothing; [apply (unobserved_trans _ s1) |]].
  pose proof (unobserved_shutil_move (path_join temp (filename zip_info)) dst s2) as H3.
  destruct (shutil_move _ dst s2) as [[[]|e3] s3]; simpl in H3;
    [| by apply installed_nothing;
          [apply (unobserved_trans _ s1), (unobserved_trans _ s2) |]].
  pose proof (unobserved_chmod p dst s3) as H4.
  destruct (chmod_unless_windows p dst s3) as [[[]|e4] s4]; simpl in H4;
    [| by apply installed_nothing;
          [apply (unobserved_trans _ s1), (unobserved_trans _ s2),
             (unobserved_trans _ s3) |]].
  assert (unobserved s s4) as [[P4 S4] O4]
    by (by apply (unobserved_trans _ s1), (unobserved_trans _ s2), (unobserved_trans _ s3)).
  unfold _add_path, incr_success, path_exists, bind, get_paths, set_paths, get_success,
    set_success, get_fs, ret. simpl.
  set (s6 := with_success _ _).
  assert (forall r, unobserved s6 (snd r) -> installed p a [executable] r s) as Hend.
  { intros r [[Pr Sr] Or]. exists [executable]. split; [done |].
    unfold s6 in Pr, Sr, Or. simpl in Pr, Sr, Or.
    split; [simpl; lia |]. split; [by rewrite Pr, P4 |]. split; [congruence | done]. }
  destruct (fs_lookup (fs s4) temp) as [n|]; [| apply Hend, unobserved_refl].
  apply Hend, unobserved_rmtree.
Qed.

(** The names of one entry. *)
Lemma install_entry (names : list string) (zip_info : member) (s : state) :
  installed p a (entry_matches names zip_info)
    (for_each names (fun executable =>
       if endswith (filename zip_info) executable
       then bento4_install base p a zip_info executable
       else ret tt) s) s.
Proof.
  revert s. induction names as [|e names IH]; intros s.
  - apply installed_nothing; [apply unobserved_refl | done].
  - simpl. unfold entry_matches. simpl. fold (entry_matches names zip_info).
    destruct (endswith (filename zip_info) e).
    + apply (installed_seq [e]); [apply install_one | intros s1 _; apply IH].
    + rewrite (bind_returns (ret tt) _ s s tt eq_refl). apply IH.
Qed.

(** The entries of the archive. *)
Lemma install_entries (names : list string) (ms : list member) (s : state) :
  assoc p executables = Some names ->
  installed p a (archive_matches names ms)
    (for_each ms (fun zip_info =>
       let* names := dict_index executables p in
       for_each names (fun executable =>
         if endswith (filename zip_info) executable
         then bento4_install base p a zip_info executable
         else ret tt)) s) s.
Proof.
  intros Hn. revert s. induction ms as [|m ms IH]; intros s.
  - apply installed_nothing; [apply unobserved_refl | done].
  - simpl. apply installed_seq; [| intros s1 _; apply IH].
    rewrite (bind_returns (dict_index executables p) _ s s names);
      [apply install_entry | unfold dict_index; by rewrite Hn].
Qed.

End Counting.

(** X23: what the counter of Bento4 counts.  For a fetched archive that
    opens as a zip file, the installations the two loops come to are the
    pairs of an entry and a name the entry ends with, entry by entry and name
    by name.  The target returns; the installations made are the first ones of
    these, all of them when no error line was printed; the [k] of the line
    [k/4] is their number, so an entry counts once for each name it ends with
    and two entries that end with the same name both count; and the manifest
    is the one before with one call of [_add_path] for each of them, which
    keeps each name once. *)
Theorem bento4_count_is_matches (W : world) (base : Path) (p a platform_str : string)
    (d : list (string * string)) (names : list string) (r : response)
    (ms : list member) (s : state) :
  assoc p platform_config = Some d ->
  get_platform_str d a = Some platform_str ->
  assoc p executables = Some names ->
  let zip_path := tool_dir base p a "bento4" ++ ["bento4.zip"] in
  let url := bento4_url platform_str in
  http_get W (length (gets (trace s))) url = GetReturns r ->
  fetch_failure W url zip_path s = None ->
  unzip W (written (chunks r)) = Some ms ->
  let s' := snd (bento4_target W base p a s) in
  exists done,
    done `prefix_of` archive_matches names ms
    /\ fst (bento4_target W base p a s) = Ret tt
    /\ List.last (stdout s') "" = str_nat (length done) +:+ "/4" +:+ nl
    /\ paths_json s' = record_all (bento4_calls p a done) (paths_json s)
    /\ (stdout s' = stdout s ++ [p +:+ "-" +:+ a +:+ ": ";
                                 str_nat (length done) +:+ "/4" +:+ nl] ->
        done = archive_matches names ms).
Proof.
  intros Hd Hg Hn zip_path url Hget Hf Hz.
  assert (zip_path <> []) as Hne
    by (unfold zip_path; by destruct (tool_dir base p a "bento4")).
  simpl. remember (bento4_target W base p a s) as res eqn:Eres.
  rewrite (bento4_target_fetched W base p a platform_str d r s Hd Hg Hget Hf) in Eres.
  fold zip_path in Eres. fold url in Eres.
  set (s2 := with_success 0 _) in Eres.
  set (s3 := with_trace (trace s2 ++ [EvRead zip_path]) s2).
  assert (zip_open W zip_path s2 = (Ret ms, s3)) as Eo.
  { unfold zip_open. pose proof (read_file_eq zip_path s2) as Er. simpl in Er.
    rewrite (fs_lookup_nonempty _ _ Hne) in Er.
    unfold s2 in Er at 1. simpl in Er. rewrite lookup_insert_eq in Er.
    rewrite (bind_returns _ _ _ _ _ Er). by rewrite Hz. }
  assert (installed p a (archive_matches names ms ++ [])
            (bento4_extract W base p a zip_path s2) s3) as Hi.
  { unfold bento4_extract. rewrite (bind_returns _ _ _ _ _ Eo).
    apply installed_seq; [by apply install_entries |].
    intros s4 _. apply installed_nothing; [apply unobserved_unlink | done]. }
  rewrite app_nil_r in Hi.
  destruct Hi as (done & Hpre & Hs & Hp & Ho & Hr). exists done.
  unfold bind at 1, try_except in Eres.
  destruct (bento4_extract W base p a zip_path s2) as [[[]|e] s5];
    simpl in Hs, Hp, Ho, Hr; subst res; simpl; rewrite Hs, Ho; simpl;
    rewrite last_last.
  - split; [done |]. split; [done |]. split; [apply append_assoc |].
    split; [done |]. intros _. by apply Hr.
  - split; [done |]. split; [done |]. split; [apply append_assoc |].
    split; [done |]. rewrite <- !app_assoc. simpl. intros H.
    apply app_inv_head in H. discriminate H.
Qed.

Lemma bento4_count_is_matches_witness :
  archive_matches ["mp4decrypt"; "mp4encrypt"; "mp4info"; "mp4dump"]
    (sdk_members ["mp4decrypt"; "mp4encrypt"; "mp4info"; "mp4dump"]
     ++ [sound "sdk/utils/mp4info"])
  = ["mp4decrypt"; "mp4encrypt"; "mp4info"; "mp4dump"; "mp4info"]
  /\ exists done,
       done `prefix_of` ["mp4decrypt"; "mp4encrypt"; "mp4info"; "mp4dump"; "mp4info"]
       /\ List.last (stdout (snd (bento4_target duplicate_world ["binaries"] "linux" "x64"
                                    after_layout))) ""
          = str_nat (length done) +:+ "/4" +:+ nl.
Proof.
  split; [reflexivity |].
  assert (fetch_failure duplicate_world (bento4_url "x86_64-unknown-linux")
            (tool_dir ["binaries"] "linux" "x64" "bento4" ++ ["bento4.zip"])
            after_layout = None) as Hf by (vm_compute; reflexivity).
  destruct (bento4_count_is_matches duplicate_world ["binaries"] "linux" "x64"
              "x86_64-unknown-linux"
              [("x64", "x86_64-unknown-linux"); ("arm64", "x86_64-unknown-linux")]
              ["mp4decrypt"; "mp4encrypt"; "mp4info"; "mp4dump"]
              (Response 200 "OK" (bento4_url "x86_64-unknown-linux") ["GET "; bento4_url "x86_64-unknown-linux"] None)
              (sdk_members ["mp4decrypt"; "mp4encrypt"; "mp4info"; "mp4dump"]
               ++ [sound "sdk/utils/mp4info"])
              after_layout eq_refl eq_refl eq_refl eq_refl Hf eq_refl)
    as (done & H1 & _ & H3 & _).
  exists done. split; [exact H1 | exact H3].
Defined.

(** ** No failure aborts the run, and what was installed stays recorded *)

Lemma recorded_add (p a t b : string) (paths : gmap string (list string)) :
  recorded (add_path p a t b paths) p a t b.
Proof. eexists. split; [apply add_path_lookup | apply append_new_elem]. Qed.

Lemma recorded_keeps (p a t b p' a' t' b' : string) (paths : gmap string (list string)) :
  recorded paths p a t b -> recorded (add_path p' a' t' b' paths) p a t b.
Proof. intros (l & Hl & Hx). exact (add_path_keeps _ _ _ _ _ _ _ _ Hl Hx). Qed.

Lemma recorded_kept (s s' : state) (p a t b : string) :
  keeps_paths s s' -> recorded (paths_json s) p a t b -> recorded (paths_json s') p a t b.
Proof. intros H (l & Hl & Hx). exact (H _ _ _ Hl Hx). Qed.

Lemma recorded_all_keeps (calls : list (string * string * string * string))
    (paths : gmap string (list string)) (p a t b : string) :
  recorded paths p a t b -> recorded (record_all calls paths) p a t b.
Proof.
  revert paths. induction calls as [|c calls IH]; intros paths H; [exact H |].
  apply IH. by apply recorded_keeps.
Qed.

Lemma recorded_all (calls : list (string * string * string * string))
    (paths : gmap string (list string)) (p a t b : string) :
  (p, a, t, b) ∈ calls -> recorded (record_all calls paths) p a t b.
Proof.
  revert paths. induction calls as [|c calls IH]; intros paths H.
  - by apply elem_of_nil in H.
  - apply elem_of_cons in H as [<-|H]; [| by apply IH].
    change (recorded (record_all calls (add_path p a t b paths)) p a t b).
    apply recorded_all_keeps, recorded_add.
Qed.

Lemma for_each_map {A B} (g : A -> B) (f : B -> M unit) (xs : list A) (s : state) :
  for_each (List.map g xs) f s = for_each xs (fun x => f (g x)) s.
Proof.
  revert s. induction xs as [|x xs IH]; intros s; simpl; [done |].
  apply bind_ext. intros _ s1. apply IH.
Qed.

(** The two loops of a tool visit the targets one after the other. *)
Lemma loops_flat (body : string -> string -> M unit) (s : state) :
  for_each platforms (fun pa => for_each pa.2 (body pa.1)) s
  = for_each targets (fun pa => body pa.1 pa.2) s.
Proof.
  unfold targets. rewrite <- for_each_flat_map. apply for_each_ext. intros pa s1.
  by rewrite for_each_map.
Qed.

Lemma loop_split {A} (xs : list A) (n : nat) (x : A) (body : A -> M unit) (s : state) :
  xs !! n = Some x ->
  for_each xs body s
  = (for_each (take n xs) body >> body x >> for_each (drop (S n) xs) body) s.
Proof.
  intros H. rewrite <- (take_drop_middle xs n x H) at 1. rewrite for_each_app.
  reflexivity.
Qed.

Lemma bind_cong_l {A B} (m m' : M A) (k : A -> M B) (s : state) :
  m s = m' s -> bind m k s = bind m' k s.
Proof. unfold bind. by intros ->. Qed.

(** A loop in the middle of a program, cut at the target number [n]. *)
Lemma loop_through (hdr post : M unit) (body : string -> string -> M unit)
    (n : nat) (p a : string) (s : state) :
  targets !! n = Some (p, a) ->
  ((hdr >> for_each platforms (fun pa => for_each pa.2 (body pa.1))) >> post) s
  = ((hdr >> for_each (take n targets) (fun pa => body pa.1 pa.2)) >>
     body p a >>
     (for_each (drop (S n) targets) (fun pa => body pa.1 pa.2) >> post)) s.
Proof.
  intros H. rewrite !bind_assoc. apply bind_ext. intros _ s1.
  rewrite (bind_cong_l _ _ _ _
             (eq_trans (loops_flat body s1)
                (loop_split targets n (p, a) (fun pa => body pa.1 pa.2) s1 H))).
  rewrite !bind_assoc. apply bind_ext. intros _ s2.
  rewrite !bind_assoc. reflexivity.
Qed.

Lemma emits_returns (l : list string) (m : M unit) (s : state) :
  emits l m -> fst (m s) = Ret tt.
Proof. intros H. destruct (H s) as ([] & s' & E & _). by rewrite E. Qed.

(** A step that the run passes through: what it leaves recorded is still
    recorded at the end, when nothing after it loses a path. *)
Lemma passes_through (pre step rest : M unit) (s : state) :
  fst (pre s) = Ret tt -> fst (step (snd (pre s))) = Ret tt ->
  relates keeps_paths rest ->
  keeps_paths (snd (step (snd (pre s)))) (snd ((pre >> step >> rest) s)).
Proof.
  intros H1 H2 Hr. unfold bind.
  destruct (pre s) as [[[]|e] s1]; [| discriminate]. simpl in *.
  destruct (step s1) as [[[]|e] s2]; [| discriminate]. apply Hr.
Qed.

Section Through.

Variable W : world.
Variable base : Path.

Ltac keeps_paths_frame :=
  first [ exact keeps_paths_refl | exact keeps_paths_trans | exact keeps_paths_log
        | exact keeps_paths_fs | exact keeps_paths_stdout | exact keeps_paths_success
        | exact keeps_paths_add | exact (keeps_paths_get W) | assumption
        | intros; reflexivity ].

Lemma keeps_paths_download_ffmpeg : relates keeps_paths (download_ffmpeg W base).
Proof. apply relates_download_ffmpeg with (hidden := fun _ => true); keeps_paths_frame. Qed.

Lemma keeps_paths_download_bento4 : relates keeps_paths (download_bento4 W base).
Proof. apply relates_download_bento4 with (hidden := fun _ => true); keeps_paths_frame. Qed.

Lemma keeps_paths_download_megatools : relates keeps_paths (download_megatools W base).
Proof.
  apply relates_download_megatools with (hidden := fun _ => true); keeps_paths_frame.
Qed.

Lemma keeps_paths_save_paths_json : relates keeps_paths (save_paths_json W).
Proof. apply relates_save_paths_json with (hidden := fun _ => true); keeps_paths_frame. Qed.

Lemma keeps_paths_print (line : string) : relates keeps_paths (print line).
Proof. intros s. by apply keeps_paths_same. Qed.

Lemma keeps_paths_loop (body : string -> string -> M unit) (ts : list (string * string)) :
  ts ⊆ targets ->
  (forall p a, (p, a) ∈ targets -> relates keeps_paths (body p a)) ->
  relates keeps_paths (for_each ts (fun pa => body pa.1 pa.2)).
Proof.
  intros Hts H. apply (relates_for_each _ keeps_paths_refl keeps_paths_trans).
  intros [p a] Hpa. apply H, Hts, Hpa.
Qed.

Ltac keeps_paths_step :=
  first [ apply keeps_paths_print | apply keeps_paths_save_paths_json
        | apply keeps_paths_download_ffmpeg | apply keeps_paths_download_bento4
        | apply keeps_paths_download_megatools
        | apply keeps_paths_loop; [apply subseteq_drop |];
          first [ apply keeps_paths_ffmpeg_target | apply keeps_paths_bento4_target
                | apply keeps_paths_megatools_target ] ].

Ltac keeps_paths_seq :=
  repeat (apply (relates_bind _ keeps_paths_trans); [solve [keeps_paths_step] | intros _]);
  keeps_paths_step.

(** The run passes through every target of every tool, and after a target
    nothing loses a path. *)
Lemma run_through_ffmpeg (n : nat) (p a : string) :
  targets !! n = Some (p, a) ->
  exists rest, relates keeps_paths rest
    /\ forall s, run W base s
                 = (run_to_ffmpeg W base n >> ffmpeg_target W base p a >> rest) s.
Proof.
  intros H.
  exists (for_each (drop (S n) targets) (fun pa => ffmpeg_target W base pa.1 pa.2) >>
          download_bento4 W base >> download_megatools W base >>
          save_paths_json W >> print (nl +:+ "Done!")).
  split; [keeps_paths_seq | intros s].
  unfold run, run_to_ffmpeg.
  rewrite bind_assoc. apply bind_ext. intros _ s1.
  rewrite bind_assoc. apply bind_ext. intros _ s2.
  unfold download_ffmpeg. by apply loop_through.
Qed.

Lemma run_through_bento4 (n : nat) (p a : string) :
  targets !! n = Some (p, a) ->
  exists rest, relates keeps_paths rest
    /\ forall s, run W base s
                 = (run_to_bento4 W base n >> bento4_target W base p a >> rest) s.
Proof.
  intros H.
  exists (for_each (drop (S n) targets) (fun pa => bento4_target W base pa.1 pa.2) >>
          download_megatools W base >> save_paths_json W >> print (nl +:+ "Done!")).
  split; [keeps_paths_seq | intros s].
  unfold run, run_to_bento4.
  rewrite bind_assoc. apply bind_ext. intros _ s1.
  rewrite bind_assoc. apply bind_ext. intros _ s2.
  rewrite bind_assoc. apply bind_ext. intros _ s3.
  unfold download_bento4. by apply loop_through.
Qed.

Lemma run_through_megatools (n : nat) (p a : string) :
  targets !! n = Some (p, a) ->
  exists rest, relates keeps_paths rest
    /\ forall s, run W base s
                 = (run_to_megatools W base n >> megatools_target W base p a >> rest) s.
Proof.
  intros H.
  exists (for_each (drop (S n) targets) (fun pa => megatools_target W base pa.1 pa.2) >>
          save_paths_json W >> print (nl +:+ "Done!")).
  split; [keeps_paths_seq | intros s].
  unfold run, run_to_megatools.
  rewrite bind_assoc. apply bind_ext. intros _ s1.
  rewrite bind_assoc. apply bind_ext. intros _ s2.
  rewrite bind_assoc. apply bind_ext. intros _ s3.
  rewrite bind_assoc. apply bind_ext. intros _ s4.
  unfold download_megatools. by apply loop_through.
Qed.

(** Up to a target the run always returns. *)
Lemma loop_emits (urls : string -> string -> list string)
    (body : string -> string -> M unit) (ts : list (string * string)) :
  ts ⊆ targets ->
  (forall p a, (p, a) ∈ targets -> emits (urls p a) (body p a)) ->
  emits (flat_map (fun pa => urls pa.1 pa.2) ts) (for_each ts (fun pa => body pa.1 pa.2)).
Proof.
  intros Hts H. apply (emits_for_each (fun pa => urls pa.1 pa.2)).
  intros [p a] Hpa. apply H, Hts, Hpa.
Qed.

Lemma run_to_ffmpeg_returns (n : nat) (s : state) : fst (run_to_ffmpeg W base n s) = Ret tt.
Proof.
  eapply emits_returns. unfold run_to_ffmpeg.
  apply emits_seq; [apply emits_print | intros _].
  apply emits_seq; [apply emits_print | intros _].
  apply emits_seq; [apply emits_print | intros _].
  apply (loop_emits ffmpeg_urls); [apply subseteq_take | apply emits_ffmpeg_target].
Qed.

Lemma run_to_bento4_returns (n : nat) (s : state) : fst (run_to_bento4 W base n s) = Ret tt.
Proof.
  eapply emits_returns. unfold run_to_bento4.
  apply emits_seq; [apply emits_print | intros _].
  apply emits_seq; [apply emits_print | intros _].
  eapply emits_bind; [apply emits_download_ffmpeg | intros _].
  apply emits_seq; [apply emits_print | intros _].
  apply (loop_emits bento4_urls); [apply subseteq_take | apply emits_bento4_target].
Qed.

Lemma run_to_megatools_returns (n : nat) (s : state) :
  fst (run_to_megatools W base n s) = Ret tt.
Proof.
  eapply emits_returns. unfold run_to_megatools.
  apply emits_seq; [apply emits_print | intros _].
  apply emits_seq; [apply emits_print | intros _].
  eapply emits_bind; [apply emits_download_ffmpeg | intros _].
  eapply emits_bind; [apply emits_download_bento4 | intros _].
  apply emits_seq; [apply emits_print | intros _].
  apply (loop_emits megatools_urls); [apply subseteq_take | apply emits_megatools_target].
Qed.

(** What a target of ffmpeg fetched and unpacked is in the manifest it
    leaves. *)
Lemma ffmpeg_target_recorded (p a platform_str : string) (d : list (string * string))
    (s : state) :
  assoc p ffmpeg_map = Some d ->
  get_platform_str d a = Some platform_str ->
  let s0 := with_success 0 (labelled p a s) in
  let s1 := snd (ffmpeg_executable W base p a platform_str "ffmpeg" s0) in
  let after := paths_json (snd (ffmpeg_target W base p a s)) in
  (ffmpeg_unpacks W base p a platform_str "ffmpeg" s0 = true ->
   recorded after p a "ffmpeg" ("ffmpeg" +:+ exe_ext p))
  /\ (ffmpeg_unpacks W base p a platform_str "ffprobe" s1 = true ->
      recorded after p a "ffmpeg" ("ffprobe" +:+ exe_ext p)).
Proof.
  intros Hd Hg s0 s1 after.
  destruct (ffmpeg_target_books W base p a platform_str d s Hd Hg) as (_ & _ & _ & P).
  fold s0 s1 in P. unfold after. rewrite P. split; intros ->; simpl.
  - destruct (ffmpeg_unpacks W base p a platform_str "ffprobe" s1); simpl;
      [apply recorded_keeps |]; apply recorded_add.
  - apply recorded_add.
Qed.

(** What a target of megatools installed is in the manifest it leaves. *)
Lemma megatools_target_recorded (p a platform_str extension executable : string)
    (d : list (string * (string * string * string))) (s : state) :
  assoc p config = Some d ->
  assoc a d = Some (platform_str, extension, executable) ->
  megatools_installs W base p a platform_str extension executable (labelled p a s) = true ->
  recorded (paths_json (snd (megatools_target W base p a s))) p a "megatools" executable.
Proof.
  intros Hd Ha Hb.
  destruct (megatools_target_books W base p a executable platform_str extension d s Hd Ha)
    as (_ & _ & P).
  rewrite P, Hb. apply recorded_add.
Qed.

(** Every match of an archive of Bento4 whose [try] block completed is in
    the manifest the target leaves. *)
Lemma bento4_target_recorded (p a platform_str : string) (d : list (string * string))
    (names : list string) (r : response) (ms : list member) (s : state) :
  assoc p platform_config = Some d ->
  get_platform_str d a = Some platform_str ->
  assoc p executables = Some names ->
  http_get W (length (gets (trace s))) (bento4_url platform_str) = GetReturns r ->
  unzip W (written (chunks r)) = Some ms ->
  bento4_unpacks W base p a platform_str (labelled p a s) = true ->
  forall e, e ∈ archive_matches names ms ->
    recorded (paths_json (snd (bento4_target W base p a s))) p a "bento4" e.
Proof.
  intros Hd Hg Hn Hget Hz Hb e He.
  set (zip_path := tool_dir base p a "bento4" ++ ["bento4.zip"]).
  set (url := bento4_url platform_str).
  assert (zip_path <> []) as Hne
    by (unfold zip_path; by destruct (tool_dir base p a "bento4")).
  assert (fetch_failure W url zip_path s = None) as Hf.
  { unfold bento4_unpacks in Hb. fold zip_path url in Hb.
    rewrite download_eq in Hb.
    change (fetch_failure W url zip_path (labelled p a s))
      with (fetch_failure W url zip_path s) in Hb.
    by destruct (fetch_failure W url zip_path s). }
  unfold bento4_unpacks in Hb. fold zip_path url in Hb.
  rewrite (download_fetched W url zip_path r (labelled p a s) Hget Hf) in Hb.
  remember (bento4_target W base p a s) as res eqn:Eres.
  rewrite (bento4_target_fetched W base p a platform_str d r s Hd Hg Hget Hf) in Eres.
  fold zip_path in Eres. fold url in Eres.
  set (s2 := with_success 0 _) in Eres.
  change (match fst (bento4_extract W base p a zip_path s2) with
          | Ret _ => true
          | Raise _ => false
          end = true) in Hb.
  set (s3 := with_trace (trace s2 ++ [EvRead zip_path]) s2).
  assert (zip_open W zip_path s2 = (Ret ms, s3)) as Eo.
  { unfold zip_open. pose proof (read_file_eq zip_path s2) as Er. simpl in Er.
    rewrite (fs_lookup_nonempty _ _ Hne) in Er.
    unfold s2 in Er at 1. simpl in Er. rewrite lookup_insert_eq in Er.
    rewrite (bind_returns _ _ _ _ _ Er). by rewrite Hz. }
  assert (installed p a (archive_matches names ms ++ [])
            (bento4_extract W base p a zip_path s2) s3) as Hi.
  { unfold bento4_extract. rewrite (bind_returns _ _ _ _ _ Eo).
    apply installed_seq; [by apply install_entries |].
    intros s4 _. apply installed_nothing; [apply unobserved_unlink | done]. }
  rewrite app_nil_r in Hi.
  destruct Hi as (done & Hpre & Hs & Hp & Ho & Hr).
  unfold bind at 1, try_except in Eres.
  destruct (bento4_extract W base p a zip_path s2) as [[[]|e'] s5]; [| discriminate Hb].
  simpl in Hp, Hr. subst res. simpl. rewrite Hp, (Hr eq_refl).
  apply recorded_all. unfold bento4_calls.
  apply list_elem_of_In, (in_map (fun e0 => (p, a, "bento4", e0))). by apply list_elem_of_In.
Qed.

End Through.

(** C4: whatever the network, the archives and the filesystem do, no target
    of any tool lets an exception out: each returns after asking for its own
    URLs, the three loops always arrive at [save_paths_json] having asked for
    all 20 URLs of the matrix in order, and nothing that was recorded in the
    manifest is lost again, neither by a later target nor by the end of the
    run.  The run passes through every target of every tool: it is the run up
    to that target, which returns, then the target, then a rest.  And what a
    target installs is in the manifest at the end of the run, whatever
    happened to the other targets: an executable of ffmpeg that was fetched
    and unpacked, every entry of an archive of Bento4 that matches a name when
    the [try] block completed, the executable of megatools when it was found
    and moved into place. *)
Theorem failures_do_not_abort (W : world) (base : Path) (s : state) (p a : string)
    (n : nat) :
  targets !! n = Some (p, a) ->
  let final := paths_json (snd (run W base s)) in
  let at_ffmpeg := snd (run_to_ffmpeg W base n s) in
  let at_bento4 := snd (run_to_bento4 W base n s) in
  let at_megatools := snd (run_to_megatools W base n s) in
  (emits (ffmpeg_urls p a) (ffmpeg_target W base p a)
   /\ emits (bento4_urls p a) (bento4_target W base p a)
   /\ emits (megatools_urls p a) (megatools_target W base p a))
  /\ (relates keeps_paths (ffmpeg_target W base p a)
      /\ relates keeps_paths (bento4_target W base p a)
      /\ relates keeps_paths (megatools_target W base p a))
  /\ (exists s1, run W base s = (save_paths_json W >> print (nl +:+ "Done!")) s1
                 /\ gets (trace s1) = gets (trace s) ++ run_urls)
  /\ gets (trace (snd (run W base s))) = gets (trace s) ++ run_urls
  /\ length run_urls = 20
  /\ keeps_paths s (snd (run W base s))
  /\ (exists rest_ffmpeg rest_bento4 rest_megatools,
        (forall s0, run W base s0
                    = (run_to_ffmpeg W base n >> ffmpeg_target W base p a >> rest_ffmpeg) s0)
        /\ (forall s0, run W base s0
                       = (run_to_bento4 W base n >> bento4_target W base p a
                          >> rest_bento4) s0)
        /\ (forall s0, run W base s0
                       = (run_to_megatools W base n >> megatools_target W base p a
                          >> rest_megatools) s0))
  /\ (fst (run_to_ffmpeg W base n s) = Ret tt
      /\ fst (run_to_bento4 W base n s) = Ret tt
      /\ fst (run_to_megatools W base n s) = Ret tt)
  /\ (forall platform_str d,
        assoc p ffmpeg_map = Some d ->
        get_platform_str d a = Some platform_str ->
        let s0 := with_success 0 (labelled p a at_ffmpeg) in
        let s1 := snd (ffmpeg_executable W base p a platform_str "ffmpeg" s0) in
        (ffmpeg_unpacks W base p a platform_str "ffmpeg" s0 = true ->
         recorded final p a "ffmpeg" ("ffmpeg" +:+ exe_ext p))
        /\ (ffmpeg_unpacks W base p a platform_str "ffprobe" s1 = true ->
            recorded final p a "ffmpeg" ("ffprobe" +:+ exe_ext p)))
  /\ (forall platform_str d names r ms,
        assoc p platform_config = Some d ->
        get_platform_str d a = Some platform_str ->
        assoc p executables = Some names ->
        http_get W (length (gets (trace at_bento4))) (bento4_url platform_str)
        = GetReturns r ->
        unzip W (written (chunks r)) = Some ms ->
        bento4_unpacks W base p a platform_str (labelled p a at_bento4) = true ->
        forall e, e ∈ archive_matches names ms -> recorded final p a "bento4" e)
  /\ (forall platform_str extension executable d,
        assoc p config = Some d ->
        assoc a d = Some (platform_str, extension, executable) ->
        megatools_installs W base p a platform_str extension executable
          (labelled p a at_megatools) = true ->
        recorded final p a "megatools" executable).
Proof.
  intros Hn final at_ffmpeg at_bento4 at_megatools.
  assert ((p, a) ∈ targets) as Ht by exact (list_elem_of_lookup_2 _ _ _ Hn).
  destruct (run_through_ffmpeg W base n p a Hn) as (rest_f & Kf & Ef).
  destruct (run_through_bento4 W base n p a Hn) as (rest_b & Kb & Eb).
  destruct (run_through_megatools W base n p a Hn) as (rest_m & Km & Em).
  pose proof (passes_through _ _ rest_f s (run_to_ffmpeg_returns W base n s)
                (emits_returns _ _ _ (emits_ffmpeg_target W base p a Ht)) Kf) as Pf.
  pose proof (passes_through _ _ rest_b s (run_to_bento4_returns W base n s)
                (emits_returns _ _ _ (emits_bento4_target W base p a Ht)) Kb) as Pb.
  pose proof (passes_through _ _ rest_m s (run_to_megatools_returns W base n s)
                (emits_returns _ _ _ (emits_megatools_target W base p a Ht)) Km) as Pm.
  rewrite <- Ef in Pf. rewrite <- Eb in Pb. rewrite <- Em in Pm.
  split; [| split; [| split; [| split; [| split; [| split; [| split; [| split;
    [| split; [| split]]]]]]]]].
  - repeat split;
      [by apply emits_ffmpeg_target | by apply emits_bento4_target
      | by apply emits_megatools_target].
  - repeat split;
      [by apply keeps_paths_ffmpeg_target | by apply keeps_paths_bento4_target
      | by apply keeps_paths_megatools_target].
  - apply run_reaches_save.
  - destruct (run_reaches_save W base s) as (s1 & -> & <-).
    apply (relates_bind quiet quiet_trans);
      [apply quiet_save_paths_json | intros _; intros ?; reflexivity].
  - reflexivity.
  - apply keeps_paths_run.
  - exists rest_f, rest_b, rest_m. by repeat split.
  - repeat split;
      [apply run_to_ffmpeg_returns | apply run_to_bento4_returns
      | apply run_to_megatools_returns].
  - intros platform_str d Hd Hg s0 s1.
    destruct (ffmpeg_target_recorded W base p a platform_str d at_ffmpeg Hd Hg) as [R1 R2].
    split; intros Hb; apply (recorded_kept _ _ _ _ _ _ Pf); [by apply R1 | by apply R2].
  - intros platform_str d names r ms Hd Hg Hnames Hget Hz Hb e He.
    apply (recorded_kept _ _ _ _ _ _ Pb).
    by apply (bento4_target_recorded W base p a platform_str d names r ms at_bento4).
  - intros platform_str extension executable d Hd Ha Hb.
    apply (recorded_kept _ _ _ _ _ _ Pm).
    by apply (megatools_target_recorded W base p a platform_str extension executable d).
Qed.

Lemma failures_do_not_abort_witness :
  (targets !! 4 = Some ("linux", "arm64")
   /\ ffmpeg_unpacks flaky_world ["binaries"] "linux" "arm64" "linux-arm64" "ffprobe"
        (snd (ffmpeg_executable flaky_world ["binaries"] "linux" "arm64" "linux-arm64"
                "ffmpeg"
                (with_success 0
                   (labelled "linux" "arm64"
                      (snd (run_to_ffmpeg flaky_world ["binaries"] 4 after_layout))))))
      = true
   /\ recorded (paths_json (snd (run flaky_world ["binaries"] after_layout)))
        "linux" "arm64" "ffmpeg" "ffprobe"
   /\ emits (bento4_urls "linux" "arm64")
            (bento4_target flaky_world ["binaries"] "linux" "arm64")
   /\ gets (trace (snd (run flaky_world ["binaries"] after_layout))) = run_urls)
  /\ (targets !! 2 = Some ("darwin", "arm64")
      /\ bento4_unpacks happy_world ["binaries"] "darwin" "arm64" "universal-apple-macosx"
           (labelled "darwin" "arm64"
              (snd (run_to_bento4 happy_world ["binaries"] 2 after_layout))) = true
      /\ recorded (paths_json (snd (run happy_world ["binaries"] after_layout)))
           "darwin" "arm64" "bento4" "mp4info"
      /\ megatools_installs happy_world ["binaries"] "darwin" "arm64" "linux-aarch64"
           ".tar.gz" "megatools"
           (labelled "darwin" "arm64"
              (snd (run_to_megatools happy_world ["binaries"] 2 after_layout))) = true
      /\ recorded (paths_json (snd (run happy_world ["binaries"] after_layout)))
           "darwin" "arm64" "megatools" "megatools").
Proof.
  split.
  - assert (targets !! 4 = Some ("linux", "arm64")) as Hn by reflexivity.
    assert (ffmpeg_unpacks flaky_world ["binaries"] "linux" "arm64" "linux-arm64" "ffprobe"
              (snd (ffmpeg_executable flaky_world ["binaries"] "linux" "arm64" "linux-arm64"
                      "ffmpeg"
                      (with_success 0
                         (labelled "linux" "arm64"
                            (snd (run_to_ffmpeg flaky_world ["binaries"] 4 after_layout))))))
            = true) as Hb by (vm_compute; reflexivity).
    split; [exact Hn |]. split; [exact Hb |].
    pose proof (failures_do_not_abort flaky_world ["binaries"] after_layout
                  "linux" "arm64" 4 Hn)
      as ((_ & E & _) & _ & _ & G & _ & _ & _ & _ & F & _).
    split; [exact (proj2 (F "linux-arm64" _ eq_refl eq_refl) Hb) |].
    split; [exact E | exact G].
  - assert (targets !! 2 = Some ("darwin", "arm64")) as Hn by reflexivity.
    assert (bento4_unpacks happy_world ["binaries"] "darwin" "arm64" "universal-apple-macosx"
              (labelled "darwin" "arm64"
                 (snd (run_to_bento4 happy_world ["binaries"] 2 after_layout))) = true)
      as Hb by (vm_compute; reflexivity).
    assert (megatools_installs happy_world ["binaries"] "darwin" "arm64" "linux-aarch64"
              ".tar.gz" "megatools"
              (labelled "darwin" "arm64"
                 (snd (run_to_megatools happy_world ["binaries"] 2 after_layout))) = true)
      as Hm by (vm_compute; reflexivity).
    assert (unzip happy_world
              (written ["GET "; bento4_url "universal-apple-macosx"])
            = Some (sdk_members ["mp4decrypt"; "mp4encrypt"; "mp4info"; "mp4dump"])) as Hz
      by (vm_compute; reflexivity).
    assert ("mp4info" ∈ archive_matches ["mp4decrypt"; "mp4encrypt"; "mp4info"; "mp4dump"]
                          (sdk_members ["mp4decrypt"; "mp4encrypt"; "mp4info"; "mp4dump"]))
      as He by (vm_compute; in_list).
    split; [exact Hn |]. split; [exact Hb |].
    pose proof (failures_do_not_abort happy_world ["binaries"] after_layout
                  "darwin" "arm64" 2 Hn)
      as (_ & _ & _ & _ & _ & _ & _ & _ & _ & B & M).
    split; [| split; [exact Hm |]].
    + exact (B "universal-apple-macosx" _ _
               (Response 200 "OK" (bento4_url "universal-apple-macosx")
                  ["GET "; bento4_url "universal-apple-macosx"] None)
               _ eq_refl eq_refl eq_refl eq_refl Hz Hb "mp4info" He).
    + exact (M "linux-aarch64" ".tar.gz" "megatools" _ eq_refl eq_refl Hm).
Defined.
